(** * youtube-playlist-builder: the discovery and playlist pipeline

    A shallow embedding of [app/builder_lambda.py] and [app/main.py]:
    the cutoff resolver, the paginated search with its duration filter and
    deduplication, the playlist population loop and the two handlers.

    The YouTube client, the secret store and the configuration store are
    external; they are modelled as oracles that answer a request from the
    history of events so far.  Every request, together with the answer it
    received, and every log call is appended to that history, so that
    statements about "what was attempted" are statements about the trace.

    Conventions.  A log call is recorded with its level and its format
    string (for an f-string, its constant part).  An [execute()] either
    returns the decoded answer or raises [HttpError]; the answers are
    well-formed, that is, the fields the code reads are present.  A
    duration is the rational number that the float of [total_seconds()]
    denotes; Python compares a float with an integer exactly, and so does
    [Qgtb].  String methods are modelled on ASCII: they are Python's on
    ASCII strings, and the statements that depend on them are made for
    ASCII strings. *)

From Stdlib Require Import ZArith QArith Lia Ascii String.
From stdpp Require Import base option list gmap sets strings.

Close Scope Q_scope.
Set Warnings "-register-all,-clear-no-such-hyp".
Local Open Scope list_scope.
Local Open Scope Z_scope.

(** ** Python values that reach the code *)

(** Exceptions the modelled code can raise. *)
Inductive exn :=
| HttpError
| ValueError (msg : string)
| TypeError
| AttributeError
| KeyError (key : string)
| OverflowError
| ISO8601Error
| OSError
| ClientError.

(** A run either returns, raises, or exhausts the fuel of a [while True]. *)
Inductive result (A : Type) :=
| Ok (a : A)
| Raise (e : exn)
| Timeout.
Arguments Ok {A} a.
Arguments Raise {A} e.
Arguments Timeout {A}.

Inductive level := DEBUG | INFO | WARNING | ERROR.

(** ** Requests, responses and the event trace *)

(** One entry of [resp["items"]] of [search().list]: [videoId] is [None]
    when the item has no ["id"] or the id has no ["videoId"]. *)
Record search_item := { it_videoId : option string }.

Record search_response := {
  resp_items : list search_item;
  resp_nextPageToken : option string
}.

(** One entry of [details["items"]] of [videos().list]:
    [v["id"]] and [v["contentDetails"]["duration"]]. *)
Record video_details := { v_id : string; v_duration : string }.

Record search_request := {
  rq_channelId : string;
  rq_q : string;
  rq_publishedAfter : string;
  rq_regionCode : string;
  rq_pageToken : option string
}.

(** ** Truthiness and small string helpers *)

Definition str_truthy (s : string) : bool := negb (String.eqb s "").
Definition ostr_truthy (o : option string) : bool :=
  match o with Some s => str_truthy s | None => false end.

(** [sep.join(l)] *)
Fixpoint join (sep : string) (l : list string) : string :=
  match l with
  | [] => ""
  | [x] => x
  | x :: rest => x +:+ sep +:+ join sep rest
  end.

(** [a > b] on the rationals that Python floats and ints denote. *)
Definition Qgtb (a b : Q) : bool := negb (Qle_bool a b).


(** ** Dates and datetimes, after CPython's [datetime] *)

Record date := { year : Z; month : Z; day : Z }.

(** [utcoffset] is [None] for a naive datetime, else the offset in minutes. *)
Record datetime := {
  dt_date : date;
  hour : Z;
  minute : Z;
  second : Z;
  microsecond : Z;
  utcoffset : option Z
}.

Definition _is_leap (y : Z) : bool :=
  (y mod 4 =? 0) && (negb (y mod 100 =? 0) || (y mod 400 =? 0)).

Definition _DAYS_IN_MONTH (m : Z) : Z :=
  match m with
  | 1 => 31 | 2 => 28 | 3 => 31 | 4 => 30 | 5 => 31 | 6 => 30
  | 7 => 31 | 8 => 31 | 9 => 30 | 10 => 31 | 11 => 30 | 12 => 31
  | _ => 0
  end.

Definition _DAYS_BEFORE_MONTH (m : Z) : Z :=
  match m with
  | 1 => 0 | 2 => 31 | 3 => 59 | 4 => 90 | 5 => 120 | 6 => 151
  | 7 => 181 | 8 => 212 | 9 => 243 | 10 => 273 | 11 => 304 | 12 => 334
  | _ => 0
  end.

Definition _days_before_year (y : Z) : Z :=
  let y := y - 1 in y * 365 + y / 4 - y / 100 + y / 400.

Definition _days_in_month (y m : Z) : Z :=
  if (m =? 2) && _is_leap y then 29 else _DAYS_IN_MONTH m.

Definition _days_before_month (y m : Z) : Z :=
  _DAYS_BEFORE_MONTH m + (if (2 <? m) && _is_leap y then 1 else 0).

Definition _ymd2ord (y m d : Z) : Z :=
  _days_before_year y + _days_before_month y m + d.

Definition _MAXORDINAL : Z := 3652059.
Definition _DI400Y : Z := 146097.
Definition _DI100Y : Z := 36524.
Definition _DI4Y : Z := 1461.

Definition _ord2ymd (n : Z) : date :=
  let n := n - 1 in
  let n400 := n / _DI400Y in let n := n mod _DI400Y in
  let y := n400 * 400 + 1 in
  let n100 := n / _DI100Y in let n := n mod _DI100Y in
  let n4 := n / _DI4Y in let n := n mod _DI4Y in
  let n1 := n / 365 in let n := n mod 365 in
  let y := y + n100 * 100 + n4 * 4 + n1 in
  if (n1 =? 4) || (n100 =? 4) then {| year := y - 1; month := 12; day := 31 |}
  else
    let leapyear := (n1 =? 3) && (negb (n4 =? 24) || (n100 =? 3)) in
    let m := Z.shiftr (n + 50) 5 in
    let preceding := _DAYS_BEFORE_MONTH m + (if (2 <? m) && leapyear then 1 else 0) in
    if n <? preceding then
      let m := m - 1 in
      let preceding :=
        preceding - (_DAYS_IN_MONTH m + (if (m =? 2) && leapyear then 1 else 0)) in
      {| year := y; month := m; day := n - preceding + 1 |}
    else {| year := y; month := m; day := n - preceding + 1 |}.

Definition toordinal (d : date) : Z := _ymd2ord (year d) (month d) (day d).

(** [(a - b).days] for two dates *)
Definition date_sub_days (a b : date) : Z := toordinal a - toordinal b.

Definition valid_date (d : date) : bool :=
  (1 <=? year d) && (year d <=? 9999) && (1 <=? month d) && (month d <=? 12)
  && (1 <=? day d) && (day d <=? _days_in_month (year d) (month d)).

Definition valid_datetime (dt : datetime) : bool :=
  valid_date (dt_date dt) && (0 <=? hour dt) && (hour dt <? 24)
  && (0 <=? minute dt) && (minute dt <? 60) && (0 <=? second dt) && (second dt <? 60)
  && (0 <=? microsecond dt) && (microsecond dt <? 1000000).

(** A [timedelta], as its total number of microseconds. *)
Definition timedelta (days hours : Z) : Z := (days * 86400 + hours * 3600) * 1000000.

(** [dt - delta]: [None] stands for [OverflowError] (the resulting day
    leaves [1 .. _MAXORDINAL]). *)
Definition datetime_sub (dt : datetime) (delta : Z) : option datetime :=
  let total :=
    timedelta (toordinal (dt_date dt)) 0
    + (hour dt * 3600 + minute dt * 60 + second dt) * 1000000 + microsecond dt
    - delta in
  let days := total / 86400000000 in
  let seconds := (total mod 86400000000) / 1000000 in
  let microseconds := total mod 1000000 in
  let hour := seconds / 3600 in
  let rem := seconds mod 3600 in
  if (0 <? days) && (days <=? _MAXORDINAL)
  then Some {| dt_date := _ord2ymd days; hour := hour; minute := rem / 60;
               second := rem mod 60; microsecond := microseconds;
               utcoffset := utcoffset dt |}
  else None.

(** *** Formatting *)

Definition digit_char (n : Z) : ascii := ascii_of_N (Z.to_N (48 + n)).

(** ["%02d" % n] for [0 <= n < 100], ["%04d" % n] for [0 <= n < 10000] *)
Definition fmt2 (n : Z) : string :=
  String (digit_char (n / 10 mod 10)) (String (digit_char (n mod 10)) "").
Definition fmt4 (n : Z) : string :=
  String (digit_char (n / 1000 mod 10)) (String (digit_char (n / 100 mod 10))
    (String (digit_char (n / 10 mod 10)) (String (digit_char (n mod 10)) ""))).

(** [d.isoformat()]: [YYYY-MM-DD] *)
Definition date_isoformat (d : date) : string :=
  fmt4 (year d) +:+ "-" +:+ fmt2 (month d) +:+ "-" +:+ fmt2 (day d).

Definition offset_isoformat (off : option Z) : string :=
  match off with
  | None => ""
  | Some m =>
      (if m <? 0 then "-" else "+") +:+ fmt2 (Z.abs m / 60) +:+ ":" +:+ fmt2 (Z.abs m mod 60)
  end.

(** [dt.isoformat(timespec="seconds")] *)
Definition datetime_isoformat_seconds (dt : datetime) : string :=
  date_isoformat (dt_date dt) +:+ "T" +:+ fmt2 (hour dt) +:+ ":" +:+ fmt2 (minute dt)
  +:+ ":" +:+ fmt2 (second dt) +:+ offset_isoformat (utcoffset dt).

(** *** String methods *)

(** [s.replace(old, new)], for a non-empty [old]: left to right, without
    overlap; [skip] counts the characters of a match still to be dropped. *)
Fixpoint replace_from (old new : string) (skip : nat) (s : string) : string :=
  match s with
  | "" => ""
  | String c rest =>
      match skip with
      | S k => replace_from old new k rest
      | O =>
          if String.prefix old s
          then new +:+ replace_from old new (Nat.pred (String.length old)) rest
          else String c (replace_from old new O rest)
      end
  end.
Definition replace (old new s : string) : string := replace_from old new O s.

(** [c.isspace()] on the ASCII range: tab to carriage return, the four
    separators 28 to 31, and the space *)
Definition isspace (c : ascii) : bool :=
  let n := N_of_ascii c in
  (((9 <=? n) && (n <=? 13)) || ((28 <=? n) && (n <=? 32)))%N.

Fixpoint lstrip (s : string) : string :=
  match s with
  | String c rest => if isspace c then lstrip rest else s
  | "" => ""
  end.
(** [s.strip()], for ASCII white space *)
Definition strip (s : string) : string :=
  String.rev (lstrip (String.rev (lstrip s))).

(** [s.endswith(c)] for a one-character [c] *)
Fixpoint endswith (s : string) (c : ascii) : bool :=
  match s with
  | "" => false
  | String a "" => Ascii.eqb a c
  | String _ rest => endswith rest c
  end.

(** [c in s] for a one-character [c] *)
Fixpoint contains (c : ascii) (s : string) : bool :=
  match s with
  | "" => false
  | String a rest => Ascii.eqb a c || contains c rest
  end.

Definition upper_char (c : ascii) : ascii :=
  let n := N_of_ascii c in
  if ((97 <=? n) && (n <=? 122))%N then ascii_of_N (n - 32) else c.
Definition lower_char (c : ascii) : ascii :=
  let n := N_of_ascii c in
  if ((65 <=? n) && (n <=? 90))%N then ascii_of_N (n + 32) else c.
Definition is_alpha (c : ascii) : bool :=
  let n := N_of_ascii c in
  (((97 <=? n) && (n <=? 122)) || ((65 <=? n) && (n <=? 90)))%N.

(** [s.upper()], [s.lower()] and [s.title()] on ASCII letters *)
Fixpoint upper (s : string) : string :=
  match s with "" => "" | String c rest => String (upper_char c) (upper rest) end.
Fixpoint lower (s : string) : string :=
  match s with "" => "" | String c rest => String (lower_char c) (lower rest) end.
Fixpoint title_from (prev_cased : bool) (s : string) : string :=
  match s with
  | "" => ""
  | String c rest =>
      String (if prev_cased then lower_char c else upper_char c)
             (title_from (is_alpha c) rest)
  end.
Definition title (s : string) : string := title_from false s.

(** *** Parsing: the part of [datetime.fromisoformat] the pipeline meets

    [YYYY-MM-DD], optionally followed by one separator character and
    [HH:MM:SS], optionally followed by [+HH:MM] or [-HH:MM].  [None] stands
    for [ValueError].  CPython accepts further spellings (reduced times,
    fractions of a second, and in recent versions basic and week formats);
    they are rejected here. *)

Definition digit_val (c : ascii) : option Z :=
  let n := Z.of_N (N_of_ascii c) in
  if (48 <=? n) && (n <=? 57) then Some (n - 48) else None.

Definition parse2 (a b : ascii) : option Z :=
  x ← digit_val a; y ← digit_val b; Some (10 * x + y).

Definition parse4 (a b c d : ascii) : option Z :=
  x ← parse2 a b; y ← parse2 c d; Some (100 * x + y).

Definition parse_date_part (s : string) : option (date * string) :=
  match s with
  | String y1 (String y2 (String y3 (String y4 (String s1 (String m1 (String m2
      (String s2 (String d1 (String d2 rest))))))))) =>
      if Ascii.eqb s1 "-" && Ascii.eqb s2 "-" then
        y ← parse4 y1 y2 y3 y4; m ← parse2 m1 m2; d ← parse2 d1 d2;
        let r := {| year := y; month := m; day := d |} in
        if valid_date r then Some (r, rest) else None
      else None
  | _ => None
  end.

Definition parse_offset_part (s : string) : option (option Z) :=
  match s with
  | "" => Some None
  | String sg (String h1 (String h2 (String c (String m1 (String m2 ""))))) =>
      if (Ascii.eqb sg "+" || Ascii.eqb sg "-") && Ascii.eqb c ":" then
        h ← parse2 h1 h2; m ← parse2 m1 m2;
        if (h <? 24) && (m <? 60)
        then Some (Some (if Ascii.eqb sg "-" then - (h * 60 + m) else h * 60 + m))
        else None
      else None
  | _ => None
  end.

Definition parse_time_part (s : string) : option (Z * Z * Z * option Z) :=
  match s with
  | String h1 (String h2 (String c1 (String m1 (String m2 (String c2 (String s1
      (String s2 rest))))))) =>
      if Ascii.eqb c1 ":" && Ascii.eqb c2 ":" then
        h ← parse2 h1 h2; m ← parse2 m1 m2; sec ← parse2 s1 s2; off ← parse_offset_part rest;
        if (h <? 24) && (m <? 60) && (sec <? 60) then Some (h, m, sec, off) else None
      else None
  | _ => None
  end.

Definition fromisoformat (s : string) : option datetime :=
  '(d, rest) ← parse_date_part s;
  match rest with
  | "" => Some {| dt_date := d; hour := 0; minute := 0; second := 0;
                  microsecond := 0; utcoffset := None |}
  | String _ tstr =>
      '(h, m, sec, off) ← parse_time_part tstr;
      Some {| dt_date := d; hour := h; minute := m; second := sec;
              microsecond := 0; utcoffset := off |}
  end.


(** ** Task payloads, the clock and the collaborators *)

(** Values a task field can hold (JSON values, and the native dates a
    direct in-process call can pass).  JSON floats are not modelled. *)
Inductive pyval :=
| VNone
| VBool (b : bool)
| VInt (n : Z)
| VStr (s : string)
| VDate (d : date)
| VDateTime (dt : datetime)
| VList (l : list pyval)
| VDict (kv : list (string * pyval)).

(** [bool(v)] *)
Definition truthy (v : pyval) : bool :=
  match v with
  | VNone => false
  | VBool b => b
  | VInt n => negb (n =? 0)
  | VStr s => str_truthy s
  | VDate _ | VDateTime _ => true
  | VList l => match l with [] => false | _ => true end
  | VDict kv => match kv with [] => false | _ => true end
  end.

(** [task.get(key)] *)
Definition task_get (task : gmap string pyval) (key : string) : pyval :=
  default VNone (task !! key).

(** [d.get(key)] and [d.get(key, dflt)] on a nested dict *)
Fixpoint assoc (key : string) (kv : list (string * pyval)) : option pyval :=
  match kv with
  | [] => None
  | (k, v) :: rest => if String.eqb k key then Some v else assoc key rest
  end.


(** Body sent to [playlists().insert]. *)
Record playlist_body := {
  pb_title : pyval;
  pb_description : pyval;
  pb_privacy : pyval;
  pb_tags : option pyval
}.


(** The answer of an [execute()] is [None] when it raised [HttpError]. *)
Inductive event :=
| SearchList (rq : search_request) (resp : option search_response)
| VideosList (ids : string) (resp : option (list video_details))
| PlaylistItemsInsert (playlist_id video_id : string) (ok : bool)
| PlaylistsInsert (body : playlist_body) (resp : option string)
| ChannelsList (resp : option (option string))
| GetSecretValue (ok : bool)
| LoadChannelsConfig (ok : bool)
| WriteReport (ok : bool)
| Log (lvl : level) (msg : string).

Definition trace := list event.

(** The authenticated client [yt]: each method answers from the history. *)
Record youtube := {
  search_list_execute : trace → search_request → option search_response;
  videos_list_execute : trace → string → option (list video_details);
  playlistItems_insert_execute : trace → string → string → bool;
  playlists_insert_execute : trace → playlist_body → option string;
  channels_list_execute : trace → option (option string)
}.

(** ** The effect monad: a trace threaded through, with exceptions *)

Definition M (A : Type) : Type := trace → result A * trace.

Definition ret {A} (a : A) : M A := λ tr, (Ok a, tr).
Definition raise {A} (e : exn) : M A := λ tr, (Raise e, tr).
Definition timeout {A} : M A := λ tr, (Timeout, tr).
Definition bind {A B} (m : M A) (k : A → M B) : M B :=
  λ tr, match m tr with
        | (Ok a, tr') => k a tr'
        | (Raise e, tr') => (Raise e, tr')
        | (Timeout, tr') => (Timeout, tr')
        end.

#[global] Instance M_ret : MRet M := @ret.
#[global] Instance M_bind : MBind M := λ A B k m, bind m k.

Definition emit (e : event) : M unit := λ tr, (Ok tt, tr ++ [e]).
Definition log (lvl : level) (msg : string) : M unit := emit (Log lvl msg).

(** [try: m except Exception: h] *)
Definition try_except {A} (m : M A) (h : exn → M A) : M A :=
  λ tr, match m tr with
        | (Raise e, tr') => h e tr'
        | r => r
        end.

(** ** Configuration of one competition ([channels.json])

    A field is [None] when its key is absent; [cfg.get(key, default)]
    then takes the default. *)
Record channel_cfg := {
  cfg_channel_ids : option (list string);
  cfg_search_filter : option string;
  cfg_min_duration_minutes : option Z;
  cfg_search_keywords : option (list string)
}.

(** The two mutable objects of [_search_videos]. *)
Record search_state := {
  video_ids : list string;
  seen : gset string
}.

(** [for x in l: st = body(st, x)] *)
Fixpoint for_each {A S : Type} (body : S → A → M S) (l : list A) (st : S) : M S :=
  match l with
  | [] => mret st
  | x :: rest => st' ← body st x; for_each body rest st'
  end.

(** [except HttpError as e: h] around [m]; any other exception propagates. *)
Definition except_HttpError {A} (m : M A) (h : M A) : M A :=
  try_except m (λ e, match e with HttpError => h | _ => raise e end).

(** The two clock readings of [_compute_cutoff_iso]:
    [datetime.now(ZoneInfo(APP_TZ)).date()] and the fields of
    [datetime.now(timezone.utc)]. *)
Record clock := {
  today_local : date;
  now_utc : datetime
}.

(** Process environment.  [YOUTUBE_MAX_PAGES] holds the integer its
    decimal text denotes. *)
Record environ := {
  YOUTUBE_REGION_CODE : option string;
  YOUTUBE_MAX_PAGES : option Z;
  REPORTS_BUCKET : option string
}.

(** Everything outside the process. *)
Record world := {
  w_yt : youtube;
  w_get_secret_value : trace → bool;
  w_channels_config : trace → option (gmap string channel_cfg);
  w_put_object : trace → bool;
  w_clock : clock;
  w_environ : environ
}.

Inductive invocation := SQS | Direct.

(** The dict a handler returns; an absent key is [None]. *)
Record summary := {
  s_ok : bool;
  s_playlist_id : option string;
  s_videos_added : option Z;
  s_message : option string;
  s_channel : option string
}.

(** *** API calls: the request and its answer are recorded *)

Definition search_list (yt : youtube) (rq : search_request) : M search_response :=
  λ tr, let r := search_list_execute yt tr rq in
        (match r with Some resp => Ok resp | None => Raise HttpError end,
         tr ++ [SearchList rq r]).

Definition videos_list (yt : youtube) (ids : string) : M (list video_details) :=
  λ tr, let r := videos_list_execute yt tr ids in
        (match r with Some items => Ok items | None => Raise HttpError end,
         tr ++ [VideosList ids r]).

Definition playlistItems_insert (yt : youtube) (playlist_id video_id : string) : M unit :=
  λ tr, let ok := playlistItems_insert_execute yt tr playlist_id video_id in
        (if ok then Ok tt else Raise HttpError,
         tr ++ [PlaylistItemsInsert playlist_id video_id ok]).

Definition playlists_insert (yt : youtube) (body : playlist_body) : M string :=
  λ tr, let r := playlists_insert_execute yt tr body in
        (match r with Some pid => Ok pid | None => Raise HttpError end,
         tr ++ [PlaylistsInsert body r]).

Definition channels_list (yt : youtube) : M (option string) :=
  λ tr, let r := channels_list_execute yt tr in
        (match r with Some t => Ok t | None => Raise HttpError end,
         tr ++ [ChannelsList r]).


(** *** Helpers the two variants share *)

Definition youtube_client_from_secret (w : world) : M youtube :=
  λ tr, let ok := w_get_secret_value w tr in
        (if ok then Ok (w_yt w) else Raise ClientError, tr ++ [GetSecretValue ok]).

(** [dt] with [tzinfo=timezone.utc] *)
Definition in_utc (dt : datetime) : datetime :=
  {| dt_date := dt_date dt; hour := hour dt; minute := minute dt; second := second dt;
     microsecond := microsecond dt; utcoffset := Some 0 |}.

(** The last lines of [_compute_cutoff_iso], the same in both variants. *)
Definition cutoff_from_date (clk : clock) (input_date : date) : M string :=
  let today_sg := today_local clk in
  let days_diff := date_sub_days today_sg input_date in
  match datetime_sub (in_utc (now_utc clk)) (timedelta days_diff 0) with
  | None => raise OverflowError
  | Some t =>
      match datetime_sub t (timedelta 0 24) with
      | None => raise OverflowError
      | Some cutoff_datetime_utc =>
          mret (replace "+00:00" "Z" (datetime_isoformat_seconds cutoff_datetime_utc))
      end
  end.

(** [cfg = channel_map.get(competition_id)]; a list or dict key is unhashable. *)
Definition lookup_cfg (channel_map : gmap string channel_cfg) (competition_id : pyval)
  : M (option channel_cfg) :=
  match competition_id with
  | VStr s => mret (channel_map !! s)
  | VList _ | VDict _ => raise TypeError
  | _ => mret None
  end.

(** [bool(cfg)] for a configuration dict: false exactly when it is empty. *)
Definition cfg_truthy (cfg : channel_cfg) : bool :=
  match cfg_channel_ids cfg, cfg_search_filter cfg,
        cfg_min_duration_minutes cfg, cfg_search_keywords cfg with
  | None, None, None, None => false
  | _, _, _, _ => true
  end.

(** [(task.get("region") or os.getenv("YOUTUBE_REGION_CODE") or "SG").upper()] *)
Definition region_code_of (env : environ) (task : gmap string pyval) : M string :=
  let r := task_get task "region" in
  if truthy r then
    match r with
    | VStr s => mret (upper s)
    | _ => raise AttributeError
    end
  else
    match YOUTUBE_REGION_CODE env with
    | Some s => if str_truthy s then mret (upper s) else mret (upper "SG")
    | None => mret (upper "SG")
    end.

(** * The variant [app/builder_lambda.py] *)

Module builder_lambda.
Section Model.

(** [isodate.parse_duration(s).total_seconds()]; [None] when it raises. *)
Variable parse_duration : string → option Q.

(** [isodate.parse_date(s)]: the date, or the exception it raises (its
    own [ISO8601Error] for a text in no known format, a plain [ValueError]
    for a well-formed date that does not exist). *)
Variable isodate_parse_date : string → date + exn.

(** *** [_search_videos] *)

(** Body of [for v in details.get("items", [])]. *)
Definition visit (min_duration_seconds : Z) (st : search_state) (v : video_details)
  : M search_state :=
  let vid := v_id v in
  match parse_duration (v_duration v) with
  | None => raise ISO8601Error
  | Some dur_s =>
      if Qgtb dur_s (inject_Z min_duration_seconds) && negb (bool_decide (vid ∈ seen st))
      then
        let st' := {| video_ids := video_ids st ++ [vid]; seen := {[vid]} ∪ seen st |} in
        log DEBUG "Added video %s (duration: %.1f seconds)";;
        mret st'
      else mret st
  end.

(** [[it["id"].get("videoId") for it in items
      if it.get("id") and it["id"].get("videoId")]] *)
Definition cand_ids_of (items : list search_item) : list string :=
  omap (λ it, match it_videoId it with
              | Some vid => if str_truthy vid then Some vid else None
              | None => None
              end) items.

(** The [if cand_ids:] block of one page: one [videos().list] request
    for all candidates, an empty item list when it fails, then the
    [for v in ...] loop. *)
Definition page_candidates (yt : youtube) (min_duration_seconds : Z)
    (cand_ids : list string) (st : search_state) : M search_state :=
  match cand_ids with
  | [] => mret st
  | _ :: _ =>
      details ← except_HttpError
                   (videos_list yt (join "," cand_ids))
                   (log ERROR "videos.list failed for details: %s";;
                    mret []);
      for_each (visit min_duration_seconds) details st
  end.

(** The [try: resp = ... except HttpError: ... break] of one page;
    [None] stands for the [break]. *)
Definition request_page (yt : youtube) (rq : search_request) : M (option search_response) :=
  except_HttpError
    (resp ← search_list yt rq; mret (Some resp))
    (log ERROR "YouTube search failed for channel %s, query %s: %s";;
     mret None).

(** The [while True] loop of one channel and query; [fuel] bounds the
    iterations still allowed. *)
Fixpoint page_loop (yt : youtube) (cutoff_iso region_code : string) (max_pages : Z)
    (min_duration_seconds : Z) (channel_id q : string)
    (fuel : nat) (page_token : option string) (pages : Z) (st : search_state)
  : M search_state :=
  match fuel with
  | O => timeout
  | S fuel' =>
      r ← request_page yt {| rq_channelId := channel_id; rq_q := q;
                             rq_publishedAfter := cutoff_iso;
                             rq_regionCode := region_code;
                             rq_pageToken := page_token |};
      match r with
      | None => mret st
      | Some resp =>
          let items := resp_items resp in
          let cand_ids := cand_ids_of items in
          st' ← page_candidates yt min_duration_seconds cand_ids st;
          let page_token := resp_nextPageToken resp in
          let pages := pages + 1 in
          if negb (ostr_truthy page_token) || (max_pages <=? pages)
          then mret st'
          else page_loop yt cutoff_iso region_code max_pages min_duration_seconds
                 channel_id q fuel' page_token pages st'
      end
  end.

(** Iterations the [while True] can need: the first page is always asked
    for, and the loop leaves once [pages >= max_pages]. *)
Definition page_fuel (max_pages : Z) : nat := Z.to_nat (Z.max 1 max_pages).

Definition build_queries (cfg : channel_cfg) : list string :=
  let search_filter := default "" (cfg_search_filter cfg) in
  let search_keywords := default [] (cfg_search_keywords cfg) in
  let queries := if str_truthy search_filter then [search_filter] else [] in
  match search_keywords with
  | [] => queries
  | _ :: _ => queries ++ search_keywords
  end.

(** Body of [for q in queries].  (The format string of its log line
    starts with a pictograph in the source; it is left out here.) *)
Definition search_query (yt : youtube) (cutoff_iso region_code : string) (max_pages : Z)
    (min_duration_seconds : Z) (channel_id : string) (st : search_state) (q : string)
  : M search_state :=
  log INFO "Searching channel=%s query=%r";;
  page_loop yt cutoff_iso region_code max_pages min_duration_seconds
    channel_id q (page_fuel max_pages) None 0 st.

(** Body of [for channel_id in channel_ids]. *)
Definition search_channel (yt : youtube) (cutoff_iso region_code : string) (max_pages : Z)
    (min_duration_seconds : Z) (queries : list string) (st : search_state)
    (channel_id : string) : M search_state :=
  for_each (search_query yt cutoff_iso region_code max_pages min_duration_seconds channel_id)
    queries st.

Definition _search_videos (yt : youtube) (cfg : channel_cfg)
    (cutoff_iso region_code : string) (max_pages : Z) : M (list string) :=
  let channel_ids := default [] (cfg_channel_ids cfg) in
  let min_duration_minutes := default 3 (cfg_min_duration_minutes cfg) in
  let min_duration_seconds := min_duration_minutes * 60 in
  let st0 := {| video_ids := []; seen := ∅ |} in
  let queries := build_queries cfg in
  match queries with
  | [] =>
      log WARNING "No search queries available for video search";;
      mret (video_ids st0)
  | _ :: _ =>
      log INFO "Searching for videos with queries: %s";;
      log INFO "Channel IDs: %s, Min duration: %d minutes";;
      st ← for_each (search_channel yt cutoff_iso region_code max_pages
                       min_duration_seconds queries)
             channel_ids st0;
      log INFO "Found %d unique videos matching criteria";;
      mret (video_ids st)
  end.

(** *** [_add_videos_to_playlist] *)

(** [for video_id in video_ids] with the counter [videos_added]. *)
Fixpoint add_loop (yt : youtube) (playlist_id : string) (video_ids : list string)
    (videos_added : Z) : M Z :=
  match video_ids with
  | [] => mret videos_added
  | video_id :: rest =>
      videos_added' ← except_HttpError
        (playlistItems_insert yt playlist_id video_id;;
         log DEBUG "Added video %s to playlist %s";;
         mret (videos_added + 1))
        (log ERROR "Failed to add video %s to playlist %s: %s";;
         mret videos_added);
      add_loop yt playlist_id rest videos_added'
  end.

Definition _add_videos_to_playlist (yt : youtube) (playlist_id : string)
    (video_ids : list string) : M Z :=
  videos_added ← add_loop yt playlist_id video_ids 0;
  log INFO "Successfully added %d videos to playlist %s";;
  mret videos_added.


(** *** [_compute_cutoff_iso] *)

Definition _compute_cutoff_iso (clk : clock) (earliest_date : pyval) : M string :=
  try_except
    (log DEBUG "_compute_cutoff_iso input earliest_date=%r type=%s";;
     input_date ←
       match earliest_date with
       | VNone => raise (ValueError "earliest_date is required")
       | VStr e =>
           let s := strip e in
           let dt :=
             if endswith s "Z" then fromisoformat (replace "Z" "+00:00" s)
             else if contains "T" s then fromisoformat s
             else fromisoformat (s +:+ "T00:00:00") in
           match dt with
           | Some dt => mret (dt_date dt)
           | None =>
               match isodate_parse_date s with
               | inl d => mret d
               | inr e => raise e
               end
           end
       | VDateTime dt => mret (dt_date dt)
       | VDate d => mret d
       | _ => raise TypeError
       end;
     cutoff_from_date clk input_date)
    (λ e, log ERROR "Failed to compute cutoff ISO: ";; raise e).

(** *** [_load_channels_config] and [_create_playlist] *)

Definition _load_channels_config (w : world) : M (gmap string channel_cfg) :=
  λ tr, match w_channels_config w tr with
        | Some m => (Ok m, tr ++ [LoadChannelsConfig true])
        | None =>
            (Raise OSError,
             tr ++ [LoadChannelsConfig false;
                    Log ERROR "Failed to load channels config from local file: "])
        end.

Definition _create_playlist (yt : youtube) (title description privacy tags : pyval)
  : M string :=
  except_HttpError
    (log INFO "Creating new playlist '%s'";;
     let playlist_body :=
       {| pb_title := title; pb_description := description; pb_privacy := privacy;
          pb_tags := if truthy tags then Some tags else None |} in
     playlist_id ← playlists_insert yt playlist_body;
     log INFO "Created new playlist '%s' with ID: %s";;
     mret playlist_id)
    (log ERROR "Failed to create playlist: ";; raise HttpError).

(** *** [handler]

    The task is the decoded payload with its keys already trimmed;
    [source] tells whether it came in a queue envelope. *)

(** [_tm.strip().lower() in ("true", "1", "yes", "y")] for a string,
    [bool(_tm)] otherwise *)
Definition coerce_test_mode (_tm : pyval) : bool :=
  match _tm with
  | VStr s => bool_decide (lower (strip s) ∈ ["true"; "1"; "yes"; "y"])
  | v => truthy v
  end.

Definition test_mode_of (task : gmap string pyval) : bool :=
  let _tm := default (VBool false) (task !! "test_mode") in
  coerce_test_mode _tm.

Definition handler (w : world) (source : invocation) (task : gmap string pyval)
  : M summary :=
  let competition_id := task_get task "competition_id" in
  let earliest_date := task_get task "earliest_date" in
  let test_mode := test_mode_of task in
  region_code ← region_code_of (w_environ w) task;
  let max_pages := default 4 (YOUTUBE_MAX_PAGES (w_environ w)) in
  log INFO "Invocation source=%s, event_keys=%s";;
  (match source with
   | SQS => log INFO "SQS records count=%d"
   | Direct => mret tt
   end);;
  log INFO "Normalized task keys=%s";;
  log INFO "Task key reprs=%s";;
  log INFO "Parsed task: competition_id=%r, earliest_date=%r, test_mode=%r, region=%r, max_pages=%r";;
  if negb (truthy competition_id) then raise (ValueError "Missing 'competition_id' in event")
  else if negb (truthy earliest_date) then raise (ValueError "Missing 'earliest_date' in event")
  else
    cutoff_iso ← _compute_cutoff_iso (w_clock w) earliest_date;
    yt ← youtube_client_from_secret w;
    if test_mode then
      try_except
        (probe ← channels_list yt;
         let channel_title := default "Unknown Channel" probe in
         mret {| s_ok := true; s_playlist_id := None; s_videos_added := None;
                 s_message := Some "YouTube API reachable";
                 s_channel := Some channel_title |})
        (λ e, log ERROR "YouTube API probe failed";; raise e)
    else
      channel_map ← _load_channels_config w;
      cfg ← lookup_cfg channel_map competition_id;
      match cfg, competition_id with
      | Some cfg, VStr cid =>
          if cfg_truthy cfg then
            log INFO "Task keys: %s";;
            let competition_name := title (replace "_" " " cid) in
            let playlist_title := competition_name +:+ " Highlights" in
            playlist_id ← _create_playlist yt (VStr playlist_title)
              (VStr ("Auto-generated " +:+ competition_name +:+ " highlights playlist"))
              (VStr "unlisted")
              (VList [VStr (lower competition_name); VStr "highlights"]);
            log INFO "Ensured playlist '%s' -> %s";;
            video_ids ← _search_videos yt cfg cutoff_iso region_code max_pages;
            match video_ids with
            | [] =>
                log WARNING "No matching videos found for competition '%s'";;
                mret {| s_ok := true; s_playlist_id := Some playlist_id;
                        s_videos_added := Some 0;
                        s_message := Some "No matching videos found";
                        s_channel := None |}
            | _ :: _ =>
                videos_added ← _add_videos_to_playlist yt playlist_id video_ids;
                log INFO "Added %d videos to playlist '%s'";;
                mret {| s_ok := true; s_playlist_id := Some playlist_id;
                        s_videos_added := Some videos_added;
                        s_message := None; s_channel := None |}
            end
          else raise (ValueError "Unknown competition_id")
      | _, _ => raise (ValueError "Unknown competition_id")
      end.

End Model.
End builder_lambda.

(** * The variant [app/main.py] *)

Module main.

Definition _compute_cutoff_iso (clk : clock) (earliest_date : pyval) : M string :=
  try_except
    (input_dt ←
       match earliest_date with
       | VStr e =>
           let dt :=
             if endswith e "Z" then fromisoformat (replace "Z" "" e)
             else fromisoformat (e +:+ "T00:00:00") in
           match dt with
           | Some dt => mret (VDateTime dt)
           | None => raise (ValueError "Invalid isoformat string")
           end
       | v => mret v
       end;
     input_date ←
       match input_dt with
       | VDateTime dt => mret (dt_date dt)
       | _ => raise AttributeError
       end;
     cutoff_from_date clk input_date)
    (λ e, log ERROR "Failed to compute cutoff ISO: ";; raise e).

Definition _load_channels_config (w : world) : M (gmap string channel_cfg) :=
  λ tr, match w_channels_config w tr with
        | Some m => (Ok m, tr ++ [LoadChannelsConfig true])
        | None =>
            (Raise ClientError,
             tr ++ [LoadChannelsConfig false;
                    Log ERROR "Failed to load channels config from S3: "])
        end.

Definition _create_or_get_playlist (yt : youtube) (title description privacy tags : pyval)
  : M string :=
  except_HttpError
    (let playlist_body :=
       {| pb_title := title; pb_description := description; pb_privacy := privacy;
          pb_tags := if truthy tags then Some tags else None |} in
     playlists_insert yt playlist_body)
    (log ERROR "Failed to create playlist: ";; raise HttpError).

(** [_write_report_line(REPORTS_BUCKET, record)]: nothing without a bucket,
    else one [s3.put_object]. *)
Definition _write_report_line (w : world) : M unit :=
  match REPORTS_BUCKET (w_environ w) with
  | None => mret tt
  | Some bucket =>
      if str_truthy bucket then
        λ tr, let ok := w_put_object w tr in
              (if ok then Ok tt else Raise ClientError, tr ++ [WriteReport ok])
      else mret tt
  end.

(** [pl[key]] on the value of [task["playlist"]] *)
Definition subscript (pl : pyval) (key : string) : M pyval :=
  match pl with
  | VDict kv =>
      match assoc key kv with
      | Some v => mret v
      | None => raise (KeyError key)
      end
  | _ => raise TypeError
  end.

(** [pl.get(key, dflt)] *)
Definition get_default (pl : pyval) (key : string) (dflt : pyval) : M pyval :=
  match pl with
  | VDict kv => mret (default dflt (assoc key kv))
  | _ => raise AttributeError
  end.

(** [bool(task.get("test_mode", False))] *)
Definition test_mode_of (task : gmap string pyval) : bool :=
  truthy (default (VBool false) (task !! "test_mode")).

Definition handler (w : world) (task : gmap string pyval) : M summary :=
  let competition_id := task_get task "competition_id" in
  let earliest_date := task_get task "earliest_date" in
  let test_mode := test_mode_of task in
  region_code ← region_code_of (w_environ w) task;
  let max_pages := default 4 (YOUTUBE_MAX_PAGES (w_environ w)) in
  cutoff_iso ← _compute_cutoff_iso (w_clock w) earliest_date;
  if negb (truthy competition_id) then raise (ValueError "Missing 'competition_id' in event")
  else if negb (truthy earliest_date) then raise (ValueError "Missing 'earliest_date' in event")
  else
    yt ← youtube_client_from_secret w;
    if test_mode then
      try_except
        (probe ← channels_list yt;
         let channel_title := default "Unknown Channel" probe in
         _write_report_line w;;
         mret {| s_ok := true; s_playlist_id := None; s_videos_added := None;
                 s_message := Some "YouTube API reachable";
                 s_channel := Some channel_title |})
        (λ e, log ERROR "YouTube API probe failed";;
              _write_report_line w;;
              raise e)
    else
      channel_map ← _load_channels_config w;
      cfg ← lookup_cfg channel_map competition_id;
      match cfg with
      | Some cfg =>
          if cfg_truthy cfg then
            pl ← match task !! "playlist" with
                 | Some pl => mret pl
                 | None => raise (KeyError "playlist")
                 end;
            title ← subscript pl "title";
            description ← get_default pl "description" (VStr "Auto-generated playlist");
            privacy ← get_default pl "privacy" (VStr "unlisted");
            tags ← get_default pl "tags" (VList []);
            playlist_id ← _create_or_get_playlist yt title description privacy tags;
            log INFO "Ensured playlist '%s' -> %s";;
            mret {| s_ok := true; s_playlist_id := Some playlist_id;
                    s_videos_added := None; s_message := None; s_channel := None |}
          else raise (ValueError "Unknown competition_id")
      | None => raise (ValueError "Unknown competition_id")
      end.

End main.

(** * Reading a trace *)

(** The insertion an event attempted, if it is one. *)
Definition insert_attempt (e : event) : option (string * string) :=
  match e with
  | PlaylistItemsInsert playlist_id video_id _ => Some (playlist_id, video_id)
  | _ => None
  end.

Definition insert_attempts (tr : trace) : list (string * string) := omap insert_attempt tr.

Fixpoint count_inserted (tr : trace) : Z :=
  match tr with
  | [] => 0
  | PlaylistItemsInsert _ _ true :: rest => 1 + count_inserted rest
  | _ :: rest => count_inserted rest
  end.

Fixpoint count_insert_failures (tr : trace) : Z :=
  match tr with
  | [] => 0
  | PlaylistItemsInsert _ _ false :: rest => 1 + count_insert_failures rest
  | _ :: rest => count_insert_failures rest
  end.

(** Number of [search().list] requests in a trace. *)
Fixpoint count_search_requests (tr : trace) : Z :=
  match tr with
  | [] => 0
  | SearchList _ _ :: rest => 1 + count_search_requests rest
  | _ :: rest => count_search_requests rest
  end.

(** The answers to the [search().list] requests of a trace, in order. *)
Definition search_answer (e : event) : option (option search_response) :=
  match e with
  | SearchList _ resp => Some resp
  | _ => None
  end.
Definition search_answers (tr : trace) : list (option search_response) :=
  omap search_answer tr.

(** An answer after which the page loop may go on: it carries a page token. *)
Definition has_next (a : option search_response) : bool :=
  match a with
  | Some resp => ostr_truthy (resp_nextPageToken resp)
  | None => false
  end.

(** The shape of the answers one run of the page loop received, [pages]
    pages having been counted before: all but the last one carried a
    page token, and a run that returned stopped on an answer without
    token (or a failed request) or on reaching [max_pages]. *)
Definition stops_at_first_end {A : Type} (max_pages pages : Z) (r : result A)
    (answers : list (option search_response)) : Prop :=
  ∃ init last,
    answers = init ++ [last]
    ∧ Forall (λ a, has_next a = true) init
    ∧ ((∃ a, r = Ok a) →
       has_next last = false ∨ max_pages ≤ pages + Z.of_nat (length answers)).

(** The candidates the platform handed back: every item of every
    successful [videos().list] answer, in the order received. *)
Fixpoint details_of (tr : trace) : list video_details :=
  match tr with
  | [] => []
  | VideosList _ (Some items) :: rest => items ++ details_of rest
  | _ :: rest => details_of rest
  end.

(** The external calls of a trace: everything but the log lines. *)
Definition is_call (e : event) : bool :=
  match e with
  | Log _ _ => false
  | _ => true
  end.
Definition calls (tr : trace) : trace := List.filter is_call tr.

(** Keeps the first occurrence of each identifier. *)
Fixpoint first_seen (acc : gset string) (l : list string) : list string :=
  match l with
  | [] => []
  | x :: rest =>
      if bool_decide (x ∈ acc) then first_seen acc rest
      else x :: first_seen ({[x]} ∪ acc) rest
  end.

(** The duration test of [_search_videos] on one candidate. *)
Definition qualifies (parse_duration : string → option Q) (min_duration_seconds : Z)
    (v : video_details) : bool :=
  match parse_duration (v_duration v) with
  | Some dur_s => Qgtb dur_s (inject_Z min_duration_seconds)
  | None => false
  end.

(** The state one candidate leaves behind when its duration parses. *)
Definition after_visit (parse_duration : string → option Q) (min_duration_seconds : Z)
    (st : search_state) (v : video_details) : search_state :=
  if qualifies parse_duration min_duration_seconds v
     && negb (bool_decide (v_id v ∈ seen st))
  then {| video_ids := video_ids st ++ [v_id v]; seen := {[v_id v]} ∪ seen st |}
  else st.

(** The events a search can leave: requests for pages and metadata, and
    log lines. *)
Definition search_event (e : event) : Prop :=
  match e with
  | SearchList _ _ | VideosList _ _ | Log _ _ => True
  | _ => False
  end.

(** What a run may have done to the search state [st] with the new events
    [new]: if it returned, every candidate received went through the
    duration and dedup test, in order; it raises only on a candidate whose
    duration does not parse; it does not run out of fuel. *)
Definition search_post (parse_duration : string → option Q) (min_duration_seconds : Z)
    (st : search_state) (r : result search_state) (new : trace) : Prop :=
  Forall search_event new ∧
  match r with
  | Ok st' => st' = foldl (after_visit parse_duration min_duration_seconds) st (details_of new)
  | Raise e =>
      e = ISO8601Error ∧ ∃ v, v ∈ details_of new ∧ parse_duration (v_duration v) = None
  | Timeout => False
  end.

(** The collaborators answer, whatever the history: the secret store hands
    out the credentials, the configuration store hands out [channel_map]
    and the platform creates playlists under the identifier [playlist_id]. *)
Definition collaborators_up (w : world) (channel_map : gmap string channel_cfg)
    (playlist_id : string) : Prop :=
  (∀ t, w_get_secret_value w t = true)
  ∧ (∀ t, w_channels_config w t = Some channel_map)
  ∧ (∀ t body, playlists_insert_execute (w_yt w) t body = Some playlist_id).

Definition is_log (e : event) : Prop :=
  match e with
  | Log _ _ => True
  | _ => False
  end.

(** An ISO-8601 UTC timestamp with second precision and the suffix [Z]. *)
Definition utc_timestamp_seconds (dt : datetime) : string :=
  date_isoformat (dt_date dt) +:+ "T" +:+ fmt2 (hour dt) +:+ ":" +:+ fmt2 (minute dt)
  +:+ ":" +:+ fmt2 (second dt) +:+ "Z".

Definition is_digit (c : ascii) : bool :=
  match digit_val c with
  | Some _ => true
  | None => false
  end.

(** The ten characters [YYYY-MM-DD] in front of [rest], the digits left open. *)
Definition date_shape (c1 c2 c3 c4 c5 c6 c7 c8 : ascii) (rest : string) : string :=
  String c1 (String c2 (String c3 (String c4 (String "-" (String c5
    (String c6 (String "-" (String c7 (String c8 rest))))))))).

(** The instant a datetime denotes on its own clock: microseconds since
    the midnight before 0001-01-01. *)
Definition instant_us (dt : datetime) : Z :=
  ((toordinal (dt_date dt) * 86400 + hour dt * 3600 + minute dt * 60 + second dt)
   * 1000000) + microsecond dt.



(** * Scenarios: concrete platforms the examples run on *)

Definition no_results : search_response :=
  {| resp_items := []; resp_nextPageToken := None |}.

(** A platform with nothing to find, on which inserting [bad] fails. *)
Definition yt_insert_fails_on (bad : string) : youtube :=
  {| search_list_execute := λ _ _, Some no_results;
     videos_list_execute := λ _ _, Some [];
     playlistItems_insert_execute := λ _ _ video_id, negb (String.eqb video_id bad);
     playlists_insert_execute := λ _ _, Some "PL1";
     channels_list_execute := λ _, Some (Some "My Channel") |}.

Definition ten_videos : list string :=
  ["v1"; "v2"; "v3"; "v4"; "v5"; "v6"; "v7"; "v8"; "v9"; "v10"].

(** Durations of the demonstration videos, in seconds:
    what [isodate.parse_duration] makes of the strings below. *)
Definition demo_parse_duration (s : string) : option Q :=
  if String.eqb s "PT10M" then Some (600 # 1)%Q
  else if String.eqb s "PT5M" then Some (300 # 1)%Q
  else if String.eqb s "PT3M0.1S" then Some (1801 # 10)%Q
  else if String.eqb s "PT3M" then Some (180 # 1)%Q
  else if String.eqb s "PT2M" then Some (120 # 1)%Q
  else None.

Definition item (video_id : string) : search_item := {| it_videoId := Some video_id |}.

Definition demo_page1 : search_response :=
  {| resp_items := [item "a"; item "b"]; resp_nextPageToken := Some "p2" |}.
Definition demo_page2 : search_response :=
  {| resp_items := [item "c"]; resp_nextPageToken := None |}.
Definition demo_page_highlights : search_response :=
  {| resp_items := [item "a"; item "d"]; resp_nextPageToken := None |}.

(** Every channel answers alike: two pages for the query [goal], one for
    [highlights], nothing otherwise. *)
Definition demo_search (rq : search_request) : option search_response :=
  if String.eqb (rq_q rq) "goal" then
    match rq_pageToken rq with
    | None => Some demo_page1
    | Some _ => Some demo_page2
    end
  else if String.eqb (rq_q rq) "highlights" then Some demo_page_highlights
  else Some no_results.

(** [a] lasts ten minutes, [b] exactly three, [c] a tenth of a second more
    than three, [d] five. *)
Definition demo_details (ids : string) : list video_details :=
  if String.eqb ids "a,b" then
    [{| v_id := "a"; v_duration := "PT10M" |}; {| v_id := "b"; v_duration := "PT3M" |}]
  else if String.eqb ids "c" then [{| v_id := "c"; v_duration := "PT3M0.1S" |}]
  else if String.eqb ids "a,d" then
    [{| v_id := "a"; v_duration := "PT10M" |}; {| v_id := "d"; v_duration := "PT5M" |}]
  else [].

Definition demo_yt : youtube :=
  {| search_list_execute := λ _ rq, demo_search rq;
     videos_list_execute := λ _ ids, Some (demo_details ids);
     playlistItems_insert_execute := λ _ _ _, true;
     playlists_insert_execute := λ _ _, Some "PL1";
     channels_list_execute := λ _, Some (Some "My Channel") |}.

(** The same platform, except that the metadata request for the first
    page of [goal] fails. *)
Definition flaky_details_yt : youtube :=
  {| search_list_execute := λ _ rq, demo_search rq;
     videos_list_execute := λ _ ids,
       if String.eqb ids "a,b" then None else Some (demo_details ids);
     playlistItems_insert_execute := λ _ _ _, true;
     playlists_insert_execute := λ _ _, Some "PL1";
     channels_list_execute := λ _, Some (Some "My Channel") |}.

Definition demo_cfg : channel_cfg :=
  {| cfg_channel_ids := Some ["UC1"; "UC2"];
     cfg_search_filter := Some "goal";
     cfg_min_duration_minutes := None;
     cfg_search_keywords := Some ["highlights"] |}.

Definition goal_only_cfg : channel_cfg :=
  {| cfg_channel_ids := Some ["UC1"];
     cfg_search_filter := Some "goal";
     cfg_min_duration_minutes := Some 3;
     cfg_search_keywords := None |}.

Definition no_query_cfg : channel_cfg :=
  {| cfg_channel_ids := Some ["UC1"; "UC2"];
     cfg_search_filter := Some "";
     cfg_min_duration_minutes := Some 3;
     cfg_search_keywords := None |}.

Definition demo_cutoff : string := "2024-01-14T03:04:05Z".

Definition goal_request (page_token : option string) : search_request :=
  {| rq_channelId := "UC1"; rq_q := "goal"; rq_publishedAfter := demo_cutoff;
     rq_regionCode := "SG"; rq_pageToken := page_token |}.

Definition empty_state : search_state := {| video_ids := []; seen := ∅ |}.

(** A platform on which no search finds anything. *)
Definition quiet_yt : youtube := yt_insert_fails_on "".

(** 20 January 2024, 03:04:05.000678 UTC; the same day in the local zone. *)
Definition demo_clock : clock :=
  {| today_local := {| year := 2024; month := 1; day := 20 |};
     now_utc := {| dt_date := {| year := 2024; month := 1; day := 20 |};
                   hour := 3; minute := 4; second := 5; microsecond := 678;
                   utcoffset := Some 0 |} |}.

Definition demo_environ : environ :=
  {| YOUTUBE_REGION_CODE := None; YOUTUBE_MAX_PAGES := None; REPORTS_BUCKET := None |}.

Definition demo_channel_map : gmap string channel_cfg := {[ "epl" := demo_cfg ]}.

(** All collaborators up, around the platform [yt]. *)
Definition demo_world (yt : youtube) : world :=
  {| w_yt := yt;
     w_get_secret_value := λ _, true;
     w_channels_config := λ _, Some demo_channel_map;
     w_put_object := λ _, true;
     w_clock := demo_clock;
     w_environ := demo_environ |}.

(** [isodate.parse_date] on the demonstration inputs: none needs it. *)
Definition demo_parse_date (s : string) : date + exn := inr ISO8601Error.

Definition demo_task : gmap string pyval :=
  {[ "competition_id" := VStr "epl"; "earliest_date" := VStr "2024-01-15" ]}.

(** The same task without its [earliest_date]. *)
Definition task_without_date : gmap string pyval :=
  {[ "competition_id" := VStr "epl" ]}.

(** The same task without its [competition_id]. *)
Definition task_without_competition : gmap string pyval :=
  {[ "earliest_date" := VStr "2024-01-15" ]}.

(** * The shape of a search trace *)

Definition is_ok {A : Type} (r : result A) : bool :=
  match r with
  | Ok _ => true
  | _ => false
  end.

(** The request of [_search_videos] for one channel, query and page token. *)
Definition page_request (cutoff_iso region_code channel_id q : string)
    (page_token : option string) : search_request :=
  {| rq_channelId := channel_id; rq_q := q; rq_publishedAfter := cutoff_iso;
     rq_regionCode := region_code; rq_pageToken := page_token |}.

(** What the [if cand_ids:] block of one page leaves in the trace. *)
Inductive candidate_events (cand_ids : list string) : trace → Prop :=
| no_candidates :
    cand_ids = [] → candidate_events cand_ids []
| metadata_failed :
    cand_ids ≠ [] →
    candidate_events cand_ids
      [VideosList (join "," cand_ids) None; Log ERROR "videos.list failed for details: %s"]
| metadata_answered (items : list video_details) (logs : trace) :
    cand_ids ≠ [] → Forall is_log logs →
    candidate_events cand_ids (VideosList (join "," cand_ids) (Some items) :: logs).

(** What the page loop of one channel and query leaves, [pages] pages
    having been counted and [page_token] being the running token.  The flag
    tells whether the loop came to its end ([true]) or was cut short by an
    exception ([false]). *)
Inductive page_events (cutoff_iso region_code : string) (max_pages : Z)
    (channel_id q : string) : Z → option string → bool → trace → Prop :=
| request_failed (pages : Z) (page_token : option string) :
    page_events cutoff_iso region_code max_pages channel_id q pages page_token true
      [SearchList (page_request cutoff_iso region_code channel_id q page_token) None;
       Log ERROR "YouTube search failed for channel %s, query %s: %s"]
| page_cut_short (pages : Z) (page_token : option string) (resp : search_response)
    (evs : trace) :
    candidate_events (builder_lambda.cand_ids_of (resp_items resp)) evs →
    page_events cutoff_iso region_code max_pages channel_id q pages page_token false
      (SearchList (page_request cutoff_iso region_code channel_id q page_token) (Some resp)
       :: evs)
| last_page (pages : Z) (page_token : option string) (resp : search_response)
    (evs : trace) :
    candidate_events (builder_lambda.cand_ids_of (resp_items resp)) evs →
    negb (ostr_truthy (resp_nextPageToken resp)) || (max_pages <=? pages + 1) = true →
    page_events cutoff_iso region_code max_pages channel_id q pages page_token true
      (SearchList (page_request cutoff_iso region_code channel_id q page_token) (Some resp)
       :: evs)
| next_page (pages : Z) (page_token : option string) (resp : search_response)
    (evs rest : trace) (finished : bool) :
    candidate_events (builder_lambda.cand_ids_of (resp_items resp)) evs →
    negb (ostr_truthy (resp_nextPageToken resp)) || (max_pages <=? pages + 1) = false →
    page_events cutoff_iso region_code max_pages channel_id q (pages + 1)
      (resp_nextPageToken resp) finished rest →
    page_events cutoff_iso region_code max_pages channel_id q pages page_token finished
      (SearchList (page_request cutoff_iso region_code channel_id q page_token) (Some resp)
       :: evs ++ rest).

(** What a [for] loop leaves when each round leaves [body x]: the rounds
    in order, up to the end or to the round that was cut short. *)
Inductive loop_events {A : Type} (body : A → bool → trace → Prop)
  : list A → bool → trace → Prop :=
| loop_done : loop_events body [] true []
| loop_cut_short (x : A) (l : list A) (evs : trace) :
    body x false evs → loop_events body (x :: l) false evs
| loop_round (x : A) (l : list A) (evs rest : trace) (finished : bool) :
    body x true evs → loop_events body l finished rest →
    loop_events body (x :: l) finished (evs ++ rest).

Definition query_events (cutoff_iso region_code : string) (max_pages : Z)
    (channel_id q : string) (finished : bool) (evs : trace) : Prop :=
  ∃ evs', evs = Log INFO "Searching channel=%s query=%r" :: evs'
          ∧ page_events cutoff_iso region_code max_pages channel_id q 0 None finished evs'.

Definition channel_events (cutoff_iso region_code : string) (max_pages : Z)
    (queries : list string) (channel_id : string) : bool → trace → Prop :=
  loop_events (query_events cutoff_iso region_code max_pages channel_id) queries.

(** What [_search_videos] leaves for a configuration that has queries. *)
Definition search_events (cutoff_iso region_code : string) (max_pages : Z)
    (channel_ids queries : list string) (finished : bool) (new : trace) : Prop :=
  ∃ evs,
    loop_events (channel_events cutoff_iso region_code max_pages queries)
      channel_ids finished evs
    ∧ new = Log INFO "Searching for videos with queries: %s"
            :: Log INFO "Channel IDs: %s, Min duration: %d minutes"
            :: evs ++ (if finished
                       then [Log INFO "Found %d unique videos matching criteria"]
                       else []).

(** *** What can be read off a search trace *)

(** The channel and query of every request for a first page, in order. *)
Definition first_page_request (e : event) : option (string * string) :=
  match e with
  | SearchList rq _ =>
      match rq_pageToken rq with
      | None => Some (rq_channelId rq, rq_q rq)
      | Some _ => None
      end
  | _ => None
  end.
Definition first_page_requests (tr : trace) : list (string * string) :=
  omap first_page_request tr.

(** Number of [videos().list] requests in a trace. *)
Fixpoint count_metadata_requests (tr : trace) : Z :=
  match tr with
  | [] => 0
  | VideosList _ _ :: rest => 1 + count_metadata_requests rest
  | _ :: rest => count_metadata_requests rest
  end.

(** Every metadata request comes right after a search answer and asks for
    the candidates of that answer, comma-separated; [prev] is the event
    before the trace. *)
Fixpoint metadata_follows_search (prev : option event) (tr : trace) : Prop :=
  match tr with
  | [] => True
  | e :: rest =>
      match e with
      | VideosList ids _ =>
          match prev with
          | Some (SearchList _ (Some resp)) =>
              builder_lambda.cand_ids_of (resp_items resp) ≠ []
              ∧ ids = join "," (builder_lambda.cand_ids_of (resp_items resp))
          | _ => False
          end
      | _ => True
      end
      ∧ metadata_follows_search (Some e) rest
  end.

(** The search requests of a trace with their answers, in order. *)
Definition search_exchange (e : event)
  : option (search_request * option search_response) :=
  match e with
  | SearchList rq resp => Some (rq, resp)
  | _ => None
  end.
Definition search_exchanges (tr : trace)
  : list (search_request * option search_response) :=
  omap search_exchange tr.

(** The request [rq] continues the exchange [prev]: that exchange was
    answered with a page token, and [rq] carries this token for the same
    channel and query. *)
Definition continues (prev : option (search_request * option search_response))
    (rq : search_request) : Prop :=
  ∃ rq0 resp0,
    prev = Some (rq0, Some resp0)
    ∧ rq_pageToken rq = resp_nextPageToken resp0
    ∧ ostr_truthy (resp_nextPageToken resp0) = true
    ∧ rq_channelId rq = rq_channelId rq0 ∧ rq_q rq = rq_q rq0.

(** Page tokens are used where they were issued: a request either starts
    a channel and query afresh, without token, or continues the exchange
    just before it. *)
Fixpoint tokens_follow (prev : option (search_request * option search_response))
    (l : list (search_request * option search_response)) : Prop :=
  match l with
  | [] => True
  | (rq, answer) :: rest =>
      (rq_pageToken rq = None ∨ continues prev rq)
      ∧ tokens_follow (Some (rq, answer)) rest
  end.

(** [[(c, q) for c in channel_ids for q in queries]]: the channel and
    query combinations in the order the two [for] loops meet them. *)
Definition combinations (channel_ids queries : list string) : list (string * string) :=
  c ← channel_ids; q ← queries; [(c, q)].

(** A search request that stays within what the caller asked for: the
    given cutoff and region, a configured channel, one of the queries. *)
Definition scoped_request (cutoff_iso region_code : string)
    (channel_ids queries : list string) (e : event) : Prop :=
  match e with
  | SearchList rq _ =>
      rq_publishedAfter rq = cutoff_iso ∧ rq_regionCode rq = region_code
      ∧ rq_channelId rq ∈ channel_ids ∧ rq_q rq ∈ queries
  | _ => True
  end.

(** What holds of the requests of a search, round by round: no more
    metadata requests than search requests, each metadata request next to
    its search answer, every search request in scope, page tokens used
    where they were issued. *)
Definition well_formed_search (cutoff_iso region_code : string)
    (channel_ids queries : list string) (evs : trace) : Prop :=
  count_metadata_requests evs ≤ count_search_requests evs
  ∧ (∀ p, metadata_follows_search p evs)
  ∧ Forall (scoped_request cutoff_iso region_code channel_ids queries) evs
  ∧ (∀ prev, tokens_follow prev (search_exchanges evs)).

(** *** Reading a handler's trace *)

(** The playlists a trace asked the platform to create, with the answers. *)
Definition playlist_creation (e : event) : option (playlist_body * option string) :=
  match e with
  | PlaylistsInsert body resp => Some (body, resp)
  | _ => None
  end.
Definition playlist_creations (tr : trace) : list (playlist_body * option string) :=
  omap playlist_creation tr.


(** [m] only adds events that satisfy [P] to the history, and it comes to
    an end, by returning or by raising. *)
Definition emits {A : Type} (P : event → Prop) (m : M A) : Prop :=
  ∀ tr, ∃ r new, m tr = (r, tr ++ new) ∧ Forall P new ∧ r ≠ Timeout.

(** Events other than looking for videos and filling a playlist. *)
Definition no_discovery (e : event) : Prop :=
  match e with
  | SearchList _ _ | VideosList _ _ | PlaylistItemsInsert _ _ _ => False
  | _ => True
  end.

(** The events of [_add_videos_to_playlist]. *)
Definition insert_event (e : event) : Prop :=
  match e with
  | PlaylistItemsInsert _ _ _ | Log _ _ => True
  | _ => False
  end.



(** Every event. *)
Definition any_event (e : event) : Prop := True.

(** Nothing is asked of anyone before the credentials are fetched, and
    nothing after that fetch has failed. *)
Definition credentials_first (tr : trace) : Prop :=
  calls tr = [] ∨ calls tr = [GetSecretValue false]
  ∨ ∃ rest, calls tr = GetSecretValue true :: rest.

Definition runs_credentials_first {A : Type} (m : M A) : Prop :=
  ∀ tr, ∃ r new, m tr = (r, tr ++ new) ∧ credentials_first new ∧ r ≠ Timeout.

(** A [main.py] task that describes its playlist. *)
Definition main_task : gmap string pyval :=
  <["playlist" := VDict [("title", VStr "Weekend goals"); ("tags", VList [])]]> demo_task.

(** The clock time of [dt] on the day with ordinal [n]. *)
Definition on_day (n : Z) (dt : datetime) : datetime :=
  {| dt_date := _ord2ymd n; hour := hour dt; minute := minute dt; second := second dt;
     microsecond := microsecond dt; utcoffset := utcoffset dt |}.

(** The day of the cutoff, as an ordinal: the current UTC day, moved back
    by the age of the input date in local days and by one more day. *)
Definition cutoff_day (clk : clock) (input_date : date) : Z :=
  toordinal (dt_date (now_utc clk)) - date_sub_days (today_local clk) input_date - 1.

(** The eight characters [HH:MM:SS] in front of [rest], the digits left open. *)
Definition time_shape (h1 h2 m1 m2 s1 s2 : ascii) (rest : string) : string :=
  String h1 (String h2 (String ":" (String m1 (String m2 (String ":"
    (String s1 (String s2 rest))))))).

(** [YYYY-MM-DDTHH:MM:SS], a timestamp without zone. *)
Definition naive_timestamp (d : date) (h m s : Z) : string :=
  date_isoformat d +:+ "T" +:+ fmt2 h +:+ ":" +:+ fmt2 m +:+ ":" +:+ fmt2 s.

(** The world of the demonstrations with a report bucket that refuses
    every write. *)
Definition world_with_broken_reports : world :=
  {| w_yt := demo_yt;
     w_get_secret_value := λ _, true;
     w_channels_config := λ _, Some demo_channel_map;
     w_put_object := λ _, false;
     w_clock := demo_clock;
     w_environ := {| YOUTUBE_REGION_CODE := None; YOUTUBE_MAX_PAGES := None;
                     REPORTS_BUCKET := Some "reports" |} |}.

(** * The effect monad *)

Ltac munfold :=
  unfold mbind, M_bind, bind, mret, M_ret, ret, raise, timeout, log, emit,
    except_HttpError, try_except in *.




(** * Populating the playlist *)




(** Ten insertions requested, the fourth fails: nine are reported and all
    ten were attempted. *)
Example add_ten_one_failing :
  let '(r, tr) := builder_lambda._add_videos_to_playlist
                    (yt_insert_fails_on "v4") "PL1" ten_videos [] in
  r = Ok 9
  ∧ insert_attempts tr = (λ v, ("PL1", v)) <$> ten_videos
  ∧ count_insert_failures tr = 1.
Proof. vm_compute. done. Qed.

(** * The search *)

Lemma details_of_app (a b : trace) : details_of (a ++ b) = details_of a ++ details_of b.
Proof.
  induction a as [|e a IH]; [done|].
  destruct e as [|? [items|]| | | | | | |]; simpl; rewrite ?IH, ?app_assoc; done.
Qed.

Lemma count_search_requests_app (a b : trace) :
  count_search_requests (a ++ b) = count_search_requests a + count_search_requests b.
Proof.
  induction a as [|e a IH]; simpl; [lia|].
  destruct e; rewrite ?IH; lia.
Qed.

Lemma search_answers_app (a b : trace) :
  search_answers (a ++ b) = search_answers a ++ search_answers b.
Proof. unfold search_answers. apply omap_app. Qed.

Lemma search_answers_none (a : trace) :
  count_search_requests a = 0 → search_answers a = [].
Proof.
  induction a as [|e a IH]; [done|].
  assert (0 ≤ count_search_requests a) as Hnn.
  { clear. induction a as [|e a IH]; simpl; [lia|]. destruct e; lia. }
  destruct e; simpl; intros H; try lia; apply IH; lia.
Qed.

Lemma count_search_requests_nonneg (a : trace) : 0 ≤ count_search_requests a.
Proof. induction a as [|e a IH]; simpl; [lia|]. destruct e; lia. Qed.

Lemma first_seen_spec (l : list string) : ∀ acc : gset string,
  NoDup (first_seen acc l) ∧ ∀ x, x ∈ first_seen acc l ↔ x ∈ l ∧ x ∉ acc.
Proof.
  induction l as [|y l IH]; intros acc; simpl.
  - split; [constructor|]. set_solver.
  - case_bool_decide as Hy.
    + destruct (IH acc) as [Hnd Hin]. split; [done|]. intros x. rewrite Hin. set_solver.
    + destruct (IH ({[y]} ∪ acc)) as [Hnd Hin]. split.
      * constructor; [|done]. rewrite Hin. set_solver.
      * intros x. rewrite elem_of_cons, Hin.
        destruct (decide (x = y)) as [->|]; set_solver.
Qed.

(** [first_seen] works on line: what a prefix of the encounters yields is
    a prefix of the final result, so each identifier keeps the place of
    its first encounter. *)
Lemma first_seen_app (xs ys : list string) : ∀ acc : gset string,
  first_seen acc (xs ++ ys)
  = first_seen acc xs ++ first_seen (list_to_set xs ∪ acc) ys.
Proof.
  induction xs as [|x xs IH]; intros acc; simpl.
  - f_equal. set_solver.
  - case_bool_decide as Hx.
    + rewrite IH. do 2 f_equal. set_solver.
    + rewrite IH. simpl. do 3 f_equal. set_solver.
Qed.

Lemma first_seen_sublist (xs : list string) : ∀ acc : gset string,
  sublist (first_seen acc xs) xs.
Proof.
  induction xs as [|x xs IH]; intros acc; simpl; [constructor|].
  case_bool_decide; [apply sublist_cons|apply sublist_skip]; apply IH.
Qed.

Section Search.

Context (parse_duration : string → option Q).
Context (yt : youtube) (cutoff_iso region_code : string) (max_pages thr : Z).

Abbreviation visit1 := (builder_lambda.visit parse_duration thr).
Abbreviation after1 := (after_visit parse_duration thr).
Abbreviation post := (search_post parse_duration thr).
Abbreviation pages_of :=
  (builder_lambda.page_loop parse_duration yt cutoff_iso region_code max_pages thr).

Lemma visit_run (st : search_state) (v : video_details) (tr : trace) :
  ∃ r new, visit1 st v tr = (r, tr ++ new)
    ∧ Forall search_event new
    ∧ details_of new = [] ∧ count_search_requests new = 0
    ∧ match r with
      | Ok st' => st' = after1 st v ∧ is_Some (parse_duration (v_duration v))
      | Raise e => e = ISO8601Error ∧ parse_duration (v_duration v) = None
      | Timeout => False
      end.
Proof.
  unfold builder_lambda.visit, after_visit, qualifies.
  destruct (parse_duration (v_duration v)) as [d|]; munfold.
  - destruct (Qgtb d (inject_Z thr) && negb (bool_decide (v_id v ∈ seen st))).
    + eexists _, [_]. repeat split; eauto. by repeat constructor.
    + eexists _, []. rewrite app_nil_r. repeat split; eauto.
  - eexists _, []. rewrite app_nil_r. repeat split; eauto.
Qed.

Lemma for_each_visit_run (items : list video_details) : ∀ (st : search_state) (tr : trace),
  ∃ r new, for_each visit1 items st tr = (r, tr ++ new)
    ∧ Forall search_event new
    ∧ details_of new = [] ∧ count_search_requests new = 0
    ∧ match r with
      | Ok st' => st' = foldl after1 st items
      | Raise e => e = ISO8601Error ∧ ∃ v, v ∈ items ∧ parse_duration (v_duration v) = None
      | Timeout => False
      end.
Proof.
  induction items as [|v items IH]; intros st tr; simpl.
  - exists (Ok st), []. munfold. rewrite app_nil_r. done.
  - destruct (visit_run st v tr) as (r & new & Hrun & Hev & Hd & Hc & Hr).
    munfold. rewrite Hrun. destruct r as [st'| |]; [| |done].
    2:{ destruct Hr as [-> Hnone]. exists (Raise ISO8601Error), new.
        repeat split; try done. exists v. split; [left|done]. }
    destruct Hr as [-> _].
    destruct (IH (after1 st v) (tr ++ new))
      as (r2 & new2 & Hrun2 & Hev2 & Hd2 & Hc2 & Hr2).
    rewrite Hrun2. exists r2, (new ++ new2).
    rewrite app_assoc, details_of_app, count_search_requests_app, Hd, Hd2, Hc, Hc2.
    repeat split; try done; [by apply Forall_app|]. destruct r2; [done| |done].
    destruct Hr2 as (-> & w & Hw & Hnone). split; [done|]. exists w. split; [by right|done].
Qed.

Lemma search_post_seq (st st1 : search_state) (r : result search_state) (new1 new2 : trace) :
  post st (Ok st1) new1 → post st1 r new2 → post st r (new1 ++ new2).
Proof.
  intros [Hev1 ->] [Hev2 H2]. split; [by apply Forall_app|].
  destruct r as [st2|e|]; simpl in *; [| |done].
  - by rewrite details_of_app, foldl_app.
  - destruct H2 as (-> & v & Hv & Hnone). split; [done|]. exists v.
    rewrite details_of_app, elem_of_app. auto.
Qed.

Lemma search_post_skip (st : search_state) (r : result search_state) (pre new : trace) :
  Forall search_event pre → details_of pre = [] → post st r new → post st r (pre ++ new).
Proof.
  intros Hev Hpre [Hev' H]. split; [by apply Forall_app|].
  destruct r as [st'|e|]; simpl in *; [| |done].
  - by rewrite details_of_app, Hpre.
  - destruct H as (-> & v & Hv & Hnone). split; [done|]. exists v.
    by rewrite details_of_app, Hpre.
Qed.

Lemma page_candidates_run (cand_ids : list string) (st : search_state) (tr : trace) :
  ∃ r new, builder_lambda.page_candidates parse_duration yt thr cand_ids st tr = (r, tr ++ new)
    ∧ post st r new ∧ count_search_requests new = 0.
Proof.
  unfold builder_lambda.page_candidates.
  destruct cand_ids as [|c cs].
  - exists (Ok st), []. munfold. rewrite app_nil_r. done.
  - munfold. unfold videos_list.
    destruct (videos_list_execute yt tr (join "," (c :: cs))) as [items|].
    + destruct (for_each_visit_run items st
                  (tr ++ [VideosList (join "," (c :: cs)) (Some items)]))
        as (r & new & Hrun & Hev & Hd & Hc & Hr).
      rewrite Hrun. exists r, (VideosList (join "," (c :: cs)) (Some items) :: new).
      rewrite <- app_assoc. split; [done|]. split; [|done].
      split; [by constructor|].
      destruct r as [st'|e|]; simpl; rewrite ?Hd, ?app_nil_r; [done| |done].
      destruct Hr as (-> & v & Hv & Hnone). split; [done|]. exists v.
      by rewrite ?Hd, ?app_nil_r.
    + simpl. eexists (Ok st), [_; _]. rewrite <- !app_assoc.
      repeat split; try done. by repeat constructor.
Qed.

Lemma page_loop_run (channel_id q : string) : ∀ (fuel : nat) (page_token : option string)
    (pages : Z) (st : search_state) (tr : trace),
  (1 ≤ fuel)%nat → max_pages - pages ≤ Z.of_nat fuel →
  ∃ r new, pages_of channel_id q fuel page_token pages st tr = (r, tr ++ new)
    ∧ post st r new
    ∧ 1 ≤ count_search_requests new ≤ Z.max 1 (max_pages - pages)
    ∧ stops_at_first_end max_pages pages r (search_answers new).
Proof.
  induction fuel as [|fuel IH]; intros page_token pages st tr Hfuel Hpages; [lia|].
  simpl. unfold builder_lambda.request_page. munfold. unfold search_list.
  set (rq := {| rq_channelId := channel_id; rq_q := q; rq_publishedAfter := cutoff_iso;
                rq_regionCode := region_code; rq_pageToken := page_token |}).
  destruct (search_list_execute yt tr rq) as [resp|] eqn:Hsearch.
  2:{ eexists (Ok st), [_; _]. rewrite <- app_assoc. simpl.
      split; [done|]. split; [split; [by repeat constructor|done]|]. split; [lia|].
      exists [], None. split; [done|]. split; [constructor|]. by left. }
  destruct (page_candidates_run (builder_lambda.cand_ids_of (resp_items resp)) st
              (tr ++ [SearchList rq (Some resp)]))
    as (r1 & new1 & Hpage & Hpost1 & Hc1).
  rewrite Hpage.
  assert (search_answers (SearchList rq (Some resp) :: new1) = [Some resp]) as Hans1.
  { change (search_answers (_ :: new1)) with (Some resp :: search_answers new1).
    by rewrite search_answers_none. }
  assert (∀ r, post st r new1 → post st r (SearchList rq (Some resp) :: new1)) as Hskip.
  { intros r Hr. apply (search_post_skip _ _ [_]); [by repeat constructor|done..]. }
  destruct r1 as [st1| |]; [|eexists (Raise e), (_ :: new1)|by destruct Hpost1].
  2:{ rewrite <- app_assoc. simpl count_search_requests. rewrite Hc1, Hans1.
      split; [done|]. split; [by apply Hskip|]. split; [lia|].
      exists [], (Some resp). split; [done|]. split; [constructor|].
      by intros [? ?]. }
  destruct (negb (ostr_truthy (resp_nextPageToken resp)) || (max_pages <=? pages + 1)) eqn:Hstop.
  - exists (Ok st1), (SearchList rq (Some resp) :: new1).
    rewrite <- app_assoc. simpl count_search_requests. rewrite Hc1, Hans1.
    split; [done|]. split; [by apply Hskip|]. split; [lia|].
    exists [], (Some resp). split; [done|]. split; [constructor|]. intros _.
    apply orb_true_iff in Hstop as [Htok|Hmax%Z.leb_le].
    + left. simpl. by apply negb_true_iff.
    + right. simpl. lia.
  - apply orb_false_iff in Hstop as [Htok%negb_false_iff Hlt%Z.leb_gt].
    destruct (IH (resp_nextPageToken resp) (pages + 1) st1
                 ((tr ++ [SearchList rq (Some resp)]) ++ new1))
      as (r2 & new2 & Hrun2 & Hpost2 & Hc2 & init & last & Hans2 & Hinit & Hlast); [lia..|].
    rewrite Hrun2. exists r2, (SearchList rq (Some resp) :: new1 ++ new2).
    rewrite <- !app_assoc. split; [done|]. split; [|split].
    + apply (search_post_skip _ _ [_]); [by repeat constructor|done|].
      by eapply search_post_seq.
    + simpl. rewrite count_search_requests_app, Hc1. lia.
    + change (SearchList rq (Some resp) :: new1 ++ new2)
        with ((SearchList rq (Some resp) :: new1) ++ new2).
      rewrite search_answers_app, Hans1, Hans2.
      exists (Some resp :: init), last. split; [done|]. split; [by constructor|].
      intros Hok. destruct (Hlast Hok) as [?|Hmax]; [by left|right].
      rewrite Hans2 in Hmax. simpl length. rewrite !length_app in *. simpl in *. lia.
Qed.

Lemma for_each_post {A : Type} (body : search_state → A → M search_state) (l : list A) :
  (∀ st x tr, ∃ r new, body st x tr = (r, tr ++ new) ∧ post st r new) →
  ∀ st tr, ∃ r new, for_each body l st tr = (r, tr ++ new) ∧ post st r new.
Proof.
  intros Hbody. induction l as [|x l IH]; intros st tr; simpl.
  - exists (Ok st), []. munfold. rewrite app_nil_r. done.
  - destruct (Hbody st x tr) as (r & new & Hrun & Hpost).
    munfold. rewrite Hrun. destruct r as [st1| |]; [|by eauto|by destruct Hpost].
    destruct (IH st1 (tr ++ new)) as (r2 & new2 & Hrun2 & Hpost2).
    rewrite Hrun2. exists r2, (new ++ new2). rewrite app_assoc. split; [done|].
    by eapply search_post_seq.
Qed.

Lemma page_fuel_enough : (1 ≤ builder_lambda.page_fuel max_pages)%nat
  ∧ max_pages - 0 ≤ Z.of_nat (builder_lambda.page_fuel max_pages).
Proof. unfold builder_lambda.page_fuel. lia. Qed.

Lemma search_query_run (channel_id : string) (st : search_state) (q : string) (tr : trace) :
  ∃ r new,
    builder_lambda.search_query parse_duration yt cutoff_iso region_code max_pages thr
      channel_id st q tr = (r, tr ++ new)
    ∧ post st r new.
Proof.
  unfold builder_lambda.search_query. munfold.
  destruct page_fuel_enough as [H1 H2].
  destruct (page_loop_run channel_id q _ None 0 st
              (tr ++ [Log INFO "Searching channel=%s query=%r"]) H1 H2)
    as (r & new & Hrun & Hpost & _ & _).
  rewrite Hrun. exists r, (Log INFO "Searching channel=%s query=%r" :: new).
  rewrite <- app_assoc. split; [done|].
  apply (search_post_skip _ _ [_]); [by repeat constructor|done..].
Qed.

Lemma search_channel_run (queries : list string) (st : search_state) (channel_id : string)
    (tr : trace) :
  ∃ r new,
    builder_lambda.search_channel parse_duration yt cutoff_iso region_code max_pages thr
      queries st channel_id tr = (r, tr ++ new)
    ∧ post st r new.
Proof. apply for_each_post. intros. apply search_query_run. Qed.

(** *** The pure content of the candidate loop *)

Lemma foldl_after_visit (items : list video_details) : ∀ st : search_state,
  seen st = list_to_set (video_ids st) →
  let st' := foldl after1 st items in
  video_ids st'
    = video_ids st ++ first_seen (seen st)
                        (v_id <$> List.filter (qualifies parse_duration thr) items)
  ∧ seen st' = list_to_set (video_ids st').
Proof.
  induction items as [|v items IH]; intros st Hinv; simpl.
  - by rewrite app_nil_r.
  - unfold after_visit at 2 4 6.
    destruct (qualifies parse_duration thr v); simpl; [|by apply IH].
    case_bool_decide as Hseen; simpl; [by apply IH|].
    edestruct (IH {| video_ids := video_ids st ++ [v_id v]; seen := {[v_id v]} ∪ seen st |})
      as [Hids Hset].
    { simpl. rewrite Hinv, list_to_set_app_L. set_solver. }
    split; [|exact Hset]. simpl in Hids. rewrite Hids, <- app_assoc. done.
Qed.

End Search.

(** *** The whole search *)

Lemma search_videos_run (parse_duration : string → option Q) (yt : youtube)
    (cfg : channel_cfg) (cutoff_iso region_code : string) (max_pages : Z) (tr : trace) :
  let thr := default 3 (cfg_min_duration_minutes cfg) * 60 in
  ∃ r new,
    builder_lambda._search_videos parse_duration yt cfg cutoff_iso region_code max_pages tr
      = (r, tr ++ new)
    ∧ Forall search_event new
    ∧ match r with
      | Ok ids =>
          ids = video_ids (foldl (after_visit parse_duration thr)
                             {| video_ids := []; seen := ∅ |} (details_of new))
      | Raise e =>
          e = ISO8601Error ∧ ∃ v, v ∈ details_of new ∧ parse_duration (v_duration v) = None
      | Timeout => False
      end.
Proof.
  intros thr. unfold builder_lambda._search_videos.
  destruct (builder_lambda.build_queries cfg) as [|q0 qs] eqn:Hq.
  - munfold. eexists (Ok []), [_]. repeat split; try done. by repeat constructor.
  - munfold. fold thr.
    set (tr2 := (tr ++ _) ++ _).
    destruct (for_each_post parse_duration thr
                (builder_lambda.search_channel parse_duration yt cutoff_iso region_code
                   max_pages thr (q0 :: qs))
                (default [] (cfg_channel_ids cfg))
                (search_channel_run parse_duration yt cutoff_iso region_code max_pages thr
                   (q0 :: qs))
                {| video_ids := []; seen := ∅ |} tr2)
      as (r & new & Hrun & Hev & Hpost).
    rewrite Hrun. subst tr2. destruct r as [st|e|]; [| |done].
    + eexists (Ok (video_ids st)), (_ :: _ :: new ++ [_]).
      rewrite <- !app_assoc. split; [done|]. split.
      * repeat constructor. apply Forall_app. split; [done|by repeat constructor].
      * simpl in *. by rewrite details_of_app, app_nil_r, Hpost.
    + eexists (Raise e), (_ :: _ :: new). rewrite <- !app_assoc.
      split; [done|]. split; [by repeat constructor|done].
Qed.

Lemma search_result_is_duplicate_free_in_first_seen_order_aux
    (parse_duration : string → option Q) (yt : youtube) (cfg : channel_cfg)
    (cutoff_iso region_code : string) (max_pages : Z) (tr tr' : trace)
    (ids : list string) :
  builder_lambda._search_videos parse_duration yt cfg cutoff_iso region_code max_pages tr
    = (Ok ids, tr') →
  ∃ new, tr' = tr ++ new
    ∧ ids = first_seen ∅
              (v_id <$> List.filter
                          (qualifies parse_duration
                             (default 3 (cfg_min_duration_minutes cfg) * 60))
                          (details_of new)).
Proof.
  intros Hrun.
  destruct (search_videos_run parse_duration yt cfg cutoff_iso region_code max_pages tr)
    as (r & new & Hrun' & _ & Hr).
  rewrite Hrun in Hrun'. injection Hrun' as <- ->.
  destruct (foldl_after_visit parse_duration
              (default 3 (cfg_min_duration_minutes cfg) * 60) (details_of new)
              {| video_ids := []; seen := ∅ |}) as [Hids _]; [done|].
  simpl in Hids. rewrite Hr, Hids. by exists new.
Qed.

(** C2. Whatever the configuration and whatever the platform answers over
    all channel and query iterations: when [_search_videos] returns a
    sequence, it holds no identifier twice, and it lists the identifiers of
    the candidates that pass the duration test in the order in which they
    were first received; the search never runs out of pages to wait for. *)
Theorem search_result_is_duplicate_free_in_first_seen_order
    (parse_duration : string → option Q) (yt : youtube) (cfg : channel_cfg)
    (cutoff_iso region_code : string) (max_pages : Z) (tr tr' : trace)
    (ids : list string) :
  builder_lambda._search_videos parse_duration yt cfg cutoff_iso region_code max_pages tr
    = (Ok ids, tr') →
  NoDup ids
  ∧ ∃ new, tr' = tr ++ new
      ∧ ids = first_seen ∅
                (v_id <$> List.filter
                            (qualifies parse_duration
                               (default 3 (cfg_min_duration_minutes cfg) * 60))
                            (details_of new)).
Proof.
  intros Hrun.
  destruct (search_result_is_duplicate_free_in_first_seen_order_aux
              parse_duration yt cfg cutoff_iso region_code max_pages tr tr' ids Hrun)
    as (new & -> & ->).
  split; [apply first_seen_spec|]. by exists new.
Qed.

(** An identifier is in the result exactly when some candidate received
    under that identifier passes the duration test. *)
Lemma search_result_membership
    (parse_duration : string → option Q) (yt : youtube) (cfg : channel_cfg)
    (cutoff_iso region_code : string) (max_pages : Z) (tr tr' : trace)
    (ids : list string) (x : string) :
  builder_lambda._search_videos parse_duration yt cfg cutoff_iso region_code max_pages tr
    = (Ok ids, tr') →
  ∃ new, tr' = tr ++ new
    ∧ (x ∈ ids
       ↔ ∃ v, v ∈ details_of new ∧ v_id v = x
              ∧ qualifies parse_duration
                  (default 3 (cfg_min_duration_minutes cfg) * 60) v = true).
Proof.
  intros Hrun.
  destruct (search_result_is_duplicate_free_in_first_seen_order_aux
              parse_duration yt cfg cutoff_iso region_code max_pages tr tr' ids Hrun)
    as (new & -> & ->).
  exists new. split; [done|].
  destruct (first_seen_spec
              (v_id <$> List.filter
                          (qualifies parse_duration
                             (default 3 (cfg_min_duration_minutes cfg) * 60))
                          (details_of new)) ∅) as [_ Hin].
  rewrite Hin, list_elem_of_fmap. split.
  - intros [(v & -> & Hv) _]. apply list_elem_of_In, List.filter_In in Hv as [Hv Hq].
    exists v. by rewrite list_elem_of_In.
  - intros (v & Hv & <- & Hq). split; [|set_solver]. exists v. split; [done|].
    apply list_elem_of_In, List.filter_In. by rewrite <- list_elem_of_In.
Qed.

(** The search returns, and does not raise, when every duration the
    platform hands back parses. *)
Lemma search_returns (parse_duration : string → option Q) (yt : youtube)
    (cfg : channel_cfg) (cutoff_iso region_code : string) (max_pages : Z) (tr : trace) :
  (∀ s, is_Some (parse_duration s)) →
  ∃ ids tr',
    builder_lambda._search_videos parse_duration yt cfg cutoff_iso region_code max_pages tr
      = (Ok ids, tr').
Proof.
  intros Hparse.
  destruct (search_videos_run parse_duration yt cfg cutoff_iso region_code max_pages tr)
    as (r & new & Hrun & _ & Hr).
  destruct r as [ids|e|]; [by eauto| |done].
  destruct Hr as (_ & v & _ & Hnone). destruct (Hparse (v_duration v)). congruence.
Qed.

(** C7. With no usable query term, that is with [search_filter] absent or
    empty and [search_keywords] absent or empty, [_search_videos] returns
    the empty sequence and its only effect is one warning in the log,
    whatever the channel list, the cutoff, the region and the platform. *)
Theorem search_without_queries_returns_empty
    (parse_duration : string → option Q) (yt : youtube) (cfg : channel_cfg)
    (cutoff_iso region_code : string) (max_pages : Z) (tr : trace) :
  (cfg_search_filter cfg = None ∨ cfg_search_filter cfg = Some "") →
  (cfg_search_keywords cfg = None ∨ cfg_search_keywords cfg = Some []) →
  builder_lambda._search_videos parse_duration yt cfg cutoff_iso region_code max_pages tr
    = (Ok [], tr ++ [Log WARNING "No search queries available for video search"]).
Proof.
  intros Hf Hk. unfold builder_lambda._search_videos, builder_lambda.build_queries.
  destruct Hf as [-> | ->], Hk as [-> | ->]; reflexivity.
Qed.

(** *** The duration test *)

Lemma Qgtb_spec (a b : Q) : Qgtb a b = true ↔ (b < a)%Q.
Proof.
  unfold Qgtb. rewrite negb_true_iff. split.
  - intros H. apply Qnot_le_lt. intros Hle. apply Qle_bool_iff in Hle. congruence.
  - intros H. destruct (Qle_bool a b) eqn:E; [|done].
    apply Qle_bool_iff in E. by apply Qlt_not_le in H.
Qed.

Lemma list_neq_snoc {A : Type} (l : list A) (x : A) : l ≠ l ++ [x].
Proof.
  intros H. apply (f_equal length) in H. rewrite length_app in H. simpl in H. lia.
Qed.

(** The loop body on one candidate, at any threshold and in any state of
    the result, with [d] the parsed duration in seconds.  The candidate is
    appended exactly when [d] is strictly greater than
    [threshold_minutes * 60] and its identifier has not been kept before;
    a duration equal to the boundary leaves the result untouched. *)
Lemma visit_appends_iff_duration_exceeds_threshold
    (parse_duration : string → option Q) (threshold_minutes : Z)
    (st : search_state) (v : video_details) (d : Q) (tr : trace) :
  parse_duration (v_duration v) = Some d →
  ∃ st' tr',
    builder_lambda.visit parse_duration (threshold_minutes * 60) st v tr = (Ok st', tr')
    ∧ (video_ids st' = video_ids st ++ [v_id v]
       ↔ (inject_Z (threshold_minutes * 60) < d)%Q ∧ v_id v ∉ seen st)
    ∧ (v_id v ∉ seen st →
       (v_id v ∈ seen st' ↔ (inject_Z (threshold_minutes * 60) < d)%Q))
    ∧ ((d == inject_Z (threshold_minutes * 60))%Q → st' = st).
Proof.
  intros Hd. unfold builder_lambda.visit. rewrite Hd.
  destruct (Qgtb d (inject_Z (threshold_minutes * 60))) eqn:Hgt; simpl.
  - apply Qgtb_spec in Hgt. case_bool_decide as Hseen; simpl; munfold.
    + eexists st, _. split; [done|]. split; [|split].
      * split; [by intros ?%list_neq_snoc|tauto].
      * tauto.
      * done.
    + eexists _, _. split; [done|]. simpl. split; [|split].
      * tauto.
      * intros _. split; [done|]. set_solver.
      * intros Heq. rewrite Heq in Hgt. by apply Qlt_irrefl in Hgt.
  - assert (¬ (inject_Z (threshold_minutes * 60) < d)%Q) as Hnot.
    { intros H%Qgtb_spec. congruence. }
    munfold. eexists st, _. split; [done|]. split; [|split].
    + split; [by intros ?%list_neq_snoc|tauto].
    + tauto.
    + done.
Qed.

(** C1. The search phase as a whole, at any configured threshold.  Let
    the platform report one duration per video.  Then for every candidate
    video received during the search, with [d] its parsed duration in
    seconds: its identifier is in the result if and only if [d] is
    strictly greater than [threshold_minutes * 60]; in particular a
    candidate whose duration equals the boundary is not in the result. *)
Theorem candidate_in_result_iff_duration_exceeds_threshold
    (parse_duration : string → option Q) (yt : youtube) (cfg : channel_cfg)
    (cutoff_iso region_code : string) (max_pages : Z) (tr new : trace)
    (ids : list string) (v : video_details) (d : Q) :
  builder_lambda._search_videos parse_duration yt cfg cutoff_iso region_code max_pages tr
    = (Ok ids, tr ++ new) →
  (∀ v w, v ∈ details_of new → w ∈ details_of new →
          v_id v = v_id w → v_duration v = v_duration w) →
  v ∈ details_of new → parse_duration (v_duration v) = Some d →
  let threshold_minutes := default 3 (cfg_min_duration_minutes cfg) in
  (v_id v ∈ ids ↔ (inject_Z (threshold_minutes * 60) < d)%Q)
  ∧ ((d == inject_Z (threshold_minutes * 60))%Q → v_id v ∉ ids).
Proof.
  intros Hrun Hsame Hv Hd threshold_minutes.
  destruct (search_result_membership parse_duration yt cfg cutoff_iso region_code
              max_pages tr (tr ++ new) ids (v_id v) Hrun) as (new' & Hnew & Hin).
  apply app_inv_head in Hnew as <-. fold threshold_minutes in Hin.
  assert (v_id v ∈ ids ↔ (inject_Z (threshold_minutes * 60) < d)%Q) as Hiff.
  { rewrite Hin. split.
    - intros (w & Hw & Hid & Hq). unfold qualifies in Hq.
      rewrite (Hsame w v Hw Hv Hid), Hd in Hq. by apply Qgtb_spec.
    - intros Hlt. exists v. split; [done|]. split; [done|].
      unfold qualifies. rewrite Hd. by apply Qgtb_spec. }
  split; [exact Hiff|].
  intros Heq Hmem. apply Hiff in Hmem. rewrite Heq in Hmem. by apply Qlt_irrefl in Hmem.
Qed.

(** On the demonstration data, at three minutes: [b] lasts exactly 180
    seconds and stays out. *)
Lemma candidate_in_result_iff_duration_exceeds_threshold_witness :
  ("b" ∈ ["a"; "c"] ↔ (inject_Z (3 * 60) < 180 # 1)%Q)
  ∧ ((180 # 1 == inject_Z (3 * 60))%Q → "b" ∉ ["a"; "c"]).
Proof.
  apply (candidate_in_result_iff_duration_exceeds_threshold demo_parse_duration demo_yt
           goal_only_cfg demo_cutoff "SG" 4 []
           (snd (builder_lambda._search_videos demo_parse_duration demo_yt goal_only_cfg
                   demo_cutoff "SG" 4 []))
           ["a"; "c"] {| v_id := "b"; v_duration := "PT3M" |} (180 # 1)%Q).
  - vm_compute. reflexivity.
  - assert (details_of
              (snd (builder_lambda._search_videos demo_parse_duration demo_yt goal_only_cfg
                      demo_cutoff "SG" 4 []))
            = [{| v_id := "a"; v_duration := "PT10M" |};
               {| v_id := "b"; v_duration := "PT3M" |};
               {| v_id := "c"; v_duration := "PT3M0.1S" |}]) as ->
      by (vm_compute; reflexivity).
    intros v w Hv Hw.
    repeat (apply elem_of_cons in Hv as [-> | Hv]);
      repeat (apply elem_of_cons in Hw as [-> | Hw]);
      try (by apply elem_of_nil in Hv); try (by apply elem_of_nil in Hw);
      simpl; congruence.
  - vm_compute. apply list_elem_of_further, list_elem_of_here.
  - reflexivity.
Defined.

(** * Paging *)

(** C8, as the code has it.  For one channel and query the page loop, run
    as [_search_videos] runs it, comes to an end.  It always asks for the
    first page and asks for at most [max(1, max_pages)] pages.  Every
    answer but the last carried a page token, and when the loop returns it
    has stopped on a failed request, on an answer without page token, or
    with [max_pages] pages reached. *)
Theorem page_loop_requests_at_most_max_pages
    (parse_duration : string → option Q) (yt : youtube) (cutoff_iso region_code : string)
    (max_pages min_duration_seconds : Z) (channel_id q : string)
    (st : search_state) (tr : trace) :
  ∃ r new,
    builder_lambda.page_loop parse_duration yt cutoff_iso region_code max_pages
      min_duration_seconds channel_id q (builder_lambda.page_fuel max_pages) None 0 st tr
      = (r, tr ++ new)
    ∧ r ≠ Timeout
    ∧ 1 ≤ count_search_requests new ≤ Z.max 1 max_pages
    ∧ stops_at_first_end max_pages 0 r (search_answers new).
Proof.
  destruct (page_fuel_enough max_pages) as [H1 H2].
  destruct (page_loop_run parse_duration yt cutoff_iso region_code max_pages
              min_duration_seconds channel_id q _ None 0 st tr H1 H2)
    as (r & new & Hrun & [_ Hpost] & Hcount & Hstops).
  exists r, new. split; [done|]. split; [by destruct r|].
  by rewrite Z.sub_0_r in Hcount.
Qed.

Example demo_search_result :
  fst (builder_lambda._search_videos demo_parse_duration demo_yt demo_cfg
         demo_cutoff "SG" 4 []) = Ok ["a"; "c"; "d"].
Proof. vm_compute. reflexivity. Qed.

Lemma search_result_is_duplicate_free_in_first_seen_order_witness :
  NoDup ["a"; "c"; "d"]
  ∧ ∃ new,
      snd (builder_lambda._search_videos demo_parse_duration demo_yt demo_cfg
             demo_cutoff "SG" 4 []) = [] ++ new
      ∧ ["a"; "c"; "d"]
        = first_seen ∅
            (v_id <$> List.filter
                        (qualifies demo_parse_duration
                           (default 3 (cfg_min_duration_minutes demo_cfg) * 60))
                        (details_of new)).
Proof.
  apply (search_result_is_duplicate_free_in_first_seen_order
           demo_parse_duration demo_yt demo_cfg demo_cutoff "SG" 4 []).
  vm_compute. reflexivity.
Defined.

Lemma search_without_queries_returns_empty_witness :
  builder_lambda._search_videos demo_parse_duration demo_yt no_query_cfg
    demo_cutoff "SG" 4 []
  = (Ok [], [] ++ [Log WARNING "No search queries available for video search"]).
Proof.
  apply (search_without_queries_returns_empty demo_parse_duration demo_yt no_query_cfg
           demo_cutoff "SG" 4 []).
  - right. reflexivity.
  - left. reflexivity.
Defined.

Example boundary_duration_is_left_out :
  fst (builder_lambda.visit demo_parse_duration (3 * 60) empty_state
         {| v_id := "b"; v_duration := "PT3M" |} []) = Ok empty_state
  ∧ fmap video_ids
      (match fst (builder_lambda.visit demo_parse_duration (3 * 60) empty_state
                    {| v_id := "c"; v_duration := "PT3M0.1S" |} []) with
       | Ok st => Some st
       | _ => None
       end) = Some ["c"].
Proof. vm_compute. done. Qed.

(** C8 as stated fails for [max_pages = 0]: the first page is requested
    all the same. *)
Lemma page_loop_with_zero_max_pages_requests_one_page :
  let '(r, tr) :=
    builder_lambda.page_loop demo_parse_duration demo_yt demo_cutoff "SG" 0 180
      "UC1" "goal" (builder_lambda.page_fuel 0) None 0 empty_state [] in
  count_search_requests tr = 1 ∧ ¬ (count_search_requests tr ≤ 0).
Proof. vm_compute. split; [reflexivity|]. intros H. by apply H. Qed.

(** * Failures during the search *)

Lemma page_fuel_succ (max_pages : Z) :
  ∃ fuel, builder_lambda.page_fuel max_pages = S fuel.
Proof.
  unfold builder_lambda.page_fuel. exists (Nat.pred (Z.to_nat (Z.max 1 max_pages))). lia.
Qed.

Lemma page_loop_search_failure
    (parse_duration : string → option Q) (yt : youtube) (cutoff_iso region_code : string)
    (max_pages min_duration_seconds : Z) (channel_id q : string) (fuel : nat)
    (page_token : option string) (pages : Z) (st : search_state) (tr : trace) :
  let rq :=
    {| rq_channelId := channel_id; rq_q := q; rq_publishedAfter := cutoff_iso;
       rq_regionCode := region_code; rq_pageToken := page_token |} in
  search_list_execute yt tr rq = None →
  builder_lambda.page_loop parse_duration yt cutoff_iso region_code max_pages
    min_duration_seconds channel_id q (S fuel) page_token pages st tr
  = (Ok st, tr ++ [SearchList rq None;
                   Log ERROR "YouTube search failed for channel %s, query %s: %s"]).
Proof.
  intros rq Hfail. simpl. unfold builder_lambda.request_page. munfold.
  unfold search_list. fold rq. rewrite Hfail. by rewrite <- app_assoc.
Qed.

(** C5, as the code has it.  A failed search-page request ends the page
    loop of its channel and query at once: nothing is kept from it, no
    further page is requested, and the loop over the queries goes on with
    the next one.  A failed metadata request only discards the candidates
    of its page: the loop goes on exactly as after a page without
    candidates, with the next page token, unless the token is missing or
    [max_pages] is reached. *)
Theorem search_failures_are_contained
    (parse_duration : string → option Q) (yt : youtube) (cutoff_iso region_code : string)
    (max_pages min_duration_seconds : Z) (channel_id q : string) (fuel : nat)
    (page_token : option string) (pages : Z) (st : search_state) (tr : trace) :
  let rq page_token :=
    {| rq_channelId := channel_id; rq_q := q; rq_publishedAfter := cutoff_iso;
       rq_regionCode := region_code; rq_pageToken := page_token |} in
  let loop := builder_lambda.page_loop parse_duration yt cutoff_iso region_code max_pages
                min_duration_seconds channel_id q in
  let channel := builder_lambda.search_channel parse_duration yt cutoff_iso region_code
                   max_pages min_duration_seconds in
  (search_list_execute yt tr (rq page_token) = None →
   loop (S fuel) page_token pages st tr
   = (Ok st, tr ++ [SearchList (rq page_token) None;
                    Log ERROR "YouTube search failed for channel %s, query %s: %s"]))
  ∧ (∀ qs,
       let tr0 := tr ++ [Log INFO "Searching channel=%s query=%r"] in
       search_list_execute yt tr0 (rq None) = None →
       channel (q :: qs) st channel_id tr
       = channel qs st channel_id
           (tr0 ++ [SearchList (rq None) None;
                    Log ERROR "YouTube search failed for channel %s, query %s: %s"]))
  ∧ (∀ resp,
       let cand_ids := builder_lambda.cand_ids_of (resp_items resp) in
       let tr1 := tr ++ [SearchList (rq page_token) (Some resp);
                         VideosList (join "," cand_ids) None;
                         Log ERROR "videos.list failed for details: %s"] in
       search_list_execute yt tr (rq page_token) = Some resp →
       cand_ids ≠ [] →
       videos_list_execute yt (tr ++ [SearchList (rq page_token) (Some resp)])
         (join "," cand_ids) = None →
       loop (S fuel) page_token pages st tr
       = if negb (ostr_truthy (resp_nextPageToken resp)) || (max_pages <=? pages + 1)
         then (Ok st, tr1)
         else loop fuel (resp_nextPageToken resp) (pages + 1) st tr1).
Proof.
  intros rq loop channel. split; [|split].
  - intros Hfail. by apply page_loop_search_failure.
  - intros qs tr0 Hfail. unfold channel, builder_lambda.search_channel. simpl for_each.
    assert (builder_lambda.search_query parse_duration yt cutoff_iso region_code max_pages
              min_duration_seconds channel_id st q tr
            = (Ok st, tr0 ++ [SearchList (rq None) None;
                 Log ERROR "YouTube search failed for channel %s, query %s: %s"])) as Hq.
    { unfold builder_lambda.search_query. destruct (page_fuel_succ max_pages) as [f ->].
      munfold. by apply page_loop_search_failure. }
    munfold. by rewrite Hq.
  - intros resp cand_ids tr1 Hsearch Hcand Hfail. unfold loop. simpl.
    unfold builder_lambda.request_page. munfold. unfold search_list.
    fold (rq page_token). rewrite Hsearch.
    unfold builder_lambda.page_candidates. fold cand_ids.
    destruct cand_ids as [|c cs] eqn:Hc; [done|]. munfold. unfold videos_list.
    rewrite Hfail. simpl. subst tr1. rewrite <- !app_assoc. simpl.
    destruct (negb (ostr_truthy (resp_nextPageToken resp)) || (max_pages <=? pages + 1));
      reflexivity.
Qed.

Lemma search_failures_are_contained_witness :
  builder_lambda.page_loop demo_parse_duration flaky_details_yt demo_cutoff "SG" 4 180
    "UC1" "goal" 4 None 0 empty_state []
  = builder_lambda.page_loop demo_parse_duration flaky_details_yt demo_cutoff "SG" 4 180
      "UC1" "goal" 3 (Some "p2") 1 empty_state
      [SearchList (goal_request None) (Some demo_page1); VideosList "a,b" None;
       Log ERROR "videos.list failed for details: %s"].
Proof.
  apply (proj2 (proj2 (search_failures_are_contained demo_parse_duration flaky_details_yt
                         demo_cutoff "SG" 4 180 "UC1" "goal" 3 None 0 empty_state []))
           demo_page1).
  - reflexivity.
  - discriminate.
  - reflexivity.
Defined.

(** C5 as stated fails: after the metadata request of the first page has
    failed, the second page of the same channel and query is still
    requested, and its candidate is kept. *)
Lemma metadata_failure_does_not_end_paging :
  let '(r, tr) :=
    builder_lambda._search_videos demo_parse_duration flaky_details_yt goal_only_cfg
      demo_cutoff "SG" 4 [] in
  r = Ok ["c"]
  ∧ calls tr
    = [SearchList (goal_request None) (Some demo_page1);
       VideosList "a,b" None;
       SearchList (goal_request (Some "p2")) (Some demo_page2);
       VideosList "c" (Some [{| v_id := "c"; v_duration := "PT3M0.1S" |}])].
Proof. vm_compute. done. Qed.

(** * The handlers *)

Example demo_handler_run :
  fst (builder_lambda.handler demo_parse_duration demo_parse_date (demo_world demo_yt)
         Direct demo_task [])
  = Ok {| s_ok := true; s_playlist_id := Some "PL1"; s_videos_added := Some 3;
          s_message := None; s_channel := None |}.
Proof. vm_compute. reflexivity. Qed.

Example demo_handler_calls :
  calls (snd (builder_lambda.handler demo_parse_duration demo_parse_date
                (demo_world quiet_yt) Direct demo_task []))
  = [GetSecretValue true; LoadChannelsConfig true;
     PlaylistsInsert {| pb_title := VStr "Epl Highlights";
                        pb_description := VStr "Auto-generated Epl highlights playlist";
                        pb_privacy := VStr "unlisted";
                        pb_tags := Some (VList [VStr "epl"; VStr "highlights"]) |}
                     (Some "PL1");
     SearchList {| rq_channelId := "UC1"; rq_q := "goal"; rq_publishedAfter := demo_cutoff;
                   rq_regionCode := "SG"; rq_pageToken := None |} (Some no_results);
     SearchList {| rq_channelId := "UC1"; rq_q := "highlights";
                   rq_publishedAfter := demo_cutoff;
                   rq_regionCode := "SG"; rq_pageToken := None |} (Some no_results);
     SearchList {| rq_channelId := "UC2"; rq_q := "goal"; rq_publishedAfter := demo_cutoff;
                   rq_regionCode := "SG"; rq_pageToken := None |} (Some no_results);
     SearchList {| rq_channelId := "UC2"; rq_q := "highlights";
                   rq_publishedAfter := demo_cutoff;
                   rq_regionCode := "SG"; rq_pageToken := None |} (Some no_results)].
Proof. vm_compute. reflexivity. Qed.



(** The difference at the interface: with [test_mode = "false"] the
    [main.py] handler only probes the platform, the [builder_lambda.py]
    handler builds the playlist. *)
Example test_mode_false_string_in_both_variants :
  calls (snd (main.handler (demo_world demo_yt)
                (<["test_mode" := VStr "false"]> demo_task) []))
  = [GetSecretValue true; ChannelsList (Some (Some "My Channel"))]
  ∧ fst (builder_lambda.handler demo_parse_duration demo_parse_date (demo_world demo_yt)
           Direct (<["test_mode" := VStr "false"]> demo_task) [])
    = Ok {| s_ok := true; s_playlist_id := Some "PL1"; s_videos_added := Some 3;
            s_message := None; s_channel := None |}.
Proof. vm_compute. done. Qed.

(** *** Validation of the task *)

(** [builder_lambda.py] checks the two required fields before it touches
    the clock or any collaborator: when one is missing or empty, a task
    whose [region] is absent or a string gets the missing-field error, and
    the only events are log lines. *)
Lemma builder_handler_validates_first
    (parse_duration : string → option Q) (isodate_parse_date : string → date + exn)
    (w : world) (source : invocation) (task : gmap string pyval) (tr : trace)
    (region_code : string) :
  region_code_of (w_environ w) task = mret region_code →
  truthy (task_get task "competition_id") = false
  ∨ truthy (task_get task "earliest_date") = false →
  ∃ msg new,
    builder_lambda.handler parse_duration isodate_parse_date w source task tr
      = (Raise (ValueError msg), tr ++ new)
    ∧ Forall is_log new
    ∧ (msg = "Missing 'competition_id' in event" ∨ msg = "Missing 'earliest_date' in event").
Proof.
  intros Hregion Hmissing. unfold builder_lambda.handler. rewrite Hregion. munfold.
  destruct (truthy (task_get task "competition_id")) eqn:Hc; simpl.
  - destruct Hmissing as [?|He]; [done|]. rewrite He. simpl.
    destruct source; simpl.
    + eexists _, [_; _; _; _; _]. rewrite <- !app_assoc. simpl.
      split; [done|]. split; [by repeat constructor|by right].
    + eexists _, [_; _; _; _]. rewrite <- !app_assoc. simpl.
      split; [done|]. split; [by repeat constructor|by right].
  - destruct source; simpl.
    + eexists _, [_; _; _; _; _]. rewrite <- !app_assoc. simpl.
      split; [done|]. split; [by repeat constructor|by left].
    + eexists _, [_; _; _; _]. rewrite <- !app_assoc. simpl.
      split; [done|]. split; [by repeat constructor|by left].
Qed.

(** [main.py] resolves the cutoff before it checks the fields: without an
    [earliest_date] the resolver fails on [None.date()], and that error,
    not the missing-field one, leaves the handler.  No collaborator is
    called. *)
Lemma main_handler_without_earliest_date
    (w : world) (task : gmap string pyval) (tr : trace) (region_code : string) :
  region_code_of (w_environ w) task = mret region_code →
  task !! "earliest_date" = None →
  main.handler w task tr
  = (Raise AttributeError, tr ++ [Log ERROR "Failed to compute cutoff ISO: "]).
Proof.
  intros Hregion Hnone. unfold main.handler. rewrite Hregion.
  unfold task_get. rewrite Hnone. reflexivity.
Qed.

(** C6, at the input on which [main.py] departs from it: a task with a
    competition identifier and no earliest date.  The [main.py] handler
    raises [AttributeError] out of the cutoff resolver, where the claim
    and the handler's own check promise the missing-field error; the
    [builder_lambda.py] handler raises that missing-field error.  Neither
    calls a collaborator. *)
Theorem main_handler_misses_the_missing_date_error :
  main.handler (demo_world demo_yt) task_without_date []
  = (Raise AttributeError, [Log ERROR "Failed to compute cutoff ISO: "])
  ∧ fst (builder_lambda.handler demo_parse_duration demo_parse_date (demo_world demo_yt)
           Direct task_without_date [])
    = Raise (ValueError "Missing 'earliest_date' in event")
  ∧ calls (snd (builder_lambda.handler demo_parse_duration demo_parse_date
                  (demo_world demo_yt) Direct task_without_date [])) = [].
Proof. vm_compute. done. Qed.

Example main_handler_without_competition :
  main.handler (demo_world demo_yt) task_without_competition []
  = (Raise (ValueError "Missing 'competition_id' in event"), []).
Proof. vm_compute. reflexivity. Qed.

(** *** The normal run *)

Lemma bind_run {A B : Type} (m : M A) (k : A → M B) (t t' : trace) (a : A) :
  m t = (Ok a, t') → (m ≫= k) t = k a t'.
Proof. intros H. unfold mbind, M_bind, bind. by rewrite H. Qed.


Lemma cutoff_from_date_run (clk : clock) (input_date : date) (t : trace) :
  ∃ r, cutoff_from_date clk input_date t = (r, t) ∧ r ≠ Timeout.
Proof.
  unfold cutoff_from_date.
  destruct (datetime_sub (in_utc (now_utc clk)) _) as [c1|]; [|by eexists].
  destruct (datetime_sub c1 _); by eexists.
Qed.

Lemma builder_cutoff_run (isodate_parse_date : string → date + exn) (clk : clock)
    (earliest_date : pyval) (t : trace) :
  ∃ r new,
    builder_lambda._compute_cutoff_iso isodate_parse_date clk earliest_date t
      = (r, t ++ new)
    ∧ Forall is_log new ∧ r ≠ Timeout.
Proof.
  unfold builder_lambda._compute_cutoff_iso. munfold.
  set (t1 := t ++ [Log DEBUG "_compute_cutoff_iso input earliest_date=%r type=%s"]).
  assert (∀ d, ∃ r new,
    (match cutoff_from_date clk d t1 with
     | (Raise e, tr') =>
         let (_, tr'0) := (Ok tt, tr' ++ [Log ERROR "Failed to compute cutoff ISO: "]) in
         (Raise e, tr'0)
     | r => r
     end : result string * trace) = (r, t ++ new) ∧ Forall is_log new ∧ r ≠ Timeout)
    as Htail.
  { intros d. destruct (cutoff_from_date_run clk d t1) as (r & -> & Hr).
    destruct r as [c|e|]; [| |done].
    - eexists _, [_]. split; [done|]. split; [by repeat constructor|done].
    - eexists _, [_; _]. unfold t1. rewrite <- app_assoc. simpl.
      split; [done|]. split; [by repeat constructor|done]. }
  assert (∀ e, ∃ r new,
    ((Raise e : result string), t1 ++ [Log ERROR "Failed to compute cutoff ISO: "])
    = (r, t ++ new) ∧ Forall is_log new ∧ r ≠ Timeout) as Hfail.
  { intros e. eexists _, [_; _]. unfold t1. rewrite <- app_assoc. simpl.
    split; [done|]. split; [by repeat constructor|done]. }
  destruct earliest_date as [| | |s|d|dt| |]; simpl; try apply Hfail; try apply Htail.
  destruct (if endswith (strip s) "Z" then _ else _) as [dt|]; simpl; [apply Htail|].
  destruct (isodate_parse_date (strip s)); simpl; [apply Htail|apply Hfail].
Qed.


Lemma search_event_not_insert (new : trace) :
  Forall search_event new → insert_attempts new = [].
Proof.
  induction 1 as [|e new He _ IH]; [done|].
  destruct e; try done; exact IH.
Qed.




(** * The cutoff resolver *)

(** *** Digits *)

Lemma digit_ind (P : Z → Prop) :
  P 0 → P 1 → P 2 → P 3 → P 4 → P 5 → P 6 → P 7 → P 8 → P 9 →
  ∀ x, 0 ≤ x < 10 → P x.
Proof.
  intros P0 P1 P2 P3 P4 P5 P6 P7 P8 P9 x Hx.
  rewrite <- (Z2Nat.id x) by lia.
  assert (Z.to_nat x < 10)%nat as Hn by lia.
  destruct (Z.to_nat x) as [|n]; [exact P0|].
  do 9 (destruct n as [|n]; [assumption|]). lia.
Qed.

Lemma digit_char_mod (x : Z) : is_digit (digit_char (x mod 10)) = true.
Proof.
  apply (digit_ind (λ n, is_digit (digit_char n) = true)); try reflexivity.
  apply Z.mod_pos_bound. lia.
Qed.

Lemma digit_val_char (x : Z) : 0 ≤ x < 10 → digit_val (digit_char x) = Some x.
Proof. apply (digit_ind (λ n, digit_val (digit_char n) = Some n)); reflexivity. Qed.

Lemma digit_facts (c : ascii) :
  is_digit c = true →
  isspace c = false
  ∧ Ascii.eqb c "Z" = false ∧ Ascii.eqb c "T" = false ∧ Ascii.eqb c "+" = false.
Proof.
  destruct c as [[] [] [] [] [] [] [] []]; intros H; try discriminate H; done.
Qed.

Lemma parse2_fmt (n : Z) :
  0 ≤ n < 100 → parse2 (digit_char (n / 10 mod 10)) (digit_char (n mod 10)) = Some n.
Proof.
  intros H. unfold parse2.
  rewrite !digit_val_char by (apply Z.mod_pos_bound; lia). simpl.
  f_equal. rewrite (Z.mod_small (n / 10)) by (split; [apply Z.div_pos|apply Z.div_lt_upper_bound]; lia).
  pose proof (Z.div_mod n 10 ltac:(lia)). lia.
Qed.

Lemma parse4_fmt (n : Z) :
  0 ≤ n < 10000 →
  parse4 (digit_char (n / 1000 mod 10)) (digit_char (n / 100 mod 10))
         (digit_char (n / 10 mod 10)) (digit_char (n mod 10)) = Some n.
Proof.
  intros H. unfold parse4, parse2.
  rewrite !digit_val_char by (apply Z.mod_pos_bound; lia). simpl.
  f_equal. 
  pose proof (Z.div_mod n 10 ltac:(lia)).
  pose proof (Z.div_mod (n / 10) 10 ltac:(lia)).
  pose proof (Z.div_mod (n / 100) 10 ltac:(lia)).
  pose proof (Z.div_mod (n / 1000) 10 ltac:(lia)).
  assert (n / 100 = n / 10 / 10) as E1 by (rewrite Z.div_div; [done|lia..]).
  assert (n / 1000 = n / 100 / 10) as E2 by (rewrite Z.div_div; [done|lia..]).
  assert (n / 1000 / 10 = 0).
  { rewrite Z.div_div by lia. apply Z.div_small. lia. }
  lia.
Qed.

(** *** Strings *)

Lemma append_cons (a : ascii) (s t : string) : String a s +:+ t = String a (s +:+ t).
Proof. reflexivity. Qed.

Lemma append_nil (t : string) : "" +:+ t = t.
Proof. reflexivity. Qed.

Lemma contains_app (c : ascii) (s t : string) :
  contains c (s +:+ t) = contains c s || contains c t.
Proof.
  induction s as [|a s IH]; [done|].
  rewrite append_cons. simpl. rewrite IH. by rewrite orb_assoc.
Qed.

Lemma replace_from_skip_plus (s t : string) :
  contains "+" s = false →
  replace_from "+00:00" "Z" 0 (s +:+ t) = s +:+ replace_from "+00:00" "Z" 0 t.
Proof.
  induction s as [|a s IH]; intros Hplus; [done|].
  simpl in Hplus. apply orb_false_iff in Hplus as [Ha Hs].
  rewrite !append_cons. cbn [replace_from String.prefix].
  destruct (ascii_dec "+" a) as [<-|_]; [done|]. by rewrite IH.
Qed.

Lemma contains_plus_fmt2 (n : Z) : contains "+" (fmt2 n) = false.
Proof.
  unfold fmt2. simpl.
  destruct (digit_facts _ (digit_char_mod (n / 10))) as (_ & _ & _ & ->).
  destruct (digit_facts _ (digit_char_mod n)) as (_ & _ & _ & ->). done.
Qed.

Lemma contains_plus_fmt4 (n : Z) : contains "+" (fmt4 n) = false.
Proof.
  unfold fmt4. simpl.
  destruct (digit_facts _ (digit_char_mod (n / 1000))) as (_ & _ & _ & ->).
  destruct (digit_facts _ (digit_char_mod (n / 100))) as (_ & _ & _ & ->).
  destruct (digit_facts _ (digit_char_mod (n / 10))) as (_ & _ & _ & ->).
  destruct (digit_facts _ (digit_char_mod n)) as (_ & _ & _ & ->). done.
Qed.

Lemma contains_plus_date (d : date) : contains "+" (date_isoformat d) = false.
Proof.
  unfold date_isoformat.
  by rewrite !contains_app, contains_plus_fmt4, !contains_plus_fmt2.
Qed.

(** The suffix [+00:00] of a UTC datetime becomes [Z], and nothing else
    changes. *)
Lemma isoformat_utc_replace (dt : datetime) :
  utcoffset dt = Some 0 →
  replace "+00:00" "Z" (datetime_isoformat_seconds dt) = utc_timestamp_seconds dt.
Proof.
  intros Hutc. unfold replace, datetime_isoformat_seconds, utc_timestamp_seconds.
  rewrite Hutc.
  repeat (rewrite replace_from_skip_plus;
          [|first [apply contains_plus_date | apply contains_plus_fmt2 | reflexivity]]).
  reflexivity.
Qed.

Lemma strip_date_shape (c1 c2 c3 c4 c5 c6 c7 c8 : ascii) :
  is_digit c1 = true → is_digit c8 = true →
  strip (date_shape c1 c2 c3 c4 c5 c6 c7 c8 "") = date_shape c1 c2 c3 c4 c5 c6 c7 c8 "".
Proof.
  intros H1 H8. unfold strip, date_shape.
  destruct (digit_facts _ H1) as (Hs1 & _). destruct (digit_facts _ H8) as (Hs8 & _).
  cbn [lstrip]. rewrite Hs1. cbn [String.rev String.rev_app lstrip]. rewrite Hs8.
  reflexivity.
Qed.

Lemma endswith_date_shape (c1 c2 c3 c4 c5 c6 c7 c8 : ascii) :
  is_digit c8 = true → endswith (date_shape c1 c2 c3 c4 c5 c6 c7 c8 "") "Z" = false.
Proof. intros H8. destruct (digit_facts _ H8) as (_ & HZ & _). exact HZ. Qed.

Lemma contains_T_date_shape (c1 c2 c3 c4 c5 c6 c7 c8 : ascii) :
  is_digit c1 = true → is_digit c2 = true → is_digit c3 = true → is_digit c4 = true →
  is_digit c5 = true → is_digit c6 = true → is_digit c7 = true → is_digit c8 = true →
  contains "T" (date_shape c1 c2 c3 c4 c5 c6 c7 c8 "") = false.
Proof.
  intros H1 H2 H3 H4 H5 H6 H7 H8. unfold date_shape. cbn [contains].
  destruct (digit_facts _ H1) as (_ & _ & -> & _).
  destruct (digit_facts _ H2) as (_ & _ & -> & _).
  destruct (digit_facts _ H3) as (_ & _ & -> & _).
  destruct (digit_facts _ H4) as (_ & _ & -> & _).
  destruct (digit_facts _ H5) as (_ & _ & -> & _).
  destruct (digit_facts _ H6) as (_ & _ & -> & _).
  destruct (digit_facts _ H7) as (_ & _ & -> & _).
  destruct (digit_facts _ H8) as (_ & _ & -> & _).
  reflexivity.
Qed.

Lemma fromisoformat_date_shape (c1 c2 c3 c4 c5 c6 c7 c8 : ascii) (y m d : Z) :
  parse4 c1 c2 c3 c4 = Some y → parse2 c5 c6 = Some m → parse2 c7 c8 = Some d →
  valid_date {| year := y; month := m; day := d |} = true →
  fromisoformat (date_shape c1 c2 c3 c4 c5 c6 c7 c8 "T00:00:00")
  = Some {| dt_date := {| year := y; month := m; day := d |}; hour := 0; minute := 0;
            second := 0; microsecond := 0; utcoffset := None |}.
Proof.
  intros Hy Hm Hd Hvalid. unfold fromisoformat, parse_date_part, date_shape.
  cbn [Ascii.eqb Bool.eqb andb]. rewrite Hy, Hm, Hd. cbn [mbind option_bind].
  rewrite Hvalid. reflexivity.
Qed.

(** *** Date-only strings *)

Lemma days_in_month_le_31 (y m : Z) : 1 ≤ m ≤ 12 → _days_in_month y m ≤ 31.
Proof.
  intros Hm. unfold _days_in_month.
  destruct ((m =? 2) && _is_leap y); [lia|].
  assert (m = 1 ∨ m = 2 ∨ m = 3 ∨ m = 4 ∨ m = 5 ∨ m = 6 ∨ m = 7 ∨ m = 8 ∨ m = 9
          ∨ m = 10 ∨ m = 11 ∨ m = 12) as Hcases by lia.
  repeat destruct Hcases as [-> | Hcases]; try (simpl; lia). subst m. simpl. lia.
Qed.

Lemma valid_date_bounds (d : date) :
  valid_date d = true → 1 ≤ year d ≤ 9999 ∧ 1 ≤ month d ≤ 12 ∧ 1 ≤ day d ≤ 31.
Proof.
  unfold valid_date. rewrite !andb_true_iff, !Z.leb_le.
  intros (((((Hy1 & Hy2) & Hm1) & Hm2) & Hd1) & Hd2).
  pose proof (days_in_month_le_31 (year d) (month d) ltac:(lia)). lia.
Qed.

Lemma date_isoformat_shape (d : date) :
  date_isoformat d
  = date_shape (digit_char (year d / 1000 mod 10)) (digit_char (year d / 100 mod 10))
      (digit_char (year d / 10 mod 10)) (digit_char (year d mod 10))
      (digit_char (month d / 10 mod 10)) (digit_char (month d mod 10))
      (digit_char (day d / 10 mod 10)) (digit_char (day d mod 10)) "".
Proof. reflexivity. Qed.

(** What the string branch of either variant makes of [YYYY-MM-DD]. *)
Lemma date_only_string_normalizes (d : date) :
  valid_date d = true →
  let s := date_isoformat d in
  strip s = s ∧ endswith s "Z" = false ∧ contains "T" s = false
  ∧ fromisoformat (s +:+ "T00:00:00")
    = Some {| dt_date := d; hour := 0; minute := 0; second := 0; microsecond := 0;
              utcoffset := None |}.
Proof.
  intros Hvalid s. subst s. rewrite date_isoformat_shape.
  destruct (valid_date_bounds d Hvalid) as (Hy & Hm & Hd).
  split; [apply strip_date_shape; apply digit_char_mod|].
  split; [apply endswith_date_shape; apply digit_char_mod|].
  split; [apply contains_T_date_shape; apply digit_char_mod|].
  destruct d as [y m dd]. simpl in *.
  apply (fromisoformat_date_shape _ _ _ _ _ _ _ _ y m dd);
    [apply parse4_fmt; lia|apply parse2_fmt; lia|apply parse2_fmt; lia|done].
Qed.

Lemma datetime_sub_utcoffset (dt dt' : datetime) (delta : Z) :
  datetime_sub dt delta = Some dt' → utcoffset dt' = utcoffset dt.
Proof.
  unfold datetime_sub. destruct (_ && _); [|done]. by intros [= <-].
Qed.

Lemma cutoff_from_date_in_range (clk : clock) (d : date) (t cutoff : datetime)
    (tr : trace) :
  datetime_sub (in_utc (now_utc clk)) (timedelta (date_sub_days (today_local clk) d) 0)
    = Some t →
  datetime_sub t (timedelta 0 24) = Some cutoff →
  cutoff_from_date clk d tr = (Ok (utc_timestamp_seconds cutoff), tr).
Proof.
  intros H1 H2. unfold cutoff_from_date. rewrite H1, H2.
  rewrite isoformat_utc_replace; [done|].
  apply datetime_sub_utcoffset in H1, H2. by rewrite H2, H1.
Qed.

(** *** The calendar: ordinals and dates *)

Lemma days_before_year_cycles (a b c e : Z) :
  0 ≤ b ≤ 3 → 0 ≤ c ≤ 24 → 0 ≤ e ≤ 3 →
  _days_before_year (400 * a + 100 * b + 4 * c + e + 1)
  = 146097 * a + 36524 * b + 1461 * c + 365 * e.
Proof.
  intros Hb Hc He. unfold _days_before_year.
  replace (400 * a + 100 * b + 4 * c + e + 1 - 1) with (400 * a + 100 * b + 4 * c + e)
    by lia.
  assert ((400 * a + 100 * b + 4 * c + e) / 4 = 100 * a + 25 * b + c) as ->.
  { symmetry. apply (Z.div_unique _ _ _ e); lia. }
  assert ((400 * a + 100 * b + 4 * c + e) / 100 = 4 * a + b) as ->.
  { symmetry. apply (Z.div_unique _ _ _ (4 * c + e)); lia. }
  assert ((400 * a + 100 * b + 4 * c + e) / 400 = a) as ->.
  { symmetry. apply (Z.div_unique _ _ _ (100 * b + 4 * c + e)); lia. }
  lia.
Qed.

Lemma is_leap_cycles (a b c e : Z) :
  0 ≤ b ≤ 3 → 0 ≤ c ≤ 24 → 0 ≤ e ≤ 3 →
  _is_leap (400 * a + 100 * b + 4 * c + e + 1)
  = (e =? 3) && (negb (c =? 24) || (b =? 3)).
Proof.
  intros Hb Hc He. unfold _is_leap.
  set (y := 400 * a + 100 * b + 4 * c + e + 1).
  assert (y mod 4 = (e + 1) mod 4) as ->.
  { unfold y. replace (400 * a + 100 * b + 4 * c + e + 1)
      with (e + 1 + (100 * a + 25 * b + c) * 4) by lia. apply Z.mod_add. lia. }
  assert (y mod 100 = (4 * c + e + 1) mod 100) as ->.
  { unfold y. replace (400 * a + 100 * b + 4 * c + e + 1)
      with (4 * c + e + 1 + (4 * a + b) * 100) by lia. apply Z.mod_add. lia. }
  assert (y mod 400 = (100 * b + 4 * c + e + 1) mod 400) as ->.
  { unfold y. replace (400 * a + 100 * b + 4 * c + e + 1)
      with (100 * b + 4 * c + e + 1 + a * 400) by lia. apply Z.mod_add. lia. }
  destruct (Z.eqb_spec e 3) as [->|Hne].
  - replace ((3 + 1) mod 4) with 0 by reflexivity. simpl andb.
    destruct (Z.eqb_spec c 24) as [->|Hc24].
    + replace ((4 * 24 + 3 + 1) mod 100) with 0 by reflexivity. simpl.
      destruct (Z.eqb_spec b 3) as [->|Hb3]; [reflexivity|].
      apply Z.eqb_neq. rewrite Z.mod_small by lia. lia.
    + simpl. rewrite Z.mod_small by lia.
      destruct (Z.eqb_spec (4 * c + 3 + 1) 0); [lia|reflexivity].
  - rewrite Z.mod_small by lia. destruct (Z.eqb_spec (e + 1) 0); [lia|reflexivity].
Qed.

(** The month and day of the [n]-th day of a year (counted from zero),
    found as [_ord2ymd] finds them, lead back to [n]. *)
Lemma month_day_roundtrip (n : Z) (leapyear : bool) :
  0 ≤ n ≤ 364 →
  let m := Z.shiftr (n + 50) 5 in
  let preceding := _DAYS_BEFORE_MONTH m + (if (2 <? m) && leapyear then 1 else 0) in
  let md :=
    if n <? preceding then
      (m - 1,
       n - (preceding - (_DAYS_IN_MONTH (m - 1)
                         + (if (m - 1 =? 2) && leapyear then 1 else 0))) + 1)
    else (m, n - preceding + 1) in
  _DAYS_BEFORE_MONTH (fst md) + (if (2 <? fst md) && leapyear then 1 else 0) + snd md
  = n + 1.
Proof.
  intros Hn. cbv zeta. rewrite Z.shiftr_div_pow2 by lia. change (2 ^ 5) with 32.
  set (m := (n + 50) / 32).
  assert (32 * m ≤ n + 50 < 32 * m + 32) as Hrange.
  { unfold m. pose proof (Z.div_mod (n + 50) 32 ltac:(lia)).
    pose proof (Z.mod_pos_bound (n + 50) 32 ltac:(lia)). lia. }
  clearbody m.
  assert (m = 1 ∨ m = 2 ∨ m = 3 ∨ m = 4 ∨ m = 5 ∨ m = 6 ∨ m = 7 ∨ m = 8 ∨ m = 9
          ∨ m = 10 ∨ m = 11 ∨ m = 12) as Hcases by lia.
  destruct leapyear;
    repeat destruct Hcases as [-> | Hcases]; try subst m; cbv zeta; simpl;
    match goal with |- context [n <? ?p] => destruct (Z.ltb_spec n p) end;
    simpl; lia.
Qed.

(** [date.fromordinal(n).toordinal() == n] *)
Lemma ord2ymd_roundtrip (n : Z) : 1 ≤ n → toordinal (_ord2ymd n) = n.
Proof.
  intros Hn. unfold _ord2ymd. cbv zeta. unfold _DI400Y, _DI100Y, _DI4Y.
  set (n0 := n - 1).
  set (a := n0 / 146097). set (r1 := n0 mod 146097).
  set (b := r1 / 36524). set (r2 := r1 mod 36524).
  set (c := r2 / 1461). set (r3 := r2 mod 1461).
  set (e := r3 / 365). set (r4 := r3 mod 365).
  assert (n0 = 146097 * a + r1 ∧ 0 ≤ r1 < 146097) as [E1 B1].
  { unfold a, r1. pose proof (Z.div_mod n0 146097 ltac:(lia)).
    pose proof (Z.mod_pos_bound n0 146097 ltac:(lia)). lia. }
  assert (r1 = 36524 * b + r2 ∧ 0 ≤ r2 < 36524) as [E2 B2].
  { unfold b, r2. pose proof (Z.div_mod r1 36524 ltac:(lia)).
    pose proof (Z.mod_pos_bound r1 36524 ltac:(lia)). lia. }
  assert (r2 = 1461 * c + r3 ∧ 0 ≤ r3 < 1461) as [E3 B3].
  { unfold c, r3. pose proof (Z.div_mod r2 1461 ltac:(lia)).
    pose proof (Z.mod_pos_bound r2 1461 ltac:(lia)). lia. }
  assert (r3 = 365 * e + r4 ∧ 0 ≤ r4 < 365) as [E4 B4].
  { unfold e, r4. pose proof (Z.div_mod r3 365 ltac:(lia)).
    pose proof (Z.mod_pos_bound r3 365 ltac:(lia)). lia. }
  assert (0 ≤ b ≤ 4 ∧ 0 ≤ c ≤ 24 ∧ 0 ≤ e ≤ 4) as (Bb & Bc & Be) by lia.
  clearbody a r1 b r2 c r3 e r4.
  assert (n = 146097 * a + 36524 * b + 1461 * c + 365 * e + r4 + 1) as -> by lia.
  clear n0 E1 Hn.
  destruct ((e =? 4) || (b =? 4)) eqn:Hspecial.
  - unfold toordinal, _ymd2ord, _days_before_month. simpl year. simpl month. simpl day.
    apply orb_true_iff in Hspecial as [He%Z.eqb_eq | Hb%Z.eqb_eq].
    + assert (r4 = 0 ∧ c ≤ 23 ∧ b ≤ 3) as (-> & Hc & Hb) by lia. subst e.
      replace (a * 400 + 1 + b * 100 + c * 4 + 4 - 1)
        with (400 * a + 100 * b + 4 * c + 3 + 1) by lia.
      rewrite days_before_year_cycles, is_leap_cycles by lia.
      replace (c =? 24) with false by (symmetry; apply Z.eqb_neq; lia).
      simpl. lia.
    + assert (r2 = 0 ∧ c = 0 ∧ e = 0 ∧ r4 = 0) as (-> & -> & -> & ->) by lia. subst b.
      replace (a * 400 + 1 + 4 * 100 + 0 * 4 + 0 - 1)
        with (400 * a + 100 * 3 + 4 * 24 + 3 + 1) by lia.
      rewrite days_before_year_cycles, is_leap_cycles by lia.
      simpl. lia.
  - apply orb_false_iff in Hspecial as [He%Z.eqb_neq Hb%Z.eqb_neq].
    pose proof (month_day_roundtrip r4 ((e =? 3) && (negb (c =? 24) || (b =? 3)))
                  ltac:(lia)) as Hmd.
    cbv zeta in Hmd.
    replace (a * 400 + 1 + b * 100 + c * 4 + e)
      with (400 * a + 100 * b + 4 * c + e + 1) by lia.
    destruct (r4 <? _) eqn:Hlt;
      unfold toordinal, _ymd2ord, _days_before_month;
      simpl year; simpl month; simpl day;
      rewrite days_before_year_cycles, is_leap_cycles by lia;
      simpl fst in Hmd; simpl snd in Hmd; lia.
Qed.

(** The instant of a datetime, in microseconds since the eve of
    0001-01-01, and what subtracting a [timedelta] does to it. *)
Lemma datetime_sub_instant (dt dt' : datetime) (delta : Z) :
  datetime_sub dt delta = Some dt' →
  instant_us dt' = instant_us dt - delta.
Proof.
  unfold datetime_sub.
  set (total := timedelta (toordinal (dt_date dt)) 0
                + (hour dt * 3600 + minute dt * 60 + second dt) * 1000000
                + microsecond dt - delta).
  destruct ((0 <? total / 86400000000) && (total / 86400000000 <=? _MAXORDINAL)) eqn:Hrange;
    [|done].
  apply andb_true_iff in Hrange as [Hpos%Z.ltb_lt _].
  intros [= <-]. unfold instant_us. simpl.
  rewrite ord2ymd_roundtrip by lia.
  fold total. unfold timedelta in total.
  pose proof (Z.div_mod total 86400000000 ltac:(lia)).
  pose proof (Z.div_mod (total mod 86400000000) 1000000 ltac:(lia)).
  pose proof (Z.div_mod (total mod 86400000000 / 1000000) 3600 ltac:(lia)).
  pose proof (Z.div_mod (total mod 86400000000 / 1000000 mod 3600) 60 ltac:(lia)).
  assert (total mod 1000000 = (total mod 86400000000) mod 1000000) as Hus.
  { symmetry. apply Z.mod_mod_divide. exists 86400. lia. }
  subst total. unfold timedelta in *. lia.
Qed.

(** *** The cutoff of a date-only string *)

(** C3, as the code has it.  For a valid date-only string [D], with
    [today] the current date in the configured zone and [now] the current
    UTC instant: whenever [now - (today - D).days days] and that instant
    minus 24 hours are both representable datetimes, either variant of the
    resolver returns exactly [now - (today - D).days days - 24 hours],
    written as [YYYY-MM-DDTHH:MM:SSZ]: the instant returned lies exactly
    that many days and 24 hours before [now].  The midnight appended to
    [D] for parsing plays no part: only the date enters the day
    difference. *)
Theorem cutoff_of_date_only_string
    (isodate_parse_date : string → date + exn) (clk : clock) (d : date)
    (t cutoff : datetime) (tr : trace) :
  valid_date d = true →
  datetime_sub (in_utc (now_utc clk)) (timedelta (date_sub_days (today_local clk) d) 0)
    = Some t →
  datetime_sub t (timedelta 0 24) = Some cutoff →
  builder_lambda._compute_cutoff_iso isodate_parse_date clk (VStr (date_isoformat d)) tr
  = (Ok (utc_timestamp_seconds cutoff),
     tr ++ [Log DEBUG "_compute_cutoff_iso input earliest_date=%r type=%s"])
  ∧ main._compute_cutoff_iso clk (VStr (date_isoformat d)) tr
    = (Ok (utc_timestamp_seconds cutoff), tr)
  ∧ instant_us cutoff
    = instant_us (in_utc (now_utc clk))
      - timedelta (date_sub_days (today_local clk) d) 24.
Proof.
  intros Hvalid H1 H2.
  destruct (date_only_string_normalizes d Hvalid) as (Hstrip & Hends & HT & Hparse).
  split; [|split].
  3:{ apply datetime_sub_instant in H1, H2. rewrite H2, H1. unfold timedelta. lia. }
  - unfold builder_lambda._compute_cutoff_iso. rewrite Hstrip, Hends, HT, Hparse.
    munfold. simpl dt_date.
    by rewrite (cutoff_from_date_in_range clk d t cutoff _ H1 H2).
  - unfold main._compute_cutoff_iso. rewrite Hends, Hparse.
    munfold. simpl dt_date.
    by rewrite (cutoff_from_date_in_range clk d t cutoff _ H1 H2).
Qed.

Lemma cutoff_of_date_only_string_witness :
  builder_lambda._compute_cutoff_iso demo_parse_date demo_clock (VStr "2024-01-15") []
  = (Ok "2024-01-14T03:04:05Z",
     [] ++ [Log DEBUG "_compute_cutoff_iso input earliest_date=%r type=%s"])
  ∧ main._compute_cutoff_iso demo_clock (VStr "2024-01-15") []
    = (Ok "2024-01-14T03:04:05Z", [])
  ∧ instant_us {| dt_date := {| year := 2024; month := 1; day := 14 |}; hour := 3;
                  minute := 4; second := 5; microsecond := 678; utcoffset := Some 0 |}
    = instant_us (in_utc (now_utc demo_clock)) - timedelta 5 24.
Proof.
  apply (cutoff_of_date_only_string demo_parse_date demo_clock
           {| year := 2024; month := 1; day := 15 |}
           {| dt_date := {| year := 2024; month := 1; day := 15 |}; hour := 3; minute := 4;
              second := 5; microsecond := 678; utcoffset := Some 0 |}
           {| dt_date := {| year := 2024; month := 1; day := 14 |}; hour := 3; minute := 4;
              second := 5; microsecond := 678; utcoffset := Some 0 |} []).
  - reflexivity.
  - reflexivity.
  - reflexivity.
Defined.

(** C3 as stated fails for the earliest dates: [0001-01-01] is a valid
    date-only string, and the instant one day before it does not exist.
    Both variants raise [OverflowError]. *)
Lemma cutoff_of_first_day_overflows :
  valid_date {| year := 1; month := 1; day := 1 |} = true
  ∧ date_isoformat {| year := 1; month := 1; day := 1 |} = "0001-01-01"
  ∧ fst (builder_lambda._compute_cutoff_iso demo_parse_date demo_clock
           (VStr "0001-01-01") []) = Raise OverflowError
  ∧ fst (main._compute_cutoff_iso demo_clock (VStr "0001-01-01") [])
    = Raise OverflowError.
Proof. vm_compute. done. Qed.


(** * More on the search: the shape of its trace *)

Section SearchShape.

Context (parse_duration : string → option Q).
Context (yt : youtube) (cutoff_iso region_code : string) (max_pages thr : Z).

Lemma visit_logs (st : search_state) (v : video_details) (tr : trace) :
  ∃ r new, builder_lambda.visit parse_duration thr st v tr = (r, tr ++ new)
    ∧ Forall is_log new ∧ r ≠ Timeout.
Proof.
  unfold builder_lambda.visit.
  destruct (parse_duration (v_duration v)) as [d|]; munfold.
  - destruct (Qgtb d (inject_Z thr) && negb (bool_decide (v_id v ∈ seen st))).
    + eexists _, [_]. repeat split; [by repeat constructor|done].
    + eexists _, []. rewrite app_nil_r. repeat split; [constructor|done].
  - eexists _, []. rewrite app_nil_r. repeat split; [constructor|done].
Qed.

Lemma for_each_visit_logs (items : list video_details) : ∀ (st : search_state) (tr : trace),
  ∃ r new, for_each (builder_lambda.visit parse_duration thr) items st tr = (r, tr ++ new)
    ∧ Forall is_log new ∧ r ≠ Timeout.
Proof.
  induction items as [|v items IH]; intros st tr; simpl.
  - exists (Ok st), []. munfold. rewrite app_nil_r. repeat split; [constructor|done].
  - destruct (visit_logs st v tr) as (r & new & Hrun & Hlog & Hr).
    munfold. rewrite Hrun. destruct r as [st'|e|]; [|by eauto|done].
    destruct (IH st' (tr ++ new)) as (r2 & new2 & Hrun2 & Hlog2 & Hr2).
    rewrite Hrun2. exists r2, (new ++ new2). rewrite app_assoc.
    repeat split; [by apply Forall_app|done].
Qed.

Lemma page_candidates_shape (cand_ids : list string) (st : search_state) (tr : trace) :
  ∃ r new, builder_lambda.page_candidates parse_duration yt thr cand_ids st tr = (r, tr ++ new)
    ∧ candidate_events cand_ids new ∧ r ≠ Timeout.
Proof.
  unfold builder_lambda.page_candidates.
  destruct cand_ids as [|c cs].
  - exists (Ok st), []. munfold. rewrite app_nil_r. repeat split; [by constructor|done].
  - munfold. unfold videos_list.
    destruct (videos_list_execute yt tr (join "," (c :: cs))) as [items|].
    + destruct (for_each_visit_logs items st
                  (tr ++ [VideosList (join "," (c :: cs)) (Some items)]))
        as (r & new & Hrun & Hlog & Hr).
      rewrite Hrun. exists r, (VideosList (join "," (c :: cs)) (Some items) :: new).
      rewrite <- app_assoc. repeat split; [by constructor|done].
    + simpl. eexists (Ok st), [_; _]. rewrite <- !app_assoc.
      repeat split; [by constructor|done].
Qed.

Lemma page_loop_shape (channel_id q : string) : ∀ (fuel : nat) (page_token : option string)
    (pages : Z) (st : search_state) (tr : trace),
  (1 ≤ fuel)%nat → max_pages - pages ≤ Z.of_nat fuel →
  ∃ r new,
    builder_lambda.page_loop parse_duration yt cutoff_iso region_code max_pages thr
      channel_id q fuel page_token pages st tr = (r, tr ++ new)
    ∧ page_events cutoff_iso region_code max_pages channel_id q pages page_token
        (is_ok r) new
    ∧ r ≠ Timeout.
Proof.
  induction fuel as [|fuel IH]; intros page_token pages st tr Hfuel Hpages; [lia|].
  simpl. unfold builder_lambda.request_page. munfold. unfold search_list.
  fold (page_request cutoff_iso region_code channel_id q page_token).
  set (rq := page_request cutoff_iso region_code channel_id q page_token).
  destruct (search_list_execute yt tr rq) as [resp|] eqn:Hsearch.
  2:{ eexists (Ok st), [_; _]. rewrite <- app_assoc. simpl.
      repeat split; [apply request_failed|done]. }
  destruct (page_candidates_shape (builder_lambda.cand_ids_of (resp_items resp)) st
              (tr ++ [SearchList rq (Some resp)]))
    as (r1 & new1 & Hpage & Hcand & Hr1).
  rewrite Hpage.
  destruct r1 as [st1|e|]; [|eexists (Raise e), (_ :: new1)|done].
  2:{ rewrite <- app_assoc. repeat split; [by apply page_cut_short|done]. }
  destruct (negb (ostr_truthy (resp_nextPageToken resp)) || (max_pages <=? pages + 1)) eqn:Hstop.
  - exists (Ok st1), (SearchList rq (Some resp) :: new1).
    rewrite <- app_assoc. repeat split; [by apply last_page|done].
  - pose proof Hstop as Hstop'.
    apply orb_false_iff in Hstop' as [_ Hlt%Z.leb_gt].
    destruct (IH (resp_nextPageToken resp) (pages + 1) st1
                 ((tr ++ [SearchList rq (Some resp)]) ++ new1))
      as (r2 & new2 & Hrun2 & Hshape2 & Hr2); [lia..|].
    rewrite Hrun2. exists r2, (SearchList rq (Some resp) :: new1 ++ new2).
    rewrite <- !app_assoc. repeat split; [by apply next_page|done].
Qed.

Lemma for_each_shape {A : Type} (body : search_state → A → M search_state)
    (shape : A → bool → trace → Prop) (l : list A) :
  (∀ st x tr, ∃ r new, body st x tr = (r, tr ++ new) ∧ shape x (is_ok r) new
                       ∧ r ≠ Timeout) →
  ∀ st tr, ∃ r new, for_each body l st tr = (r, tr ++ new)
                    ∧ loop_events shape l (is_ok r) new ∧ r ≠ Timeout.
Proof.
  intros Hbody. induction l as [|x l IH]; intros st tr; simpl.
  - exists (Ok st), []. munfold. rewrite app_nil_r. repeat split; [constructor|done].
  - destruct (Hbody st x tr) as (r & new & Hrun & Hshape & Hr).
    munfold. rewrite Hrun. destruct r as [st1|e|]; [| |done].
    2:{ exists (Raise e), new. repeat split; [by apply loop_cut_short|done]. }
    destruct (IH st1 (tr ++ new)) as (r2 & new2 & Hrun2 & Hshape2 & Hr2).
    rewrite Hrun2. exists r2, (new ++ new2). rewrite app_assoc.
    repeat split; [by apply loop_round|done].
Qed.

Lemma search_query_shape (channel_id : string) (st : search_state) (q : string)
    (tr : trace) :
  ∃ r new,
    builder_lambda.search_query parse_duration yt cutoff_iso region_code max_pages thr
      channel_id st q tr = (r, tr ++ new)
    ∧ query_events cutoff_iso region_code max_pages channel_id q (is_ok r) new
    ∧ r ≠ Timeout.
Proof.
  unfold builder_lambda.search_query. munfold.
  destruct (page_fuel_enough max_pages) as [H1 H2].
  destruct (page_loop_shape channel_id q _ None 0 st
              (tr ++ [Log INFO "Searching channel=%s query=%r"]) H1 H2)
    as (r & new & Hrun & Hshape & Hr).
  rewrite Hrun. exists r, (Log INFO "Searching channel=%s query=%r" :: new).
  rewrite <- app_assoc. repeat split; [|done]. by exists new.
Qed.

Lemma search_channel_shape (queries : list string) (st : search_state)
    (channel_id : string) (tr : trace) :
  ∃ r new,
    builder_lambda.search_channel parse_duration yt cutoff_iso region_code max_pages thr
      queries st channel_id tr = (r, tr ++ new)
    ∧ channel_events cutoff_iso region_code max_pages queries channel_id (is_ok r) new
    ∧ r ≠ Timeout.
Proof.
  apply (for_each_shape _ (query_events cutoff_iso region_code max_pages channel_id)).
  intros. apply search_query_shape.
Qed.

End SearchShape.

(** The events of a search that has queries to run. *)
Lemma search_videos_shape (parse_duration : string → option Q) (yt : youtube)
    (cfg : channel_cfg) (cutoff_iso region_code : string) (max_pages : Z) (tr : trace) :
  builder_lambda.build_queries cfg ≠ [] →
  ∃ r new,
    builder_lambda._search_videos parse_duration yt cfg cutoff_iso region_code max_pages tr
      = (r, tr ++ new)
    ∧ search_events cutoff_iso region_code max_pages (default [] (cfg_channel_ids cfg))
        (builder_lambda.build_queries cfg) (is_ok r) new
    ∧ r ≠ Timeout.
Proof.
  intros Hq. unfold builder_lambda._search_videos.
  destruct (builder_lambda.build_queries cfg) as [|q0 qs] eqn:Eq; [done|].
  munfold.
  set (tr2 := (tr ++ _) ++ _).
  destruct (for_each_shape
              (builder_lambda.search_channel parse_duration yt cutoff_iso region_code
                 max_pages (default 3 (cfg_min_duration_minutes cfg) * 60) (q0 :: qs))
              (channel_events cutoff_iso region_code max_pages (q0 :: qs))
              (default [] (cfg_channel_ids cfg))
              (search_channel_shape parse_duration yt cutoff_iso region_code max_pages
                 (default 3 (cfg_min_duration_minutes cfg) * 60) (q0 :: qs))
              {| video_ids := []; seen := ∅ |} tr2)
    as (r & new & Hrun & Hshape & Hr).
  rewrite Hrun. subst tr2. destruct r as [st|e|]; [| |done].
  - eexists (Ok (video_ids st)), (_ :: _ :: new ++ [_]).
    rewrite <- !app_assoc. repeat split; [|done]. by exists new.
  - eexists (Raise e), (_ :: _ :: new). rewrite <- !app_assoc.
    repeat split; [|done]. exists new. simpl. by rewrite app_nil_r.
Qed.

(** The search of a configuration without queries. *)
Lemma search_videos_no_queries (parse_duration : string → option Q) (yt : youtube)
    (cfg : channel_cfg) (cutoff_iso region_code : string) (max_pages : Z) (tr : trace) :
  builder_lambda.build_queries cfg = [] →
  builder_lambda._search_videos parse_duration yt cfg cutoff_iso region_code max_pages tr
  = (Ok [], tr ++ [Log WARNING "No search queries available for video search"]).
Proof. intros Hq. unfold builder_lambda._search_videos. by rewrite Hq. Qed.

(** *** Reading the shape *)

Lemma count_metadata_requests_app (a b : trace) :
  count_metadata_requests (a ++ b) = count_metadata_requests a + count_metadata_requests b.
Proof.
  induction a as [|e a IH]; simpl; [lia|].
  destruct e; rewrite ?IH; lia.
Qed.

Lemma first_page_requests_app (a b : trace) :
  first_page_requests (a ++ b) = first_page_requests a ++ first_page_requests b.
Proof. apply omap_app. Qed.

Lemma search_exchanges_app (a b : trace) :
  search_exchanges (a ++ b) = search_exchanges a ++ search_exchanges b.
Proof. apply omap_app. Qed.

(** Whether a trace satisfies [metadata_follows_search] depends on the
    event before it only through its first event. *)
Lemma metadata_follows_search_app (prev : option event) (a b : trace) :
  metadata_follows_search prev a → (∀ p, metadata_follows_search p b) →
  metadata_follows_search prev (a ++ b).
Proof.
  revert prev. induction a as [|e a IH]; intros prev Ha Hb; [apply Hb|].
  destruct Ha as [He Ha]. split; [done|]. by apply IH.
Qed.

Lemma tokens_follow_app (prev : option (search_request * option search_response))
    (a b : list (search_request * option search_response)) :
  tokens_follow prev a → (∀ p, tokens_follow p b) → tokens_follow prev (a ++ b).
Proof.
  revert prev. induction a as [|[rq answer] a IH]; intros prev Ha Hb; [apply Hb|].
  destruct Ha as [He Ha]. split; [done|]. by apply IH.
Qed.

(** Log lines are no requests. *)
Lemma logs_are_silent (cutoff_iso region_code : string) (channel_ids queries : list string)
    (logs : trace) :
  Forall is_log logs →
  search_exchanges logs = [] ∧ first_page_requests logs = []
  ∧ count_search_requests logs = 0 ∧ count_metadata_requests logs = 0
  ∧ (∀ p, metadata_follows_search p logs)
  ∧ Forall (scoped_request cutoff_iso region_code channel_ids queries) logs.
Proof.
  induction 1 as [|e logs He _ (IH1 & IH2 & IH3 & IH4 & IH5 & IH6)].
  - split_and!; by constructor.
  - destruct e; try done. split_and!; try done. by constructor.
Qed.

(** The [if cand_ids:] block: at most one metadata request, for the
    candidates of the answer just received, and no search request. *)
Lemma candidate_events_facts (cutoff_iso region_code : string)
    (channel_ids queries : list string) (rq : search_request) (resp : search_response)
    (evs : trace) :
  candidate_events (builder_lambda.cand_ids_of (resp_items resp)) evs →
  search_exchanges evs = [] ∧ first_page_requests evs = []
  ∧ count_search_requests evs = 0 ∧ 0 ≤ count_metadata_requests evs ≤ 1
  ∧ metadata_follows_search (Some (SearchList rq (Some resp))) evs
  ∧ Forall (scoped_request cutoff_iso region_code channel_ids queries) evs.
Proof.
  intros [Hnone|Hsome|items logs Hsome Hlogs].
  - split_and!; first [done | by constructor].
  - split_and!; first [done | by repeat constructor].
  - destruct (logs_are_silent cutoff_iso region_code channel_ids queries logs Hlogs)
      as (H1 & H2 & H3 & H4 & H5 & H6).
    split_and!; first [done | simpl; lia | by constructor].
Qed.

Lemma first_page_requests_search (rq : search_request) (answer : option search_response)
    (evs : trace) :
  first_page_requests (SearchList rq answer :: evs)
  = match rq_pageToken rq with
    | None => (rq_channelId rq, rq_q rq) :: first_page_requests evs
    | Some _ => first_page_requests evs
    end.
Proof. unfold first_page_requests. simpl. by destruct (rq_pageToken rq). Qed.

(** The page loop of one channel and query. *)
Lemma page_events_facts (cutoff_iso region_code : string) (max_pages : Z)
    (channel_ids queries : list string) (channel_id q : string) (pages : Z)
    (page_token : option string) (finished : bool) (evs : trace) :
  channel_id ∈ channel_ids → q ∈ queries →
  page_events cutoff_iso region_code max_pages channel_id q pages page_token finished evs →
  first_page_requests evs
  = match page_token with None => [(channel_id, q)] | Some _ => [] end
  ∧ 1 ≤ count_search_requests evs ≤ Z.max 1 (max_pages - pages)
  ∧ count_metadata_requests evs ≤ count_search_requests evs
  ∧ (∀ p, metadata_follows_search p evs)
  ∧ Forall (scoped_request cutoff_iso region_code channel_ids queries) evs
  ∧ (∀ prev,
       page_token = None
       ∨ continues prev (page_request cutoff_iso region_code channel_id q page_token) →
       tokens_follow prev (search_exchanges evs)).
Proof.
  intros Hc Hq.
  induction 1 as [pages page_token
                 |pages page_token resp evs Hcand
                 |pages page_token resp evs Hcand Hstop
                 |pages page_token resp evs rest finished Hcand Hstop Hrest IH].
  - split_and!; try done; try (simpl; lia).
    + by destruct page_token.
    + by repeat constructor.
  - destruct (candidate_events_facts cutoff_iso region_code channel_ids queries
                (page_request cutoff_iso region_code channel_id q page_token) resp evs Hcand)
      as (H1 & H2 & H3 & H4 & H5 & H6).
    split_and!.
    + rewrite first_page_requests_search, H2. by destruct page_token.
    + simpl. lia.
    + simpl. lia.
    + simpl. lia.
    + intros p. by split.
    + by constructor.
    + intros prev Hprev.
      change (search_exchanges (SearchList ?rq ?a :: evs)) with ((rq, a) :: search_exchanges evs).
      rewrite H1. by split.
  - destruct (candidate_events_facts cutoff_iso region_code channel_ids queries
                (page_request cutoff_iso region_code channel_id q page_token) resp evs Hcand)
      as (H1 & H2 & H3 & H4 & H5 & H6).
    split_and!.
    + rewrite first_page_requests_search, H2. by destruct page_token.
    + simpl. lia.
    + simpl. lia.
    + simpl. lia.
    + intros p. by split.
    + by constructor.
    + intros prev Hprev.
      change (search_exchanges (SearchList ?rq ?a :: evs)) with ((rq, a) :: search_exchanges evs).
      rewrite H1. by split.
  - destruct (candidate_events_facts cutoff_iso region_code channel_ids queries
                (page_request cutoff_iso region_code channel_id q page_token) resp evs Hcand)
      as (H1 & H2 & H3 & H4 & H5 & H6).
    destruct IH as (I1 & I2 & I3 & I4 & I5 & I6).
    apply orb_false_iff in Hstop as [Htoken%negb_false_iff Hlt%Z.leb_gt].
    split_and!.
    + rewrite first_page_requests_search, first_page_requests_app, H2, I1.
      destruct (resp_nextPageToken resp); [|done]. by destruct page_token.
    + simpl. rewrite count_search_requests_app. lia.
    + simpl. rewrite count_search_requests_app. lia.
    + simpl. rewrite count_search_requests_app, count_metadata_requests_app. lia.
    + intros p. split; [done|]. by apply metadata_follows_search_app.
    + constructor; [done|]. by apply Forall_app.
    + intros prev Hprev.
      change (search_exchanges (SearchList ?rq ?a :: evs ++ rest))
        with ((rq, a) :: search_exchanges (evs ++ rest)).
      rewrite search_exchanges_app, H1. split; [done|].
      apply I6. right. by eexists _, resp.
Qed.

(** *** The [for] loops *)

(** A property of traces that holds of the empty trace and of a
    concatenation holds of a loop when it holds of every round. *)
Lemma loop_events_closed {A : Type} (body : A → bool → trace → Prop) (P : trace → Prop)
    (l : list A) (finished : bool) (evs : trace) :
  P [] → (∀ a b, P a → P b → P (a ++ b)) →
  (∀ x fin e, x ∈ l → body x fin e → P e) →
  loop_events body l finished evs → P evs.
Proof.
  intros Hnil Happ Hbody Hloop.
  induction Hloop as [|x l evs Hx|x l evs rest finished Hx Hrest IH].
  - done.
  - apply (Hbody x false); [left|done].
  - apply Happ; [apply (Hbody x true); [left|done]|].
    apply IH. intros y fin e Hy. apply Hbody. by right.
Qed.

(** What a loop leaves of a kind [f] of events, when each completed round
    [x] leaves [g x] and a round cut short leaves the beginning of it. *)
Lemma loop_events_prefix {A B : Type} (body : A → bool → trace → Prop)
    (f : trace → list B) (g : A → list B) (l : list A) (finished : bool) (evs : trace) :
  (∀ a b, f (a ++ b) = f a ++ f b) → f [] = [] →
  (∀ x fin e, x ∈ l → body x fin e → f e `prefix_of` g x ∧ (fin = true → f e = g x)) →
  loop_events body l finished evs →
  f evs `prefix_of` (l ≫= g) ∧ (finished = true → f evs = l ≫= g).
Proof.
  intros Happ Hnil Hbody Hloop.
  induction Hloop as [|x l evs Hx|x l evs rest finished Hx Hrest IH].
  - by rewrite Hnil.
  - destruct (Hbody x false evs ltac:(left) Hx) as [Hpre _]. split; [|done].
    simpl. by apply prefix_app_r.
  - destruct (Hbody x true evs ltac:(left) Hx) as [_ Heq]. rewrite Happ, Heq by done.
    destruct IH as [IH1 IH2]; [intros y fin e Hy; apply Hbody; by right|].
    simpl. split; [by apply prefix_app|]. intros Hfin. by rewrite IH2.
Qed.

(** A count that is additive and bounded in every round. *)
Lemma loop_events_count {A : Type} (body : A → bool → trace → Prop) (n : trace → Z)
    (bound : Z) (l : list A) (finished : bool) (evs : trace) :
  (∀ a b, n (a ++ b) = n a + n b) → n [] = 0 → 0 ≤ bound →
  (∀ x fin e, x ∈ l → body x fin e → 0 ≤ n e ≤ bound) →
  loop_events body l finished evs →
  0 ≤ n evs ≤ Z.of_nat (length l) * bound.
Proof.
  intros Happ Hnil Hbound Hbody Hloop.
  induction Hloop as [|x l evs Hx|x l evs rest finished Hx Hrest IH].
  - rewrite Hnil. simpl. lia.
  - pose proof (Hbody x false evs ltac:(left) Hx). simpl length. nia.
  - pose proof (Hbody x true evs ltac:(left) Hx). rewrite Happ. simpl length.
    specialize (IH ltac:(intros y fin e Hy; apply Hbody; by right)). nia.
Qed.

Section SearchFacts.

Context (cutoff_iso region_code : string) (max_pages : Z).
Context (channel_ids queries : list string).

Abbreviation well_formed :=
  (well_formed_search cutoff_iso region_code channel_ids queries).

Lemma well_formed_search_nil : well_formed [].
Proof. split_and!; first [done | by constructor]. Qed.

Lemma well_formed_search_app (a b : trace) :
  well_formed a → well_formed b → well_formed (a ++ b).
Proof.
  intros (A1 & A2 & A3 & A4) (B1 & B2 & B3 & B4). split_and!.
  - rewrite count_metadata_requests_app, count_search_requests_app. lia.
  - intros p. by apply metadata_follows_search_app.
  - by apply Forall_app.
  - intros prev. rewrite search_exchanges_app. by apply tokens_follow_app.
Qed.

Lemma query_events_facts (channel_id q : string) (finished : bool) (evs : trace) :
  channel_id ∈ channel_ids → q ∈ queries →
  query_events cutoff_iso region_code max_pages channel_id q finished evs →
  first_page_requests evs = [(channel_id, q)]
  ∧ 0 ≤ count_search_requests evs ≤ Z.max 1 max_pages
  ∧ well_formed evs.
Proof.
  intros Hc Hq (evs' & -> & Hpages).
  destruct (page_events_facts cutoff_iso region_code max_pages channel_ids queries
              channel_id q 0 None finished evs' Hc Hq Hpages)
    as (H1 & H2 & H3 & H4 & H5 & H6).
  rewrite Z.sub_0_r in H2.
  split; [done|]. split; [simpl; lia|]. split_and!.
  - simpl. lia.
  - intros p. by split.
  - by constructor.
  - intros prev. apply H6. by left.
Qed.

Lemma channel_events_facts (channel_id : string) (finished : bool) (evs : trace) :
  channel_id ∈ channel_ids →
  channel_events cutoff_iso region_code max_pages queries channel_id finished evs →
  (first_page_requests evs `prefix_of` (q ← queries; [(channel_id, q)])
   ∧ (finished = true → first_page_requests evs = q ← queries; [(channel_id, q)]))
  ∧ 0 ≤ count_search_requests evs ≤ Z.of_nat (length queries) * Z.max 1 max_pages
  ∧ well_formed evs.
Proof.
  intros Hc Hloop. unfold channel_events in Hloop.
  assert (∀ x fin e, x ∈ queries →
            query_events cutoff_iso region_code max_pages channel_id x fin e →
            first_page_requests e = [(channel_id, x)]
            ∧ 0 ≤ count_search_requests e ≤ Z.max 1 max_pages
            ∧ well_formed e) as Hround.
  { intros x fin e Hx. by apply query_events_facts. }
  split; [|split].
  - apply (loop_events_prefix (query_events cutoff_iso region_code max_pages channel_id)
             first_page_requests (λ q, [(channel_id, q)]) queries
             finished evs first_page_requests_app eq_refl); [|done].
    intros x fin e Hx Hq. by destruct (Hround x fin e Hx Hq) as (-> & _).
  - apply (loop_events_count (query_events cutoff_iso region_code max_pages channel_id)
             count_search_requests (Z.max 1 max_pages) queries
             finished evs count_search_requests_app eq_refl ltac:(lia)); [|done].
    intros x fin e Hx Hq. by destruct (Hround x fin e Hx Hq) as (_ & ? & _).
  - apply (loop_events_closed (query_events cutoff_iso region_code max_pages channel_id)
             well_formed queries finished evs);
      [apply well_formed_search_nil|apply well_formed_search_app| |done].
    intros x fin e Hx Hq. by destruct (Hround x fin e Hx Hq) as (_ & _ & ?).
Qed.

(** The whole search, for a configuration with queries. *)
Lemma search_events_facts (finished : bool) (new : trace) :
  search_events cutoff_iso region_code max_pages channel_ids queries finished new →
  (first_page_requests new `prefix_of` combinations channel_ids queries
   ∧ (finished = true → first_page_requests new = combinations channel_ids queries))
  ∧ 0 ≤ count_search_requests new
      ≤ Z.of_nat (length channel_ids) * (Z.of_nat (length queries) * Z.max 1 max_pages)
  ∧ well_formed new.
Proof.
  intros (evs & Hloop & ->).
  assert (Forall is_log (if finished
                         then [Log INFO "Found %d unique videos matching criteria"]
                         else [])) as Hlast.
  { destruct finished; by repeat constructor. }
  destruct (logs_are_silent cutoff_iso region_code channel_ids queries _ Hlast)
    as (L1 & L2 & L3 & L4 & L5 & L6).
  assert (∀ t, first_page_requests (Log INFO "Searching for videos with queries: %s"
                 :: Log INFO "Channel IDs: %s, Min duration: %d minutes" :: t)
               = first_page_requests t) as Hhead by done.
  rewrite Hhead, first_page_requests_app, L2, app_nil_r.
  simpl count_search_requests. rewrite count_search_requests_app, L3, Z.add_0_r.
  split; [|split].
  - apply (loop_events_prefix (channel_events cutoff_iso region_code max_pages queries)
             first_page_requests (λ c, q ← queries; [(c, q)]) channel_ids
             finished evs first_page_requests_app eq_refl); [|done].
    intros x fin e Hx Hchan.
    by destruct (channel_events_facts x fin e Hx Hchan) as (? & _).
  - apply (loop_events_count (channel_events cutoff_iso region_code max_pages queries)
             count_search_requests
             (Z.of_nat (length queries) * Z.max 1 max_pages) channel_ids
             finished evs count_search_requests_app eq_refl ltac:(lia)); [|done].
    intros x fin e Hx Hchan.
    by destruct (channel_events_facts x fin e Hx Hchan) as (_ & ? & _).
  - apply (well_formed_search_app [_; _]).
    { split_and!; first [done | by repeat constructor]. }
    apply well_formed_search_app.
    + apply (loop_events_closed (channel_events cutoff_iso region_code max_pages queries)
               well_formed channel_ids finished evs);
        [apply well_formed_search_nil|apply well_formed_search_app| |done].
      intros x fin e Hx Hchan.
      by destruct (channel_events_facts x fin e Hx Hchan) as (_ & _ & ?).
    + split_and!; [lia|done|done|]. intros prev. by rewrite L1.
Qed.

End SearchFacts.

Lemma combinations_no_queries (channel_ids : list string) : combinations channel_ids [] = [].
Proof. unfold combinations. by induction channel_ids. Qed.

(** Every search, with or without queries. *)
Lemma search_videos_facts (parse_duration : string → option Q) (yt : youtube)
    (cfg : channel_cfg) (cutoff_iso region_code : string) (max_pages : Z) (tr : trace) :
  ∃ r new,
    builder_lambda._search_videos parse_duration yt cfg cutoff_iso region_code max_pages tr
      = (r, tr ++ new)
    ∧ (first_page_requests new
         `prefix_of` combinations (default [] (cfg_channel_ids cfg))
                       (builder_lambda.build_queries cfg)
       ∧ (is_ok r = true →
          first_page_requests new
          = combinations (default [] (cfg_channel_ids cfg))
              (builder_lambda.build_queries cfg)))
    ∧ 0 ≤ count_search_requests new
        ≤ Z.of_nat (length (default [] (cfg_channel_ids cfg)))
          * (Z.of_nat (length (builder_lambda.build_queries cfg)) * Z.max 1 max_pages)
    ∧ well_formed_search cutoff_iso region_code (default [] (cfg_channel_ids cfg))
        (builder_lambda.build_queries cfg) new.
Proof.
  destruct (decide (builder_lambda.build_queries cfg = [])) as [Hq|Hq].
  - rewrite (search_videos_no_queries _ _ _ _ _ _ _ Hq), Hq, combinations_no_queries.
    eexists _, _. split; [done|]. split; [done|]. split; [simpl; lia|].
    split_and!; first [done | by repeat constructor].
  - destruct (search_videos_shape parse_duration yt cfg cutoff_iso region_code max_pages tr Hq)
      as (r & new & Hrun & Hshape & _).
    exists r, new. split; [done|]. by apply search_events_facts.
Qed.

(** * More on the search *)

(** X1. Whatever the platform answers, every search request that
    [_search_videos] sends stays within what it was asked for: it carries
    the given cutoff as [publishedAfter] and the given region code, and
    asks one of the configured channels for one of the queries built from
    the configuration. *)
Theorem search_requests_stay_in_scope (parse_duration : string → option Q) (yt : youtube)
    (cfg : channel_cfg) (cutoff_iso region_code : string) (max_pages : Z) (tr : trace) :
  ∃ r new,
    builder_lambda._search_videos parse_duration yt cfg cutoff_iso region_code max_pages tr
      = (r, tr ++ new)
    ∧ Forall (scoped_request cutoff_iso region_code (default [] (cfg_channel_ids cfg))
                (builder_lambda.build_queries cfg)) new.
Proof.
  destruct (search_videos_facts parse_duration yt cfg cutoff_iso region_code max_pages tr)
    as (r & new & Hrun & _ & _ & _ & _ & Hscoped & _).
  by exists r, new.
Qed.

(** X2. Failed requests do not make the search skip a channel or a query:
    when [_search_videos] returns, it has started every combination of a
    configured channel and a query exactly once, with a request without
    page token, in the order of the two loops; when it raises, the
    combinations started are a beginning of that sequence. *)
Theorem search_starts_every_channel_and_query_in_order
    (parse_duration : string → option Q) (yt : youtube)
    (cfg : channel_cfg) (cutoff_iso region_code : string) (max_pages : Z) (tr : trace) :
  ∃ r new,
    builder_lambda._search_videos parse_duration yt cfg cutoff_iso region_code max_pages tr
      = (r, tr ++ new)
    ∧ first_page_requests new
        `prefix_of` combinations (default [] (cfg_channel_ids cfg))
                      (builder_lambda.build_queries cfg)
    ∧ (is_ok r = true →
       first_page_requests new
       = combinations (default [] (cfg_channel_ids cfg)) (builder_lambda.build_queries cfg)).
Proof.
  destruct (search_videos_facts parse_duration yt cfg cutoff_iso region_code max_pages tr)
    as (r & new & Hrun & [Hprefix Hall] & _).
  by exists r, new.
Qed.

(** X3. The quota a search can use is bounded by the configuration: it
    sends at most [channels * queries * max(1, max_pages)] search requests,
    and never more metadata requests than search requests. *)
Theorem search_request_budget (parse_duration : string → option Q) (yt : youtube)
    (cfg : channel_cfg) (cutoff_iso region_code : string) (max_pages : Z) (tr : trace) :
  ∃ r new,
    builder_lambda._search_videos parse_duration yt cfg cutoff_iso region_code max_pages tr
      = (r, tr ++ new)
    ∧ count_search_requests new
      ≤ Z.of_nat (length (default [] (cfg_channel_ids cfg)))
        * Z.of_nat (length (builder_lambda.build_queries cfg)) * Z.max 1 max_pages
    ∧ count_metadata_requests new ≤ count_search_requests new.
Proof.
  destruct (search_videos_facts parse_duration yt cfg cutoff_iso region_code max_pages tr)
    as (r & new & Hrun & _ & Hcount & Hmeta & _).
  exists r, new. split; [done|]. split; [lia|done].
Qed.

(** X4. A metadata request is only ever sent right after a search page
    was received, when that page has candidates, and it asks for exactly
    the candidates of that page, joined by commas: identifiers are never
    carried over from one page to another. *)
Theorem metadata_requests_follow_search_answers
    (parse_duration : string → option Q) (yt : youtube)
    (cfg : channel_cfg) (cutoff_iso region_code : string) (max_pages : Z) (tr : trace) :
  ∃ r new,
    builder_lambda._search_videos parse_duration yt cfg cutoff_iso region_code max_pages tr
      = (r, tr ++ new)
    ∧ metadata_follows_search None new.
Proof.
  destruct (search_videos_facts parse_duration yt cfg cutoff_iso region_code max_pages tr)
    as (r & new & Hrun & _ & _ & _ & Hmeta & _).
  by exists r, new.
Qed.

(** X5. Page tokens are used where they were issued: a search request
    carries a page token only if the request just before it was answered
    with that token, for the same channel and the same query; every other
    request starts without token. *)
Theorem page_tokens_are_used_where_issued
    (parse_duration : string → option Q) (yt : youtube)
    (cfg : channel_cfg) (cutoff_iso region_code : string) (max_pages : Z) (tr : trace) :
  ∃ r new,
    builder_lambda._search_videos parse_duration yt cfg cutoff_iso region_code max_pages tr
      = (r, tr ++ new)
    ∧ tokens_follow None (search_exchanges new).
Proof.
  destruct (search_videos_facts parse_duration yt cfg cutoff_iso region_code max_pages tr)
    as (r & new & Hrun & _ & _ & _ & _ & _ & Htokens).
  by exists r, new.
Qed.

(** X6. The search only reads: whatever the platform does, its events are
    search requests, metadata requests and log lines, so it never creates
    a playlist and never inserts an item.  No failure of a request leaves
    it: it returns, unless the platform hands back a duration that does
    not parse, and then the parsing error is what it raises. *)
Theorem search_only_reads_and_fails_only_on_durations
    (parse_duration : string → option Q) (yt : youtube)
    (cfg : channel_cfg) (cutoff_iso region_code : string) (max_pages : Z) (tr : trace) :
  ∃ r new,
    builder_lambda._search_videos parse_duration yt cfg cutoff_iso region_code max_pages tr
      = (r, tr ++ new)
    ∧ Forall search_event new
    ∧ insert_attempts new = []
    ∧ (is_ok r = true
       ∨ r = Raise ISO8601Error
         ∧ ∃ v, v ∈ details_of new ∧ parse_duration (v_duration v) = None).
Proof.
  destruct (search_videos_run parse_duration yt cfg cutoff_iso region_code max_pages tr)
    as (r & new & Hrun & Hev & Hr).
  exists r, new. split; [done|]. split; [done|].
  split; [by apply search_event_not_insert|].
  destruct r as [ids|e|]; [by left| |done].
  destruct Hr as [-> Hv]. by right.
Qed.

(** * Which events a computation can leave *)

Section Emits.

Context (P : event → Prop).

Lemma emits_ret {A : Type} (a : A) : emits P (mret a : M A).
Proof. intros tr. exists (Ok a), []. by rewrite app_nil_r. Qed.

Lemma emits_raise {A : Type} (e : exn) : emits P (raise e : M A).
Proof. intros tr. exists (Raise e), []. by rewrite app_nil_r. Qed.

Lemma emits_emit (e : event) : P e → emits P (emit e).
Proof. intros He tr. exists (Ok tt), [e]. split; [done|]. split; [by constructor|done]. Qed.

Lemma emits_log (lvl : level) (msg : string) : P (Log lvl msg) → emits P (log lvl msg).
Proof. apply emits_emit. Qed.

Lemma emits_bind {A B : Type} (m : M A) (k : A → M B) :
  emits P m → (∀ a, emits P (k a)) → emits P (m ≫= k).
Proof.
  intros Hm Hk tr. destruct (Hm tr) as (r & new & Hrun & Hnew & Hr).
  unfold mbind, M_bind, bind. rewrite Hrun. destruct r as [a|e|]; [| |done].
  - destruct (Hk a (tr ++ new)) as (r2 & new2 & Hrun2 & Hnew2 & Hr2).
    exists r2, (new ++ new2). rewrite app_assoc. split; [done|].
    split; [by apply Forall_app|done].
  - by exists (Raise e), new.
Qed.

Lemma emits_try_except {A : Type} (m : M A) (h : exn → M A) :
  emits P m → (∀ e, emits P (h e)) → emits P (try_except m h).
Proof.
  intros Hm Hh tr. destruct (Hm tr) as (r & new & Hrun & Hnew & Hr).
  unfold try_except. rewrite Hrun. destruct r as [a|e|]; [| |done].
  - by exists (Ok a), new.
  - destruct (Hh e (tr ++ new)) as (r2 & new2 & Hrun2 & Hnew2 & Hr2).
    exists r2, (new ++ new2). rewrite app_assoc. split; [done|].
    split; [by apply Forall_app|done].
Qed.

Lemma emits_except_HttpError {A : Type} (m h : M A) :
  emits P m → emits P h → emits P (except_HttpError m h).
Proof.
  intros Hm Hh. apply emits_try_except; [done|].
  intros e. destruct e; first [exact Hh | apply emits_raise].
Qed.

(** The collaborators: one event each, the request with its answer. *)

Lemma emits_search_list (yt : youtube) (rq : search_request) :
  (∀ a, P (SearchList rq a)) → emits P (search_list yt rq).
Proof.
  intros HP tr. unfold search_list. eexists _, [_]. split; [done|].
  split; [by constructor|]. by destruct (search_list_execute yt tr rq).
Qed.

Lemma emits_videos_list (yt : youtube) (ids : string) :
  (∀ a, P (VideosList ids a)) → emits P (videos_list yt ids).
Proof.
  intros HP tr. unfold videos_list. eexists _, [_]. split; [done|].
  split; [by constructor|]. by destruct (videos_list_execute yt tr ids).
Qed.

Lemma emits_playlistItems_insert (yt : youtube) (playlist_id video_id : string) :
  (∀ ok, P (PlaylistItemsInsert playlist_id video_id ok)) →
  emits P (playlistItems_insert yt playlist_id video_id).
Proof.
  intros HP tr. unfold playlistItems_insert. eexists _, [_]. split; [done|].
  split; [by constructor|].
  by destruct (playlistItems_insert_execute yt tr playlist_id video_id).
Qed.

Lemma emits_playlists_insert (yt : youtube) (body : playlist_body) :
  (∀ a, P (PlaylistsInsert body a)) → emits P (playlists_insert yt body).
Proof.
  intros HP tr. unfold playlists_insert. eexists _, [_]. split; [done|].
  split; [by constructor|]. by destruct (playlists_insert_execute yt tr body).
Qed.

Lemma emits_channels_list (yt : youtube) :
  (∀ a, P (ChannelsList a)) → emits P (channels_list yt).
Proof.
  intros HP tr. unfold channels_list. eexists _, [_]. split; [done|].
  split; [by constructor|]. by destruct (channels_list_execute yt tr).
Qed.

Lemma emits_youtube_client_from_secret (w : world) :
  (∀ ok, P (GetSecretValue ok)) → emits P (youtube_client_from_secret w).
Proof.
  intros HP tr. unfold youtube_client_from_secret. eexists _, [_]. split; [done|].
  split; [by constructor|]. by destruct (w_get_secret_value w tr).
Qed.

Lemma emits_builder_load_channels_config (w : world) :
  (∀ ok, P (LoadChannelsConfig ok)) → (∀ lvl msg, P (Log lvl msg)) →
  emits P (builder_lambda._load_channels_config w).
Proof.
  intros HP Hlog tr. unfold builder_lambda._load_channels_config.
  destruct (w_channels_config w tr).
  - eexists _, [_]. split; [done|]. split; [by constructor|done].
  - eexists _, [_; _]. split; [done|]. split; [by repeat constructor|done].
Qed.

Lemma emits_main_load_channels_config (w : world) :
  (∀ ok, P (LoadChannelsConfig ok)) → (∀ lvl msg, P (Log lvl msg)) →
  emits P (main._load_channels_config w).
Proof.
  intros HP Hlog tr. unfold main._load_channels_config.
  destruct (w_channels_config w tr).
  - eexists _, [_]. split; [done|]. split; [by constructor|done].
  - eexists _, [_; _]. split; [done|]. split; [by repeat constructor|done].
Qed.

Lemma emits_write_report_line (w : world) :
  (∀ ok, P (WriteReport ok)) → emits P (main._write_report_line w).
Proof.
  intros HP. unfold main._write_report_line.
  destruct (REPORTS_BUCKET (w_environ w)) as [bucket|]; [|apply emits_ret].
  destruct (str_truthy bucket); [|apply emits_ret].
  intros tr. eexists _, [_]. split; [done|].
  split; [by constructor|]. by destruct (w_put_object w tr).
Qed.

End Emits.

Lemma emits_weaken {A : Type} (P Q : event → Prop) (m : M A) :
  (∀ e, P e → Q e) → emits P m → emits Q m.
Proof.
  intros HPQ Hm tr. destruct (Hm tr) as (r & new & Hrun & Hnew & Hr).
  exists r, new. split; [done|]. split; [|done]. by apply (Forall_impl _ _ _ Hnew).
Qed.

(** One step of a proof that a computation only leaves [P]-events. *)
Ltac emits_step :=
  lazymatch goal with
  | |- emits _ (mret _) => apply emits_ret
  | |- emits _ (raise _) => apply emits_raise
  | |- emits _ (log _ _) => apply emits_log; exact I
  | |- emits _ (search_list _ _) => apply emits_search_list; intros; exact I
  | |- emits _ (videos_list _ _) => apply emits_videos_list; intros; exact I
  | |- emits _ (playlistItems_insert _ _ _) =>
      apply emits_playlistItems_insert; intros; exact I
  | |- emits _ (playlists_insert _ _) => apply emits_playlists_insert; intros; exact I
  | |- emits _ (channels_list _) => apply emits_channels_list; intros; exact I
  | |- emits _ (youtube_client_from_secret _) =>
      apply emits_youtube_client_from_secret; intros; exact I
  | |- emits _ (builder_lambda._load_channels_config _) =>
      apply emits_builder_load_channels_config; intros; exact I
  | |- emits _ (main._load_channels_config _) =>
      apply emits_main_load_channels_config; intros; exact I
  | |- emits _ (main._write_report_line _) =>
      apply emits_write_report_line; intros; exact I
  | |- emits _ (_ ≫= _) => apply emits_bind; [|intros ?]
  | |- emits _ (try_except _ _) => apply emits_try_except; [|intros ?]
  | |- emits _ (except_HttpError _ _) => apply emits_except_HttpError
  | |- emits _ (match ?x with _ => _ end) => destruct x
  end.

(** *** The pure steps of the handlers *)

Lemma emits_cutoff_from_date (P : event → Prop) (clk : clock) (input_date : date) :
  emits P (cutoff_from_date clk input_date).
Proof. unfold cutoff_from_date. cbv zeta. repeat emits_step. Qed.

Lemma emits_region_code_of (P : event → Prop) (env : environ) (task : gmap string pyval) :
  emits P (region_code_of env task).
Proof. unfold region_code_of. cbv zeta. repeat emits_step. Qed.

Lemma emits_lookup_cfg (P : event → Prop) (channel_map : gmap string channel_cfg)
    (competition_id : pyval) :
  emits P (lookup_cfg channel_map competition_id).
Proof. unfold lookup_cfg. repeat emits_step. Qed.

(** The cutoff resolvers only log. *)
Lemma emits_builder_cutoff (isodate_parse_date : string → date + exn) (clk : clock)
    (earliest_date : pyval) :
  emits is_log (builder_lambda._compute_cutoff_iso isodate_parse_date clk earliest_date).
Proof.
  unfold builder_lambda._compute_cutoff_iso.
  repeat first [apply emits_cutoff_from_date | emits_step].
Qed.

Lemma emits_main_cutoff (clk : clock) (earliest_date : pyval) :
  emits is_log (main._compute_cutoff_iso clk earliest_date).
Proof.
  unfold main._compute_cutoff_iso.
  repeat first [apply emits_cutoff_from_date | emits_step].
Qed.

(** Populating a playlist only inserts and logs. *)
Lemma emits_add_loop (yt : youtube) (playlist_id : string) (video_ids : list string) :
  ∀ videos_added, emits insert_event (builder_lambda.add_loop yt playlist_id video_ids
                                         videos_added).
Proof.
  induction video_ids as [|v video_ids IH]; intros n; simpl.
  - apply emits_ret.
  - repeat first [apply IH | emits_step].
Qed.

Lemma emits_add_videos_to_playlist (yt : youtube) (playlist_id : string)
    (video_ids : list string) :
  emits insert_event (builder_lambda._add_videos_to_playlist yt playlist_id video_ids).
Proof.
  unfold builder_lambda._add_videos_to_playlist.
  repeat first [apply emits_add_loop | emits_step].
Qed.

Lemma emits_search_videos (parse_duration : string → option Q) (yt : youtube)
    (cfg : channel_cfg) (cutoff_iso region_code : string) (max_pages : Z) :
  emits search_event
    (builder_lambda._search_videos parse_duration yt cfg cutoff_iso region_code max_pages).
Proof.
  intros tr.
  destruct (search_videos_run parse_duration yt cfg cutoff_iso region_code max_pages tr)
    as (r & new & Hrun & Hev & Hr).
  exists r, new. split; [done|]. split; [done|]. by destruct r.
Qed.

(** * The [builder_lambda.py] handler, stage by stage *)


Lemma calls_app (a b : trace) : calls (a ++ b) = calls a ++ calls b.
Proof. apply List.filter_app. Qed.

(** Log lines are no calls. *)
Lemma logs_are_no_calls (logs : trace) :
  Forall is_log logs →
  calls logs = [] ∧ details_of logs = [] ∧ count_inserted logs = 0
  ∧ insert_attempts logs = [] ∧ playlist_creations logs = [].
Proof.
  induction 1 as [|e logs He _ (IH1 & IH2 & IH3 & IH4 & IH5)]; [done|].
  by destruct e.
Qed.





Lemma str_truthy_ne (s : string) : s ≠ "" → str_truthy s = true.
Proof. intros Hne. unfold str_truthy. by rewrite negb_true_iff, String.eqb_neq. Qed.

(** The first lines of the handler, up to the client: log lines only. *)
Ltac builder_prelude Hregion Htest Hc Hdate Hcutoff Hsecret :=
  unfold builder_lambda.handler; rewrite Hregion, Htest;
  lazymatch goal with
  | |- context [match ?source with SQS => _ | Direct => _ end] => destruct source
  end;
  do 6 (erewrite bind_run by reflexivity; cbv beta);
  rewrite Hc, Hdate; change (negb true) with false; cbv beta iota;
  lazymatch goal with
  | |- context [@mbind _ _ _ _ ?k (builder_lambda._compute_cutoff_iso ?i ?c ?e) ?t] =>
      let r := fresh "r" in
      let new1 := fresh "new1" in
      let Hrun1 := fresh "Hrun1" in
      let Hlog1 := fresh "Hlog1" in
      let Hr := fresh "Hr" in
      destruct (builder_cutoff_run i c e t) as (r & new1 & Hrun1 & Hlog1 & _);
      pose proof (Hcutoff t) as Hr; rewrite Hrun1 in Hr; simpl in Hr; subst r;
      rewrite (bind_run _ k _ _ _ Hrun1); cbv beta
  end;
  (erewrite (bind_run (youtube_client_from_secret _));
   [|unfold youtube_client_from_secret; rewrite Hsecret; reflexivity]);
  cbv beta iota.



(** * The [builder_lambda.py] handler *)





(** X9. Test mode only probes.  With both required fields present, a
    cutoff that resolves and the credentials at hand, a task in test mode
    makes the handler fetch the credentials and ask the platform for the
    caller's own channel, and nothing else: no configuration is loaded, no
    playlist is created, nothing is searched, and the competition need
    not even be known.  It returns the channel title, or
    [Unknown Channel] when the answer has none; a failed probe is logged
    and raised again. *)
Theorem handler_test_mode_only_probes
    (parse_duration : string → option Q) (isodate_parse_date : string → date + exn)
    (w : world) (source : invocation) (task : gmap string pyval) (tr : trace)
    (region_code cutoff_iso : string) :
  truthy (task_get task "competition_id") = true →
  truthy (task_get task "earliest_date") = true →
  builder_lambda.test_mode_of task = true →
  region_code_of (w_environ w) task = mret region_code →
  (∀ t, fst (builder_lambda._compute_cutoff_iso isodate_parse_date (w_clock w)
               (task_get task "earliest_date") t) = Ok cutoff_iso) →
  (∀ t, w_get_secret_value w t = true) →
  ∃ answer new,
    builder_lambda.handler parse_duration isodate_parse_date w source task tr
    = (match answer with
       | Some probe =>
           Ok {| s_ok := true; s_playlist_id := None; s_videos_added := None;
                 s_message := Some "YouTube API reachable";
                 s_channel := Some (default "Unknown Channel" probe) |}
       | None => Raise HttpError
       end, tr ++ new)
    ∧ calls new = [GetSecretValue true; ChannelsList answer]
    ∧ (answer = None → Log ERROR "YouTube API probe failed" ∈ new).
Proof.
  intros Hc Hdate Htest Hregion Hcutoff Hsecret.
  builder_prelude Hregion Htest Hc Hdate Hcutoff Hsecret.
  all: destruct (logs_are_no_calls new1 Hlog1) as (Hcalls & _).
  all: unfold try_except, channels_list; munfold.
  all: lazymatch goal with
       | |- context [channels_list_execute ?yt ?t] =>
           exists (channels_list_execute yt t); destruct (channels_list_execute yt t)
       end.
  all: rewrite <- !app_assoc; eexists; split; [reflexivity|].
  all: split; [rewrite !calls_app, Hcalls; reflexivity|]; intros Hfailed; try discriminate.
  all: rewrite !elem_of_app, !list_elem_of_singleton; tauto.
Qed.

Lemma handler_test_mode_only_probes_witness :
  ∃ answer new,
    builder_lambda.handler demo_parse_duration demo_parse_date (demo_world demo_yt) SQS
      (<["test_mode" := VStr " Yes "]> (<["competition_id" := VStr "no such"]> demo_task)) []
    = (match answer with
       | Some probe =>
           Ok {| s_ok := true; s_playlist_id := None; s_videos_added := None;
                 s_message := Some "YouTube API reachable";
                 s_channel := Some (default "Unknown Channel" probe) |}
       | None => Raise HttpError
       end, [] ++ new)
    ∧ calls new = [GetSecretValue true; ChannelsList answer]
    ∧ (answer = None → Log ERROR "YouTube API probe failed" ∈ new).
Proof.
  apply (handler_test_mode_only_probes demo_parse_duration demo_parse_date
           (demo_world demo_yt) SQS
           (<["test_mode" := VStr " Yes "]> (<["competition_id" := VStr "no such"]> demo_task))
           [] "SG" demo_cutoff).
  - reflexivity.
  - reflexivity.
  - reflexivity.
  - reflexivity.
  - intros t. reflexivity.
  - intros t. reflexivity.
Defined.





(** X12. The [builder_lambda.py] handler checks the task before it
    touches anything: when [competition_id] or [earliest_date] is missing
    or empty (and [region], if given, is a string), it raises the
    [ValueError] that names the first missing field, [competition_id]
    before [earliest_date], and it has only written log lines: the clock
    is not read, no credentials are fetched, nothing is asked of the
    platform. *)
Theorem builder_handler_names_first_missing_field
    (parse_duration : string → option Q) (isodate_parse_date : string → date + exn)
    (w : world) (source : invocation) (task : gmap string pyval) (tr : trace)
    (region_code : string) :
  region_code_of (w_environ w) task = mret region_code →
  truthy (task_get task "competition_id") = false
  ∨ truthy (task_get task "earliest_date") = false →
  ∃ new,
    builder_lambda.handler parse_duration isodate_parse_date w source task tr
      = (Raise (ValueError (if truthy (task_get task "competition_id")
                            then "Missing 'earliest_date' in event"
                            else "Missing 'competition_id' in event")),
         tr ++ new)
    ∧ Forall is_log new ∧ calls new = [].
Proof.
  intros Hregion Hmissing.
  destruct (builder_handler_validates_first parse_duration isodate_parse_date w source
              task tr region_code Hregion Hmissing) as (msg & new & Hrun & Hlogs & Hmsg).
  exists new. destruct (logs_are_no_calls new Hlogs) as (Hcalls & _).
  split; [|done]. rewrite Hrun. do 2 f_equal.
  unfold builder_lambda.handler in Hrun. rewrite Hregion in Hrun.
  destruct (truthy (task_get task "competition_id")) eqn:Hc.
  - destruct Hmissing as [?|Hd]; [done|].
    destruct source; munfold; simpl in Hrun; rewrite Hd in Hrun; simpl in Hrun;
      by injection Hrun as ->.
  - destruct source; munfold; simpl in Hrun; by injection Hrun as ->.
Qed.

Lemma builder_handler_names_first_missing_field_witness :
  ∃ new,
    builder_lambda.handler demo_parse_duration demo_parse_date (demo_world demo_yt) SQS
      task_without_date []
      = (Raise (ValueError (if truthy (task_get task_without_date "competition_id")
                            then "Missing 'earliest_date' in event"
                            else "Missing 'competition_id' in event")),
         [] ++ new)
    ∧ Forall is_log new ∧ calls new = [].
Proof.
  apply (builder_handler_names_first_missing_field demo_parse_duration demo_parse_date
           (demo_world demo_yt) SQS task_without_date [] "SG").
  - reflexivity.
  - right. reflexivity.
Defined.

(** * Credentials first *)

Lemma credentials_first_raise {A : Type} (e : exn) :
  runs_credentials_first (raise e : M A).
Proof. intros tr. exists (Raise e), []. rewrite app_nil_r. split; [done|]. by split; [left|]. Qed.

Lemma credentials_first_after_logs {A B : Type} (m : M A) (k : A → M B) :
  emits is_log m → (∀ a, runs_credentials_first (k a)) → runs_credentials_first (m ≫= k).
Proof.
  intros Hm Hk tr. destruct (Hm tr) as (r & new & Hrun & Hlogs & Hr).
  destruct (logs_are_no_calls new Hlogs) as (Hcalls & _).
  unfold mbind, M_bind, bind. rewrite Hrun. destruct r as [a|e|]; [| |done].
  - destruct (Hk a (tr ++ new)) as (r2 & new2 & Hrun2 & Hfirst & Hr2).
    exists r2, (new ++ new2). rewrite app_assoc. split; [done|]. split; [|done].
    unfold credentials_first in *. by rewrite calls_app, Hcalls.
  - exists (Raise e), new. split; [done|]. split; [|done]. by left.
Qed.

Lemma credentials_first_client {A : Type} (w : world) (k : youtube → M A) :
  (∀ yt, emits any_event (k yt)) →
  runs_credentials_first (youtube_client_from_secret w ≫= k).
Proof.
  intros Hk tr. unfold mbind, M_bind, bind, youtube_client_from_secret.
  destruct (w_get_secret_value w tr).
  - destruct (Hk (w_yt w) (tr ++ [GetSecretValue true])) as (r & new & Hrun & _ & Hr).
    exists r, (GetSecretValue true :: new). rewrite Hrun, <- app_assoc.
    split; [done|]. split; [|done]. right. right. by eexists.
  - exists (Raise ClientError), [GetSecretValue false].
    split; [done|]. split; [|done]. right. by left.
Qed.

Ltac credentials_first_step :=
  lazymatch goal with
  | |- runs_credentials_first (raise _) => apply credentials_first_raise
  | |- runs_credentials_first (youtube_client_from_secret _ ≫= _) =>
      apply credentials_first_client; intros ?
  | |- runs_credentials_first (_ ≫= _) => apply credentials_first_after_logs; [|intros ?]
  | |- runs_credentials_first (match ?x with _ => _ end) => destruct x
  end.

Lemma search_event_any (e : event) : search_event e → any_event e.
Proof. done. Qed.

Lemma insert_event_any (e : event) : insert_event e → any_event e.
Proof. done. Qed.

Lemma is_log_any (e : event) : is_log e → any_event e.
Proof. done. Qed.

(** X13. Neither handler asks anything of anyone before it has fetched
    the credentials, and neither goes on when that fetch fails: on every
    path, for every task and whatever the collaborators answer, the
    external calls of a run are none at all (the task was refused, or its
    date could not be resolved), or the one failed fetch, or begin with
    the successful fetch. *)
Theorem handlers_fetch_credentials_first
    (parse_duration : string → option Q) (isodate_parse_date : string → date + exn)
    (w : world) (source : invocation) (task : gmap string pyval) (tr : trace) :
  (∃ r new,
     builder_lambda.handler parse_duration isodate_parse_date w source task tr
       = (r, tr ++ new)
     ∧ credentials_first new)
  ∧ (∃ r new, main.handler w task tr = (r, tr ++ new) ∧ credentials_first new).
Proof.
  split.
  - assert (runs_credentials_first
              (builder_lambda.handler parse_duration isodate_parse_date w source task))
      as Hrun.
    { unfold builder_lambda.handler, builder_lambda._create_playlist. cbv zeta.
      repeat first
        [ apply emits_region_code_of
        | apply emits_builder_cutoff
        | apply emits_lookup_cfg
        | apply (emits_weaken search_event any_event _ search_event_any),
            emits_search_videos
        | apply (emits_weaken insert_event any_event _ insert_event_any),
            emits_add_videos_to_playlist
        | credentials_first_step
        | emits_step ]. }
    destruct (Hrun tr) as (r & new & Heq & Hfirst & _). by exists r, new.
  - assert (runs_credentials_first (main.handler w task)) as Hrun.
    { unfold main.handler, main._create_or_get_playlist, main.subscript, main.get_default.
      cbv zeta.
      repeat first
        [ apply emits_region_code_of
        | apply emits_main_cutoff
        | apply emits_lookup_cfg
        | credentials_first_step
        | emits_step ]. }
    destruct (Hrun tr) as (r & new & Heq & Hfirst & _). by exists r, new.
Qed.

(** * The [main.py] handler *)

Lemma main_cutoff_run (clk : clock) (earliest_date : pyval) (t : trace) :
  ∃ r new, main._compute_cutoff_iso clk earliest_date t = (r, t ++ new)
    ∧ Forall is_log new ∧ r ≠ Timeout.
Proof. apply emits_main_cutoff. Qed.

(** The first lines of the [main.py] handler, up to the configuration. *)
Ltac main_prelude Hregion Htest Hc Hdate Hcutoff Hsecret Hconfig :=
  unfold main.handler; rewrite Hregion, Htest;
  erewrite bind_run by reflexivity; cbv beta;
  lazymatch goal with
  | |- context [@mbind _ _ _ _ ?k (main._compute_cutoff_iso ?c ?e) ?t] =>
      let r := fresh "r" in
      let new1 := fresh "new1" in
      let Hrun1 := fresh "Hrun1" in
      let Hlog1 := fresh "Hlog1" in
      let Hr := fresh "Hr" in
      destruct (main_cutoff_run c e t) as (r & new1 & Hrun1 & Hlog1 & _);
      pose proof (Hcutoff t) as Hr; rewrite Hrun1 in Hr; simpl in Hr; subst r;
      rewrite (bind_run _ k _ _ _ Hrun1); cbv beta
  end;
  rewrite Hc, Hdate; change (negb true) with false; cbv beta iota;
  (erewrite (bind_run (youtube_client_from_secret _));
   [|unfold youtube_client_from_secret; rewrite Hsecret; reflexivity]);
  cbv beta iota;
  (erewrite (bind_run (main._load_channels_config _));
   [|unfold main._load_channels_config; rewrite Hconfig; reflexivity]);
  cbv beta.

Lemma is_log_no_discovery (e : event) : is_log e → no_discovery e.
Proof. by destruct e. Qed.

(** X14. [main.py] never looks for videos and never fills a playlist:
    on every path of its handler, for every task and whatever the
    collaborators answer, it sends no search request, no metadata request
    and no insertion, and it comes to an end.  A playlist it creates
    stays empty. *)
Theorem main_handler_never_searches_or_inserts (w : world) (task : gmap string pyval)
    (tr : trace) :
  ∃ r new,
    main.handler w task tr = (r, tr ++ new) ∧ Forall no_discovery new ∧ r ≠ Timeout.
Proof.
  revert tr. change (emits no_discovery (main.handler w task)).
  unfold main.handler, main._create_or_get_playlist, main.subscript, main.get_default.
  cbv zeta.
  repeat first
    [ apply emits_region_code_of
    | apply emits_lookup_cfg
    | apply (emits_weaken is_log no_discovery _ is_log_no_discovery), emits_main_cutoff
    | emits_step ].
Qed.


(** X15. The normal run of the [main.py] handler.  For a task that is
    not in test mode, names a known competition, carries an earliest date
    that resolves and describes its playlist under [playlist], with the
    collaborators answering: the handler fetches the credentials and the
    configuration and creates one playlist, with the title of the task,
    the description and the privacy of the task or else
    [Auto-generated playlist] and [unlisted], and the tags of the task
    unless they are missing or empty.  It returns [ok] with the
    identifier of that playlist, and no count of videos. *)
Theorem main_handler_creates_the_playlist_of_the_task
    (w : world) (task : gmap string pyval) (tr : trace)
    (competition_id region_code cutoff_iso playlist_id : string)
    (channel_map : gmap string channel_cfg) (cfg : channel_cfg)
    (kv : list (string * pyval)) (title : pyval) :
  task !! "competition_id" = Some (VStr competition_id) → competition_id ≠ "" →
  main.test_mode_of task = false →
  truthy (task_get task "earliest_date") = true →
  region_code_of (w_environ w) task = mret region_code →
  (∀ t, fst (main._compute_cutoff_iso (w_clock w) (task_get task "earliest_date") t)
        = Ok cutoff_iso) →
  collaborators_up w channel_map playlist_id →
  channel_map !! competition_id = Some cfg → cfg_truthy cfg = true →
  task !! "playlist" = Some (VDict kv) → assoc "title" kv = Some title →
  ∃ new,
    main.handler w task tr
    = (Ok {| s_ok := true; s_playlist_id := Some playlist_id; s_videos_added := None;
             s_message := None; s_channel := None |}, tr ++ new)
    ∧ calls new
      = [GetSecretValue true; LoadChannelsConfig true;
         PlaylistsInsert
           {| pb_title := title;
              pb_description := default (VStr "Auto-generated playlist")
                                  (assoc "description" kv);
              pb_privacy := default (VStr "unlisted") (assoc "privacy" kv);
              pb_tags := match assoc "tags" kv with
                         | Some tags => if truthy tags then Some tags else None
                         | None => None
                         end |}
           (Some playlist_id)].
Proof.
  intros Hcid Hne Htest Hdate Hregion Hcutoff (Hsecret & Hconfig & Hcreate) Hcfg Htruthy
    Hpl Htitle.
  assert (truthy (task_get task "competition_id") = true) as Hc.
  { unfold task_get. rewrite Hcid. by apply str_truthy_ne. }
  main_prelude Hregion Htest Hc Hdate Hcutoff Hsecret Hconfig.
  destruct (logs_are_no_calls new1 Hlog1) as (Hcalls & _).
  unfold task_get, lookup_cfg. rewrite Hcid. cbn [from_option].
  change (id (VStr competition_id)) with (VStr competition_id). cbv iota. rewrite Hcfg.
  erewrite bind_run by reflexivity. cbv beta iota. rewrite Htruthy, Hpl. cbv beta iota.
  erewrite bind_run by reflexivity. cbv beta.
  unfold main.subscript. rewrite Htitle.
  do 4 (erewrite bind_run by reflexivity; cbv beta).
  unfold main._create_or_get_playlist, playlists_insert. munfold. rewrite Hcreate.
  rewrite <- !app_assoc. eexists. split; [reflexivity|].
  rewrite !calls_app, Hcalls. cbn [app calls List.filter is_call].
  do 3 f_equal. destruct (assoc "tags" kv); reflexivity.
Qed.

Lemma main_handler_creates_the_playlist_of_the_task_witness :
  ∃ new,
    main.handler (demo_world demo_yt) main_task []
    = (Ok {| s_ok := true; s_playlist_id := Some "PL1"; s_videos_added := None;
             s_message := None; s_channel := None |}, [] ++ new)
    ∧ calls new
      = [GetSecretValue true; LoadChannelsConfig true;
         PlaylistsInsert
           {| pb_title := VStr "Weekend goals";
              pb_description := default (VStr "Auto-generated playlist")
                                  (assoc "description"
                                     [("title", VStr "Weekend goals"); ("tags", VList [])]);
              pb_privacy := default (VStr "unlisted")
                              (assoc "privacy"
                                 [("title", VStr "Weekend goals"); ("tags", VList [])]);
              pb_tags := match assoc "tags"
                                 [("title", VStr "Weekend goals"); ("tags", VList [])] with
                         | Some tags => if truthy tags then Some tags else None
                         | None => None
                         end |}
           (Some "PL1")].
Proof.
  apply (main_handler_creates_the_playlist_of_the_task (demo_world demo_yt) main_task []
           "epl" "SG" demo_cutoff "PL1" demo_channel_map demo_cfg
           [("title", VStr "Weekend goals"); ("tags", VList [])] (VStr "Weekend goals")).
  - reflexivity.
  - discriminate.
  - reflexivity.
  - reflexivity.
  - reflexivity.
  - intros t. reflexivity.
  - repeat split.
  - reflexivity.
  - reflexivity.
  - reflexivity.
  - reflexivity.
Defined.

(** X16. Test mode in [main.py], with a report bucket configured and a
    task without [taskId].  The handler fetches the credentials, probes
    the platform and writes one report line.  When that write fails
    although the probe succeeded, the failure is caught by the handler
    of the probe: it is logged as a failed probe, the report is written a
    second time, and the storage error is what the handler raises.
    Nothing else is called: no configuration, no playlist. *)
Theorem main_test_mode_reports_a_failed_report_as_a_failed_probe
    (w : world) (task : gmap string pyval) (tr : trace)
    (region_code cutoff_iso bucket : string) (probe : option string) (stored : bool) :
  truthy (task_get task "competition_id") = true →
  truthy (task_get task "earliest_date") = true →
  main.test_mode_of task = true → task !! "taskId" = None →
  region_code_of (w_environ w) task = mret region_code →
  (∀ t, fst (main._compute_cutoff_iso (w_clock w) (task_get task "earliest_date") t)
        = Ok cutoff_iso) →
  (∀ t, w_get_secret_value w t = true) →
  (∀ t, channels_list_execute (w_yt w) t = Some probe) →
  REPORTS_BUCKET (w_environ w) = Some bucket → bucket ≠ "" →
  (∀ t, w_put_object w t = stored) →
  ∃ new,
    main.handler w task tr
    = (if stored
       then Ok {| s_ok := true; s_playlist_id := None; s_videos_added := None;
                  s_message := Some "YouTube API reachable";
                  s_channel := Some (default "Unknown Channel" probe) |}
       else Raise ClientError, tr ++ new)
    ∧ calls new
      = GetSecretValue true :: ChannelsList (Some probe)
        :: (if stored then [WriteReport true] else [WriteReport false; WriteReport false])
    ∧ (stored = false → Log ERROR "YouTube API probe failed" ∈ new).
Proof.
  intros Hc Hdate Htest _ Hregion Hcutoff Hsecret Hprobe Hbucket Hne Hput.
  unfold main.handler. rewrite Hregion, Htest.
  erewrite bind_run by reflexivity. cbv beta.
  lazymatch goal with
  | |- context [@mbind _ _ _ _ ?k (main._compute_cutoff_iso ?c ?e) ?t] =>
      destruct (main_cutoff_run c e t) as (r & new1 & Hrun1 & Hlog1 & _);
      pose proof (Hcutoff t) as Hr; rewrite Hrun1 in Hr; simpl in Hr; subst r;
      rewrite (bind_run _ k _ _ _ Hrun1); cbv beta
  end.
  rewrite Hc, Hdate. change (negb true) with false. cbv beta iota.
  erewrite (bind_run (youtube_client_from_secret _));
    [|unfold youtube_client_from_secret; rewrite Hsecret; reflexivity].
  cbv beta iota.
  destruct (logs_are_no_calls new1 Hlog1) as (Hcalls & _).
  unfold try_except, channels_list, main._write_report_line. munfold.
  rewrite Hprobe, Hbucket, (str_truthy_ne _ Hne), !Hput.
  destruct stored.
  - rewrite <- !app_assoc. eexists. split; [reflexivity|].
    rewrite !calls_app, Hcalls. done.
  - rewrite Hput. rewrite <- !app_assoc. eexists. split; [reflexivity|].
    rewrite !calls_app, Hcalls. split; [done|]. intros _.
    rewrite !elem_of_app, !list_elem_of_singleton. tauto.
Qed.

Lemma main_test_mode_reports_a_failed_report_as_a_failed_probe_witness :
  ∃ new,
    main.handler world_with_broken_reports (<["test_mode" := VBool true]> demo_task) []
    = (if false
       then Ok {| s_ok := true; s_playlist_id := None; s_videos_added := None;
                  s_message := Some "YouTube API reachable";
                  s_channel := Some (default "Unknown Channel" (Some "My Channel")) |}
       else Raise ClientError, [] ++ new)
    ∧ calls new
      = GetSecretValue true :: ChannelsList (Some (Some "My Channel"))
        :: (if false then [WriteReport true] else [WriteReport false; WriteReport false])
    ∧ (false = false → Log ERROR "YouTube API probe failed" ∈ new).
Proof.
  apply (main_test_mode_reports_a_failed_report_as_a_failed_probe
           world_with_broken_reports (<["test_mode" := VBool true]> demo_task) []
           "SG" demo_cutoff "reports" (Some "My Channel") false).
  - reflexivity.
  - reflexivity.
  - reflexivity.
  - reflexivity.
  - reflexivity.
  - intros t. reflexivity.
  - intros t. reflexivity.
  - intros t. reflexivity.
  - reflexivity.
  - discriminate.
  - intros t. reflexivity.
Defined.

(** * More on the cutoff resolver *)

(** Subtracting whole days moves the date and keeps the clock time. *)
Lemma datetime_sub_days (dt : datetime) (k : Z) :
  0 ≤ hour dt < 24 → 0 ≤ minute dt < 60 → 0 ≤ second dt < 60 →
  0 ≤ microsecond dt < 1000000 →
  datetime_sub dt (timedelta k 0)
  = if (0 <? toordinal (dt_date dt) - k) && (toordinal (dt_date dt) - k <=? _MAXORDINAL)
    then Some (on_day (toordinal (dt_date dt) - k) dt)
    else None.
Proof.
  intros Hh Hm Hs Hus. unfold datetime_sub, on_day.
  set (ord := toordinal (dt_date dt)).
  set (total := timedelta ord 0
                + (hour dt * 3600 + minute dt * 60 + second dt) * 1000000
                + microsecond dt - timedelta k 0).
  set (tod := hour dt * 3600 + minute dt * 60 + second dt).
  assert (total = (ord - k) * 86400000000 + (tod * 1000000 + microsecond dt)) as Htotal.
  { unfold total, tod, timedelta. lia. }
  assert (total / 86400000000 = ord - k) as Hdays.
  { symmetry. apply (Z.div_unique _ _ _ (tod * 1000000 + microsecond dt)); [|lia].
    unfold tod. lia. }
  assert (total mod 86400000000 = tod * 1000000 + microsecond dt) as Hrest.
  { symmetry. apply (Z.mod_unique _ _ (ord - k)); [|lia]. unfold tod. lia. }
  assert (total mod 1000000 = microsecond dt) as Hmicro.
  { symmetry. apply (Z.mod_unique _ _ ((ord - k) * 86400 + tod)); lia. }
  assert ((tod * 1000000 + microsecond dt) / 1000000 = tod) as Hsec.
  { symmetry. apply (Z.div_unique _ _ _ (microsecond dt)); lia. }
  assert (tod / 3600 = hour dt) as Hhour.
  { symmetry. apply (Z.div_unique _ _ _ (minute dt * 60 + second dt)); unfold tod; lia. }
  assert (tod mod 3600 = minute dt * 60 + second dt) as Hrem.
  { symmetry. apply (Z.mod_unique _ _ (hour dt)); unfold tod; lia. }
  assert ((minute dt * 60 + second dt) / 60 = minute dt) as Hmin.
  { symmetry. apply (Z.div_unique _ _ _ (second dt)); lia. }
  assert ((minute dt * 60 + second dt) mod 60 = second dt) as Hsecond.
  { symmetry. apply (Z.mod_unique _ _ (minute dt)); lia. }
  rewrite Hdays, Hrest, Hmicro, Hsec, Hhour, Hrem, Hmin, Hsecond. reflexivity.
Qed.

Lemma valid_datetime_bounds (dt : datetime) :
  valid_datetime dt = true →
  valid_date (dt_date dt) = true
  ∧ 0 ≤ hour dt < 24 ∧ 0 ≤ minute dt < 60 ∧ 0 ≤ second dt < 60
  ∧ 0 ≤ microsecond dt < 1000000.
Proof.
  unfold valid_datetime. rewrite !andb_true_iff, !Z.leb_le, !Z.ltb_lt. tauto.
Qed.

(** The last lines of the resolver, in closed form. *)
Lemma cutoff_from_date_closed (clk : clock) (d : date) (tr : trace) :
  valid_datetime (now_utc clk) = true →
  cutoff_from_date clk d tr
  = (if (1 <=? cutoff_day clk d) && (cutoff_day clk d + 1 <=? _MAXORDINAL)
     then Ok (utc_timestamp_seconds (on_day (cutoff_day clk d) (in_utc (now_utc clk))))
     else Raise OverflowError, tr).
Proof.
  intros Hnow. destruct (valid_datetime_bounds _ Hnow) as (_ & Hh & Hm & Hs & Hus).
  unfold cutoff_from_date. cbv zeta.
  rewrite (datetime_sub_days (in_utc (now_utc clk))) by done.
  change (dt_date (in_utc (now_utc clk))) with (dt_date (now_utc clk)).
  unfold cutoff_day.
  set (n1 := toordinal (dt_date (now_utc clk)) - date_sub_days (today_local clk) d).
  destruct ((0 <? n1) && (n1 <=? _MAXORDINAL)) eqn:H1.
  - apply andb_true_iff in H1 as [Hpos%Z.ltb_lt Hmax%Z.leb_le].
    change (timedelta 0 24) with (timedelta 1 0).
    rewrite (datetime_sub_days (on_day n1 (in_utc (now_utc clk)))) by done.
    change (dt_date (on_day n1 (in_utc (now_utc clk)))) with (_ord2ymd n1).
    rewrite ord2ymd_roundtrip by lia.
    destruct ((0 <? n1 - 1) && (n1 - 1 <=? _MAXORDINAL)) eqn:H2.
    + apply andb_true_iff in H2 as [Hpos2%Z.ltb_lt Hmax2%Z.leb_le].
      assert ((1 <=? n1 - 1) && (n1 - 1 + 1 <=? _MAXORDINAL) = true) as ->.
      { apply andb_true_iff. split; [apply Z.leb_le|apply Z.leb_le]; lia. }
      munfold. by rewrite isoformat_utc_replace.
    + assert ((1 <=? n1 - 1) && (n1 - 1 + 1 <=? _MAXORDINAL) = false) as ->; [|done].
      apply andb_false_iff in H2 as [H2%Z.ltb_ge|H2%Z.leb_gt];
        apply andb_false_iff; [left; apply Z.leb_gt|right; apply Z.leb_gt]; lia.
  - assert ((1 <=? n1 - 1) && (n1 - 1 + 1 <=? _MAXORDINAL) = false) as ->; [|done].
    apply andb_false_iff in H1 as [H1%Z.ltb_ge|H1%Z.leb_gt];
      apply andb_false_iff; [left; apply Z.leb_gt|right; apply Z.leb_gt]; lia.
Qed.

(** X17. The cutoff of a date-only string, in closed form, for both
    variants.  With a valid clock reading, the resolver returns the
    current UTC clock time, to the second, on the day that lies
    [(today - D).days + 1] days before the current UTC day, and it raises
    [OverflowError] exactly when that day, or the day after it, is not a
    day of the calendar.  So the time of day of the cutoff is the time of
    the run, not midnight; and its day is the day before [D] when the
    UTC day and the local day agree, but two days before [D] while the
    local day is already one ahead of the UTC day. *)
Theorem cutoff_keeps_clock_time_and_moves_back_whole_days
    (isodate_parse_date : string → date + exn) (clk : clock) (d : date) (tr : trace) :
  valid_date d = true → valid_datetime (now_utc clk) = true →
  let expected :=
    if (1 <=? cutoff_day clk d) && (cutoff_day clk d + 1 <=? _MAXORDINAL)
    then Ok (utc_timestamp_seconds (on_day (cutoff_day clk d) (in_utc (now_utc clk))))
    else Raise OverflowError in
  fst (builder_lambda._compute_cutoff_iso isodate_parse_date clk
         (VStr (date_isoformat d)) tr) = expected
  ∧ fst (main._compute_cutoff_iso clk (VStr (date_isoformat d)) tr) = expected
  ∧ (dt_date (now_utc clk) = today_local clk → cutoff_day clk d = toordinal d - 1)
  ∧ (toordinal (today_local clk) = toordinal (dt_date (now_utc clk)) + 1 →
     cutoff_day clk d = toordinal d - 2).
Proof.
  intros Hvalid Hnow expected.
  destruct (date_only_string_normalizes d Hvalid) as (Hstrip & Hends & HT & Hparse).
  split_and!.
  - unfold builder_lambda._compute_cutoff_iso. rewrite Hstrip, Hends, HT, Hparse.
    munfold. simpl dt_date. rewrite cutoff_from_date_closed by done.
    fold expected. by destruct expected.
  - unfold main._compute_cutoff_iso. rewrite Hends, Hparse.
    munfold. simpl dt_date. rewrite cutoff_from_date_closed by done.
    fold expected. by destruct expected.
  - intros Hsame. unfold cutoff_day, date_sub_days. rewrite Hsame. lia.
  - intros Hahead. unfold cutoff_day, date_sub_days. lia.
Qed.

Lemma cutoff_keeps_clock_time_and_moves_back_whole_days_witness :
  let expected :=
    if (1 <=? cutoff_day demo_clock {| year := 2024; month := 1; day := 15 |})
       && (cutoff_day demo_clock {| year := 2024; month := 1; day := 15 |} + 1
           <=? _MAXORDINAL)
    then Ok (utc_timestamp_seconds
               (on_day (cutoff_day demo_clock {| year := 2024; month := 1; day := 15 |})
                  (in_utc (now_utc demo_clock))))
    else Raise OverflowError in
  fst (builder_lambda._compute_cutoff_iso demo_parse_date demo_clock
         (VStr (date_isoformat {| year := 2024; month := 1; day := 15 |})) [])
  = expected
  ∧ fst (main._compute_cutoff_iso demo_clock
           (VStr (date_isoformat {| year := 2024; month := 1; day := 15 |})) [])
    = expected
  ∧ (dt_date (now_utc demo_clock) = today_local demo_clock →
     cutoff_day demo_clock {| year := 2024; month := 1; day := 15 |}
     = toordinal {| year := 2024; month := 1; day := 15 |} - 1)
  ∧ (toordinal (today_local demo_clock) = toordinal (dt_date (now_utc demo_clock)) + 1 →
     cutoff_day demo_clock {| year := 2024; month := 1; day := 15 |}
     = toordinal {| year := 2024; month := 1; day := 15 |} - 2).
Proof.
  apply (cutoff_keeps_clock_time_and_moves_back_whole_days demo_parse_date demo_clock
           {| year := 2024; month := 1; day := 15 |} []).
  - reflexivity.
  - reflexivity.
Defined.

(** The run of the witness, evaluated: the cutoff of [2024-01-15], asked
    for on 20 January at 03:04:05 UTC. *)
Example cutoff_closed_form_demo :
  utc_timestamp_seconds
    (on_day (cutoff_day demo_clock {| year := 2024; month := 1; day := 15 |})
       (in_utc (now_utc demo_clock)))
  = "2024-01-14T03:04:05Z".
Proof. vm_compute. reflexivity. Qed.
(** *** Timestamps as input *)

Lemma replace_from_absent (c0 : ascii) (old new s t : string) :
  contains c0 s = false →
  replace_from (String c0 old) new 0 (s +:+ t)
  = s +:+ replace_from (String c0 old) new 0 t.
Proof.
  induction s as [|a s IH]; intros Habsent; [done|].
  simpl in Habsent. apply orb_false_iff in Habsent as [Ha Hs].
  rewrite !append_cons. cbn [replace_from String.prefix].
  destruct (ascii_dec c0 a) as [<-|_]; [by rewrite Ascii.eqb_refl in Ha|].
  by rewrite IH.
Qed.

Section TimestampShape.

Context (c1 c2 c3 c4 c5 c6 c7 c8 h1 h2 m1 m2 s1 s2 : ascii).
Context (D1 : is_digit c1 = true) (D2 : is_digit c2 = true) (D3 : is_digit c3 = true)
        (D4 : is_digit c4 = true) (D5 : is_digit c5 = true) (D6 : is_digit c6 = true)
        (D7 : is_digit c7 = true) (D8 : is_digit c8 = true).
Context (T1 : is_digit h1 = true) (T2 : is_digit h2 = true) (T3 : is_digit m1 = true)
        (T4 : is_digit m2 = true) (T5 : is_digit s1 = true) (T6 : is_digit s2 = true).

Abbreviation stamp rest :=
  (date_shape c1 c2 c3 c4 c5 c6 c7 c8 (String "T" (time_shape h1 h2 m1 m2 s1 s2 rest))).

Lemma strip_stamp : strip (stamp "") = stamp "" ∧ strip (stamp "Z") = stamp "Z".
Proof.
  pose proof (digit_facts _ D1) as (Hs1 & _). pose proof (digit_facts _ T6) as (Hs2 & _).
  unfold strip, date_shape, time_shape. cbn [lstrip]. rewrite Hs1.
  cbn [String.rev String.rev_app lstrip]. rewrite Hs2.
  change (isspace "Z") with false. cbv iota. done.
Qed.

Lemma endswith_stamp : endswith (stamp "") "Z" = false ∧ endswith (stamp "Z") "Z" = true.
Proof.
  pose proof (digit_facts _ T6) as (_ & HZ & _).
  unfold date_shape, time_shape. cbn [endswith]. by rewrite HZ.
Qed.

Lemma contains_T_stamp : contains "T" (stamp "") = true.
Proof.
  unfold date_shape, time_shape. cbn [contains].
  destruct (digit_facts _ D1) as (_ & _ & -> & _).
  destruct (digit_facts _ D2) as (_ & _ & -> & _).
  destruct (digit_facts _ D3) as (_ & _ & -> & _).
  destruct (digit_facts _ D4) as (_ & _ & -> & _).
  destruct (digit_facts _ D5) as (_ & _ & -> & _).
  destruct (digit_facts _ D6) as (_ & _ & -> & _).
  destruct (digit_facts _ D7) as (_ & _ & -> & _).
  destruct (digit_facts _ D8) as (_ & _ & -> & _).
  reflexivity.
Qed.

Lemma contains_Z_stamp : contains "Z" (stamp "") = false.
Proof.
  unfold date_shape, time_shape. cbn [contains].
  destruct (digit_facts _ D1) as (_ & -> & _). destruct (digit_facts _ D2) as (_ & -> & _).
  destruct (digit_facts _ D3) as (_ & -> & _). destruct (digit_facts _ D4) as (_ & -> & _).
  destruct (digit_facts _ D5) as (_ & -> & _). destruct (digit_facts _ D6) as (_ & -> & _).
  destruct (digit_facts _ D7) as (_ & -> & _). destruct (digit_facts _ D8) as (_ & -> & _).
  destruct (digit_facts _ T1) as (_ & -> & _). destruct (digit_facts _ T2) as (_ & -> & _).
  destruct (digit_facts _ T3) as (_ & -> & _). destruct (digit_facts _ T4) as (_ & -> & _).
  destruct (digit_facts _ T5) as (_ & -> & _). destruct (digit_facts _ T6) as (_ & -> & _).
  reflexivity.
Qed.

Lemma replace_Z_offset_stamp : replace "Z" "+00:00" (stamp "Z") = stamp "+00:00".
Proof.
  unfold replace. change (stamp "Z") with (stamp "" +:+ "Z").
  by rewrite replace_from_absent by apply contains_Z_stamp.
Qed.

Lemma replace_Z_nothing_stamp : replace "Z" "" (stamp "Z") = stamp "".
Proof.
  unfold replace. change (stamp "Z") with (stamp "" +:+ "Z").
  by rewrite replace_from_absent by apply contains_Z_stamp.
Qed.

Context (y mo d h mi s : Z).
Context (Py : parse4 c1 c2 c3 c4 = Some y) (Pm : parse2 c5 c6 = Some mo)
        (Pd : parse2 c7 c8 = Some d) (Ph : parse2 h1 h2 = Some h)
        (Pmi : parse2 m1 m2 = Some mi) (Ps : parse2 s1 s2 = Some s).
Context (Hvalid : valid_date {| year := y; month := mo; day := d |} = true).
Context (Hh : h < 24) (Hmi : mi < 60) (Hs : s < 60).

Lemma fromisoformat_stamp :
  fromisoformat (stamp "")
  = Some {| dt_date := {| year := y; month := mo; day := d |}; hour := h; minute := mi;
            second := s; microsecond := 0; utcoffset := None |}
  ∧ fromisoformat (stamp "+00:00")
    = Some {| dt_date := {| year := y; month := mo; day := d |}; hour := h; minute := mi;
              second := s; microsecond := 0; utcoffset := Some 0 |}
  ∧ fromisoformat (stamp "T00:00:00") = None.
Proof.
  apply Z.ltb_lt in Hh, Hmi, Hs.
  unfold fromisoformat, parse_date_part, parse_time_part, date_shape, time_shape.
  cbn [Ascii.eqb Bool.eqb andb]. rewrite Py, Pm, Pd. cbn [mbind option_bind].
  rewrite Hvalid. cbn [mbind option_bind]. rewrite Ph, Pmi, Ps. cbn [mbind option_bind].
  rewrite Hh, Hmi, Hs. done.
Qed.

End TimestampShape.

(** What the string branches of the two variants meet on a timestamp
    [YYYY-MM-DDTHH:MM:SS], with and without the suffix [Z]. *)
Lemma naive_timestamp_facts (d : date) (h m s : Z) :
  valid_date d = true → 0 ≤ h < 24 → 0 ≤ m < 60 → 0 ≤ s < 60 →
  let X := naive_timestamp d h m s in
  (strip X = X ∧ strip (X +:+ "Z") = X +:+ "Z")
  ∧ (endswith X "Z" = false ∧ endswith (X +:+ "Z") "Z" = true)
  ∧ contains "T" X = true
  ∧ (replace "Z" "+00:00" (X +:+ "Z") = X +:+ "+00:00" ∧ replace "Z" "" (X +:+ "Z") = X)
  ∧ (fromisoformat X
     = Some {| dt_date := d; hour := h; minute := m; second := s; microsecond := 0;
               utcoffset := None |}
     ∧ fromisoformat (X +:+ "+00:00")
       = Some {| dt_date := d; hour := h; minute := m; second := s; microsecond := 0;
                 utcoffset := Some 0 |}
     ∧ fromisoformat (X +:+ "T00:00:00") = None).
Proof.
  intros Hvalid Hh Hm Hs X.
  destruct (valid_date_bounds d Hvalid) as (By & Bm & Bd).
  destruct d as [y mo dd]. simpl in By, Bm, Bd.
  pose (stamp rest :=
          date_shape (digit_char (y / 1000 mod 10)) (digit_char (y / 100 mod 10))
            (digit_char (y / 10 mod 10)) (digit_char (y mod 10))
            (digit_char (mo / 10 mod 10)) (digit_char (mo mod 10))
            (digit_char (dd / 10 mod 10)) (digit_char (dd mod 10))
            (String "T"
               (time_shape (digit_char (h / 10 mod 10)) (digit_char (h mod 10))
                  (digit_char (m / 10 mod 10)) (digit_char (m mod 10))
                  (digit_char (s / 10 mod 10)) (digit_char (s mod 10)) rest))).
  assert (∀ rest, X +:+ rest = stamp rest) as Happ by reflexivity.
  assert (X = stamp "") as -> by reflexivity.
  change (stamp "" +:+ ?rest) with (stamp rest).
  unfold stamp. split_and!.
  - apply strip_stamp; apply digit_char_mod.
  - apply strip_stamp; apply digit_char_mod.
  - apply endswith_stamp; apply digit_char_mod.
  - apply endswith_stamp; apply digit_char_mod.
  - apply contains_T_stamp; apply digit_char_mod.
  - apply replace_Z_offset_stamp; apply digit_char_mod.
  - apply replace_Z_nothing_stamp; apply digit_char_mod.
  - apply (fromisoformat_stamp _ _ _ _ _ _ _ _ _ _ _ _ _ _ y mo dd h m s);
      first [apply parse4_fmt; lia | apply parse2_fmt; lia | done | lia].
  - apply (fromisoformat_stamp _ _ _ _ _ _ _ _ _ _ _ _ _ _ y mo dd h m s);
      first [apply parse4_fmt; lia | apply parse2_fmt; lia | done | lia].
  - apply (fromisoformat_stamp _ _ _ _ _ _ _ _ _ _ _ _ _ _ y mo dd h m s);
      first [apply parse4_fmt; lia | apply parse2_fmt; lia | done | lia].
Qed.

(** X18. A UTC timestamp as [earliest_date] is cut to its date.  For a
    timestamp [YYYY-MM-DDTHH:MM:SSZ], either variant resolves the cutoff
    exactly as it does for the date [YYYY-MM-DD] alone, log lines
    included: the time of day of the input plays no part.  In
    particular the resolver accepts the timestamps it returns. *)
Theorem utc_timestamp_is_cut_to_its_date
    (isodate_parse_date : string → date + exn) (clk : clock) (dt : datetime) (tr : trace) :
  valid_datetime dt = true →
  builder_lambda._compute_cutoff_iso isodate_parse_date clk
    (VStr (utc_timestamp_seconds dt)) tr
  = builder_lambda._compute_cutoff_iso isodate_parse_date clk
      (VStr (date_isoformat (dt_date dt))) tr
  ∧ main._compute_cutoff_iso clk (VStr (utc_timestamp_seconds dt)) tr
    = main._compute_cutoff_iso clk (VStr (date_isoformat (dt_date dt))) tr.
Proof.
  intros Hdt. destruct (valid_datetime_bounds dt Hdt) as (Hvalid & Hh & Hm & Hs & _).
  destruct (date_only_string_normalizes _ Hvalid) as (Dstrip & Dends & DT & Dparse).
  destruct (naive_timestamp_facts (dt_date dt) (hour dt) (minute dt) (second dt)
              Hvalid Hh Hm Hs)
    as ([_ Sstrip] & [_ Sends] & _ & [Soff Snone] & (Pnaive & Poff & _)).
  change (utc_timestamp_seconds dt)
    with (naive_timestamp (dt_date dt) (hour dt) (minute dt) (second dt) +:+ "Z").
  split.
  - unfold builder_lambda._compute_cutoff_iso.
    by rewrite Sstrip, Sends, Soff, Poff, Dstrip, Dends, DT, Dparse.
  - unfold main._compute_cutoff_iso.
    by rewrite Sends, Snone, Pnaive, Dends, Dparse.
Qed.

Lemma utc_timestamp_is_cut_to_its_date_witness :
  builder_lambda._compute_cutoff_iso demo_parse_date demo_clock
    (VStr (utc_timestamp_seconds (now_utc demo_clock))) []
  = builder_lambda._compute_cutoff_iso demo_parse_date demo_clock
      (VStr (date_isoformat (dt_date (now_utc demo_clock)))) []
  ∧ main._compute_cutoff_iso demo_clock (VStr (utc_timestamp_seconds (now_utc demo_clock))) []
    = main._compute_cutoff_iso demo_clock
        (VStr (date_isoformat (dt_date (now_utc demo_clock)))) [].
Proof.
  apply (utc_timestamp_is_cut_to_its_date demo_parse_date demo_clock (now_utc demo_clock) []).
  reflexivity.
Defined.

(** X19. A timestamp without zone splits the variants.  For
    [YYYY-MM-DDTHH:MM:SS], [builder_lambda.py] resolves the cutoff of
    its date, as for the date alone; [main.py], which appends a midnight to
    every string that does not end in [Z], cannot parse the result, logs
    the failure and raises [ValueError]. *)
Theorem timestamp_without_zone_splits_the_variants
    (isodate_parse_date : string → date + exn) (clk : clock) (d : date) (h m s : Z)
    (tr : trace) :
  valid_date d = true → 0 ≤ h < 24 → 0 ≤ m < 60 → 0 ≤ s < 60 →
  builder_lambda._compute_cutoff_iso isodate_parse_date clk
    (VStr (naive_timestamp d h m s)) tr
  = builder_lambda._compute_cutoff_iso isodate_parse_date clk (VStr (date_isoformat d)) tr
  ∧ main._compute_cutoff_iso clk (VStr (naive_timestamp d h m s)) tr
    = (Raise (ValueError "Invalid isoformat string"),
       tr ++ [Log ERROR "Failed to compute cutoff ISO: "]).
Proof.
  intros Hvalid Hh Hm Hs.
  destruct (date_only_string_normalizes _ Hvalid) as (Dstrip & Dends & DT & Dparse).
  destruct (naive_timestamp_facts d h m s Hvalid Hh Hm Hs)
    as ([Sstrip _] & [Sends _] & ST & _ & (Pnaive & _ & Pmidnight)).
  split.
  - unfold builder_lambda._compute_cutoff_iso.
    by rewrite Sstrip, Sends, ST, Pnaive, Dstrip, Dends, DT, Dparse.
  - unfold main._compute_cutoff_iso. by rewrite Sends, Pmidnight.
Qed.

Lemma timestamp_without_zone_splits_the_variants_witness :
  builder_lambda._compute_cutoff_iso demo_parse_date demo_clock
    (VStr (naive_timestamp {| year := 2024; month := 1; day := 15 |} 10 30 0)) []
  = builder_lambda._compute_cutoff_iso demo_parse_date demo_clock
      (VStr (date_isoformat {| year := 2024; month := 1; day := 15 |})) []
  ∧ main._compute_cutoff_iso demo_clock
      (VStr (naive_timestamp {| year := 2024; month := 1; day := 15 |} 10 30 0)) []
    = (Raise (ValueError "Invalid isoformat string"),
       [] ++ [Log ERROR "Failed to compute cutoff ISO: "]).
Proof.
  apply (timestamp_without_zone_splits_the_variants demo_parse_date demo_clock
           {| year := 2024; month := 1; day := 15 |} 10 30 0 []).
  - reflexivity.
  - lia.
  - lia.
  - lia.
Defined.

Example naive_timestamp_demo :
  naive_timestamp {| year := 2024; month := 1; day := 15 |} 10 30 0 = "2024-01-15T10:30:00".
Proof. reflexivity. Qed.

(** Takes the result of a finished run as the witness. *)
Ltac give_result :=
  lazymatch goal with
  | |- ∃ r, (?x, _) = (r, _) ∧ _ => exists x
  end.

(** X20. What the cutoff resolvers can raise, and what they log.  Both
    are pure but for their log lines and always come to an end.  The
    [builder_lambda.py] resolver logs its input at DEBUG; either resolver
    adds exactly one ERROR line when it fails, and none when it returns.
    [builder_lambda.py] fails with [ValueError] on [None], with
    [TypeError] on a value that is neither a string nor a date, with
    whatever [isodate.parse_date] raises on a string that neither parser
    accepts, or with [OverflowError]; [main.py] fails with [ValueError]
    on a string it cannot parse, with [AttributeError] on any value that
    is neither a string nor a datetime (a plain date included), or with
    [OverflowError]. *)
Theorem cutoff_resolvers_log_each_failure_once
    (isodate_parse_date : string → date + exn) (clk : clock) (earliest_date : pyval)
    (tr : trace) :
  (∃ r,
     builder_lambda._compute_cutoff_iso isodate_parse_date clk earliest_date tr
     = (r, tr ++ Log DEBUG "_compute_cutoff_iso input earliest_date=%r type=%s"
              :: (if is_ok r then [] else [Log ERROR "Failed to compute cutoff ISO: "]))
     ∧ (is_ok r = true
        ∨ r = Raise (ValueError "earliest_date is required") ∧ earliest_date = VNone
        ∨ r = Raise TypeError
        ∨ (∃ s s' e, earliest_date = VStr s ∧ isodate_parse_date s' = inr e ∧ r = Raise e)
        ∨ r = Raise OverflowError))
  ∧ (∃ r,
       main._compute_cutoff_iso clk earliest_date tr
       = (r, tr ++ (if is_ok r then [] else [Log ERROR "Failed to compute cutoff ISO: "]))
       ∧ (is_ok r = true
          ∨ r = Raise (ValueError "Invalid isoformat string") ∧ (∃ s, earliest_date = VStr s)
          ∨ r = Raise AttributeError
          ∨ r = Raise OverflowError)).
Proof.
  assert (∀ d t, ∃ r, cutoff_from_date clk d t = (r, t)
                      ∧ (is_ok r = true ∨ r = Raise OverflowError)) as Hlast.
  { intros d t. unfold cutoff_from_date. cbv zeta.
    destruct (datetime_sub (in_utc (now_utc clk)) _) as [c1|]; [|by eexists; eauto].
    destruct (datetime_sub c1 _); eexists; split; try reflexivity; eauto. }
  split.
  - unfold builder_lambda._compute_cutoff_iso. munfold.
    assert (∀ d, ∃ r,
      (match cutoff_from_date clk d
               (tr ++ [Log DEBUG "_compute_cutoff_iso input earliest_date=%r type=%s"]) with
       | (Raise e, tr') =>
           let (_, tr'0) := (Ok tt, tr' ++ [Log ERROR "Failed to compute cutoff ISO: "]) in
           (Raise e, tr'0)
       | r => r
       end : result string * trace)
      = (r, tr ++ Log DEBUG "_compute_cutoff_iso input earliest_date=%r type=%s"
               :: (if is_ok r then [] else [Log ERROR "Failed to compute cutoff ISO: "]))
      ∧ (is_ok r = true
         ∨ r = Raise (ValueError "earliest_date is required") ∧ earliest_date = VNone
         ∨ r = Raise TypeError
         ∨ (∃ s s' e, earliest_date = VStr s ∧ isodate_parse_date s' = inr e ∧ r = Raise e)
         ∨ r = Raise OverflowError)) as Htail.
    { intros d. destruct (Hlast d (tr ++ [Log DEBUG
                 "_compute_cutoff_iso input earliest_date=%r type=%s"])) as (r & -> & Hr).
      destruct Hr as [Hok | ->].
      - destruct r as [c| |]; try done. exists (Ok c). split; [reflexivity|]. by left.
      - exists (Raise OverflowError). rewrite <- app_assoc. split; [reflexivity|].
        by do 4 right. }
    destruct earliest_date as [| | |s|d|dt| |]; simpl; try apply Htail.
    1-3, 5-6: give_result; rewrite <- app_assoc; (split; [reflexivity|]); simpl; eauto 6.
    destruct (if endswith (strip s) "Z" then _ else _) as [dt|]; simpl; [apply Htail|].
    destruct (isodate_parse_date (strip s)) as [d|e] eqn:Hparse; simpl; [apply Htail|].
    give_result. rewrite <- app_assoc. split; [reflexivity|].
    do 3 right. left. by exists s, (strip s), e.
  - unfold main._compute_cutoff_iso. munfold.
    assert (∀ d, ∃ r,
      (match cutoff_from_date clk d tr with
       | (Raise e, tr') =>
           let (_, tr'0) := (Ok tt, tr' ++ [Log ERROR "Failed to compute cutoff ISO: "]) in
           (Raise e, tr'0)
       | r => r
       end : result string * trace)
      = (r, tr ++ (if is_ok r then [] else [Log ERROR "Failed to compute cutoff ISO: "]))
      ∧ (is_ok r = true
         ∨ r = Raise (ValueError "Invalid isoformat string") ∧ (∃ s, earliest_date = VStr s)
         ∨ r = Raise AttributeError
         ∨ r = Raise OverflowError)) as Htail.
    { intros d. destruct (Hlast d tr) as (r & -> & Hr).
      destruct Hr as [Hok | ->].
      - destruct r as [c| |]; try done. exists (Ok c). rewrite app_nil_r.
        split; [reflexivity|]. by left.
      - exists (Raise OverflowError). split; [reflexivity|]. by do 3 right. }
    destruct earliest_date as [| | |s|d|dt| |]; simpl; try apply Htail.
    1-3, 5-7: give_result; (split; [reflexivity|]); simpl; eauto 6.
    destruct (if endswith s "Z" then _ else _) as [dt|]; simpl; [apply Htail|].
    give_result. split; [reflexivity|]. simpl. eauto 8.
Qed.

(** * The observers at work *)

(** The demonstration search asks two channels for two queries each; the
    query [goal] has a second page. *)
Example demo_search_requests :
  let tr := snd (builder_lambda._search_videos demo_parse_duration demo_yt demo_cfg
                   demo_cutoff "SG" 4 []) in
  first_page_requests tr
  = [("UC1", "goal"); ("UC1", "highlights"); ("UC2", "goal"); ("UC2", "highlights")]
  ∧ combinations ["UC1"; "UC2"] ["goal"; "highlights"] = first_page_requests tr
  ∧ count_search_requests tr = 6 ∧ count_metadata_requests tr = 6.
Proof. vm_compute. done. Qed.

(** A page token out of nowhere, a metadata request without a search
    answer before it, and a search before the credentials are what the
    observers rule out. *)
Example observers_rule_out :
  ¬ tokens_follow None [(goal_request (Some "p2"), None)]
  ∧ ¬ metadata_follows_search None [VideosList "a" None]
  ∧ ¬ credentials_first [SearchList (goal_request None) None; GetSecretValue true]
  ∧ ¬ scoped_request demo_cutoff "SG" ["UC1"] ["goal"]
        (SearchList {| rq_channelId := "UC1"; rq_q := "goal";
                       rq_publishedAfter := demo_cutoff; rq_regionCode := "US";
                       rq_pageToken := None |} None).
Proof.
  split_and!.
  - intros [[Hnone | (rq0 & resp0 & Hprev & _)] _]; discriminate.
  - by intros [[] _].
  - intros [Hcalls | [Hcalls | (rest & Hcalls)]]; discriminate.
  - intros (_ & Hregion & _). discriminate.
Qed.
